(** * The pet server of [app.py]: a shallow embedding and its properties

    The Flask application keeps all of its state in one SQLite database
    guarded by a single non-reentrant [threading.Lock] ([db_lock]) and in
    two process-wide variables of the step detector.  This development
    embeds the handlers that touch the [pet_state], [oled_display_state]
    and [important_events] tables, the scheduler tick, the emotion
    priority function and the step detector, and proves the properties
    the specification states about them.

    Conventions of the embedding:
    - a table is the list of its rows in rowid order; [fetchone] is the
      first row that satisfies the WHERE clause;
    - a [datetime] is an integer number of microseconds; a NULL column is
      [None];
    - a handler reads the clock once ([Clock]); [CURRENT_TIMESTAMP] is the
      UTC clock truncated to whole seconds;
    - Python floats are idealised as exact rationals ([Q]);
    - [get_db_connection] is assumed to succeed;
    - the [created_at]/[updated_at] columns of [pet_state], which no code
      reads, are left out. *)

From Stdlib Require Import ZArith QArith Lqa String List Bool Lia.
Import ListNotations.

Open Scope string_scope.
Open Scope list_scope.
Open Scope Z_scope.

(* ================================================================== *)
(** * Part I: the model                                                *)
(* ================================================================== *)

(** ** Python arithmetic helpers *)

(** [max(a, b)] and [min(a, b)] return their first argument unless the
    second is strictly larger (resp. smaller). *)
Definition py_max (a b : Z) : Z := if a <? b then b else a.
Definition py_min (a b : Z) : Z := if b <? a then b else a.

Definition Qlt_bool (x y : Q) : bool := negb (Qle_bool y x).
Definition py_maxQ (a b : Q) : Q := if Qlt_bool a b then b else a.
Definition py_minQ (a b : Q) : Q := if Qlt_bool b a then b else a.

(** ** Time *)

Definition timestamp := Z.

Definition seconds (n : Z) : Z := n * 1000000.
Definition minutes (n : Z) : Z := seconds (n * 60).
Definition hours (n : Z) : Z := minutes (n * 60).

Record Clock := {
  now : timestamp;      (* datetime.now(): local wall clock *)
  utcnow : timestamp    (* datetime.utcnow() *)
}.

(** SQLite's [CURRENT_TIMESTAMP]: UTC, whole seconds. *)
Definition CURRENT_TIMESTAMP (clk : Clock) : timestamp :=
  seconds (utcnow clk / 1000000).

(** ** Tables *)

(** One row of [pet_state]. *)
Record PetRow := {
  row_id : Z;
  device_id : string;
  age : Z;
  stage : string;
  health : Z;
  hunger : Q;
  cleanliness : Z;
  happiness : Z;
  energy : Z;
  poop_present : bool;
  poop_timestamp : option timestamp;
  digestion_due_time : option timestamp;
  current_menu : string;
  current_emotion : string;
  emotion_expire_at : option timestamp;
  action_lock : bool;
  version : Z;
  last_feed_time : option timestamp;
  last_play_time : option timestamp;
  last_sleep_time : option timestamp;
  last_clean_time : option timestamp;
  last_age_increment : option timestamp
}.

(** One row of [oled_display_state]. *)
Record OledRow := {
  o_device_id : string;
  animation_type : option string;
  animation_id : Z;
  animation_name : string;
  show_home_icon : option bool;
  show_food_icon : option bool;
  show_poop_icon : option bool;
  screen_type : option string;
  updated_at : option timestamp;
  updated_by : string
}.

(** One row of [important_events]. *)
Record EventRow := {
  e_id : Z;
  e_device_id : string;
  event_type : string;
  message : string;
  is_sent : bool
}.

(** The process state: the lock, the three tables, and the two
    variables of the step detector. *)
Record World := {
  db_lock : bool;                       (* True while some thread holds it *)
  pet_state : list PetRow;
  oled_display_state : list OledRow;
  important_events : list EventRow;
  last_step_time : Q;                   (* detect_steps.last_step_time *)
  step_count_global : Z
}.

Definition set_db_lock (b : bool) (w : World) : World :=
  {| db_lock := b; pet_state := pet_state w;
     oled_display_state := oled_display_state w;
     important_events := important_events w;
     last_step_time := last_step_time w;
     step_count_global := step_count_global w |}.

Definition set_pet_state (t : list PetRow) (w : World) : World :=
  {| db_lock := db_lock w; pet_state := t;
     oled_display_state := oled_display_state w;
     important_events := important_events w;
     last_step_time := last_step_time w;
     step_count_global := step_count_global w |}.

Definition set_oled_display_state (t : list OledRow) (w : World) : World :=
  {| db_lock := db_lock w; pet_state := pet_state w;
     oled_display_state := t;
     important_events := important_events w;
     last_step_time := last_step_time w;
     step_count_global := step_count_global w |}.

Definition set_important_events (t : list EventRow) (w : World) : World :=
  {| db_lock := db_lock w; pet_state := pet_state w;
     oled_display_state := oled_display_state w;
     important_events := t;
     last_step_time := last_step_time w;
     step_count_global := step_count_global w |}.

Definition set_step_state (t : Q) (n : Z) (w : World) : World :=
  {| db_lock := db_lock w; pet_state := pet_state w;
     oled_display_state := oled_display_state w;
     important_events := important_events w;
     last_step_time := t;
     step_count_global := n |}.

(** ** The handler monad *)

(** A call either returns, or blocks for ever on [db_lock] (the lock is
    a plain [Lock], so a thread that acquires it twice never proceeds),
    or exhausts the recursion budget of the model. *)
Inductive Outcome (A : Type) : Type :=
| Returns (a : A) (w : World)
| Deadlock (w : World)
| OutOfFuel.

Arguments Returns {A} a w.
Arguments Deadlock {A} w.
Arguments OutOfFuel {A}.

Definition M (A : Type) : Type := World -> Outcome A.

Definition ret {A} (a : A) : M A := fun w => Returns a w.

Definition bind {A B} (c : M A) (k : A -> M B) : M B :=
  fun w =>
    match c w with
    | Returns a w' => k a w'
    | Deadlock w' => Deadlock w'
    | OutOfFuel => OutOfFuel
    end.

Notation "x <- c ;; k" := (bind c (fun x => k))
  (at level 61, c at next level, right associativity).
Notation "c ;;; k" := (bind c (fun _ => k))
  (at level 61, right associativity).

Definition get_world : M World := fun w => Returns w w.
Definition modify (f : World -> World) : M unit := fun w => Returns tt (f w).
Definition out_of_fuel {A} : M A := fun _ => OutOfFuel.

(** [with db_lock: body].  Leaving the block, by falling through or by
    [return], releases the lock. *)
Definition with_db_lock {A} (body : M A) : M A :=
  fun w =>
    if db_lock w then Deadlock w
    else match body (set_db_lock true w) with
         | Returns a w' => Returns a (set_db_lock false w')
         | Deadlock w' => Deadlock w'
         | OutOfFuel => OutOfFuel
         end.

(** ** Partial updates of a pet row *)

(** One [key: value] entry of an [update_fields] dictionary. *)
Inductive Field :=
| F_age (v : Z)
| F_stage (v : string)
| F_health (v : Z)
| F_hunger (v : Q)
| F_cleanliness (v : Z)
| F_happiness (v : Z)
| F_energy (v : Z)
| F_poop_present (v : bool)
| F_poop_timestamp (v : option timestamp)
| F_digestion_due_time (v : option timestamp)
| F_current_menu (v : string)
| F_current_emotion (v : string)
| F_emotion_expire_at (v : option timestamp)
| F_action_lock (v : bool)
| F_last_feed_time (v : option timestamp)
| F_last_play_time (v : option timestamp)
| F_last_sleep_time (v : option timestamp)
| F_last_clean_time (v : option timestamp)
| F_last_age_increment (v : option timestamp).

Definition set_version (v : Z) (r : PetRow) : PetRow :=
  Build_PetRow (row_id r) (device_id r) (age r) (stage r) (health r) (hunger r)
    (cleanliness r) (happiness r) (energy r) (poop_present r)
    (poop_timestamp r) (digestion_due_time r) (current_menu r)
    (current_emotion r) (emotion_expire_at r) (action_lock r) v
    (last_feed_time r) (last_play_time r) (last_sleep_time r)
    (last_clean_time r) (last_age_increment r).

(** [{**row, key: value}] for one entry. *)
Definition set_field (r : PetRow) (f : Field) : PetRow :=
  let mk a st he hu cl ha en pp pt dd cm ce ex al lf lp ls lc la :=
    Build_PetRow (row_id r) (device_id r) a st he hu cl ha en pp pt dd cm ce
      ex al (version r) lf lp ls lc la in
  let a := age r in let st := stage r in let he := health r in
  let hu := hunger r in let cl := cleanliness r in
  let ha := happiness r in let en := energy r in
  let pp := poop_present r in let pt := poop_timestamp r in
  let dd := digestion_due_time r in let cm := current_menu r in
  let ce := current_emotion r in let ex := emotion_expire_at r in
  let al := action_lock r in let lf := last_feed_time r in
  let lp := last_play_time r in let ls := last_sleep_time r in
  let lc := last_clean_time r in
  let la := last_age_increment r in
  match f with
  | F_age v => mk v st he hu cl ha en pp pt dd cm ce ex al lf lp ls lc la
  | F_stage v => mk a v he hu cl ha en pp pt dd cm ce ex al lf lp ls lc la
  | F_health v => mk a st v hu cl ha en pp pt dd cm ce ex al lf lp ls lc la
  | F_hunger v => mk a st he v cl ha en pp pt dd cm ce ex al lf lp ls lc la
  | F_cleanliness v => mk a st he hu v ha en pp pt dd cm ce ex al lf lp ls lc la
  | F_happiness v => mk a st he hu cl v en pp pt dd cm ce ex al lf lp ls lc la
  | F_energy v => mk a st he hu cl ha v pp pt dd cm ce ex al lf lp ls lc la
  | F_poop_present v => mk a st he hu cl ha en v pt dd cm ce ex al lf lp ls lc la
  | F_poop_timestamp v => mk a st he hu cl ha en pp v dd cm ce ex al lf lp ls lc la
  | F_digestion_due_time v =>
      mk a st he hu cl ha en pp pt v cm ce ex al lf lp ls lc la
  | F_current_menu v => mk a st he hu cl ha en pp pt dd v ce ex al lf lp ls lc la
  | F_current_emotion v =>
      mk a st he hu cl ha en pp pt dd cm v ex al lf lp ls lc la
  | F_emotion_expire_at v =>
      mk a st he hu cl ha en pp pt dd cm ce v al lf lp ls lc la
  | F_action_lock v => mk a st he hu cl ha en pp pt dd cm ce ex v lf lp ls lc la
  | F_last_feed_time v => mk a st he hu cl ha en pp pt dd cm ce ex al v lp ls lc la
  | F_last_play_time v => mk a st he hu cl ha en pp pt dd cm ce ex al lf v ls lc la
  | F_last_sleep_time v =>
      mk a st he hu cl ha en pp pt dd cm ce ex al lf lp v lc la
  | F_last_clean_time v =>
      mk a st he hu cl ha en pp pt dd cm ce ex al lf lp ls v la
  | F_last_age_increment v =>
      mk a st he hu cl ha en pp pt dd cm ce ex al lf lp ls lc v
  end.

(** [{**state, **updates}]: the entries are written in order, so a key
    assigned twice keeps its last value. *)
Definition merge (state : PetRow) (updates : list Field) : PetRow :=
  fold_left set_field updates state.

(** ** SQL statements on [pet_state] *)

(** [SELECT ... FROM pet_state WHERE device_id = ?] followed by
    [fetchone()]. *)
Definition sql_select_pet (device : string) : M (option PetRow) :=
  fun w => Returns (find (fun r => (device_id r =? device)%string) (pet_state w)) w.

(** The columns an UPDATE of [update_pet_state_atomic] assigns, taken
    from [new_state]; the row keeps its own [id] and [device_id]. *)
Definition store_columns (new_state r : PetRow) : PetRow :=
  Build_PetRow (row_id r) (device_id r) (age new_state) (stage new_state)
    (health new_state) (hunger new_state) (cleanliness new_state)
    (happiness new_state) (energy new_state) (poop_present new_state)
    (poop_timestamp new_state) (digestion_due_time new_state)
    (current_menu new_state) (current_emotion new_state)
    (emotion_expire_at new_state) (action_lock new_state) (version new_state)
    (last_feed_time new_state) (last_play_time new_state)
    (last_sleep_time new_state) (last_clean_time new_state)
    (last_age_increment new_state).

(** [UPDATE pet_state SET version = ?, ... WHERE id = ? AND version = ?];
    the result is [cursor.rowcount]. *)
Definition sql_update_pet_versioned (new_state : PetRow) (id v : Z) : M Z :=
  fun w =>
    let hit r := (row_id r =? id) && (version r =? v) in
    Returns (Z.of_nat (length (filter hit (pet_state w))))
            (set_pet_state
               (map (fun r => if hit r then store_columns new_state r else r)
                    (pet_state w)) w).

(** [UPDATE pet_state SET <assignments> WHERE device_id = ?]: the
    statements that write the row directly.  The result is
    [cursor.rowcount]. *)
Definition sql_update_pet_by_device (device : string)
    (assignments : list Field) : M Z :=
  fun w =>
    let hit r := (device_id r =? device)%string in
    Returns (Z.of_nat (length (filter hit (pet_state w))))
            (set_pet_state
               (map (fun r => if hit r then merge r assignments else r)
                    (pet_state w)) w).

(** The rowid an AUTOINCREMENT key gives the next inserted row (no row
    of [pet_state] or [important_events] is ever deleted). *)
Definition next_id (ids : list Z) : Z := fold_right Z.max 0 ids + 1.

(** [INSERT INTO pet_state (device_id, age, stage, health, hunger,
    cleanliness, happiness, energy, current_menu, current_emotion,
    last_age_increment) VALUES (?, 0, 'INFANT', 100, 0, 100, 100, 100,
    'MAIN', 'IDLE', CURRENT_TIMESTAMP)]; the other columns take their
    defaults. *)
Definition default_pet_row (id : Z) (device : string) (ts : timestamp)
    : PetRow :=
  {| row_id := id; device_id := device; age := 0; stage := "INFANT";
     health := 100; hunger := 0; cleanliness := 100; happiness := 100;
     energy := 100; poop_present := false; poop_timestamp := None;
     digestion_due_time := None; current_menu := "MAIN";
     current_emotion := "IDLE"; emotion_expire_at := None;
     action_lock := false; version := 0; last_feed_time := None;
     last_play_time := None; last_sleep_time := None;
     last_clean_time := None; last_age_increment := Some ts |}.

Definition sql_insert_pet (clk : Clock) (device : string) : M unit :=
  fun w =>
    let id := next_id (map row_id (pet_state w)) in
    Returns tt
      (set_pet_state
         (pet_state w ++ [default_pet_row id device (CURRENT_TIMESTAMP clk)])
         w).

(** ** Pet engine: the central update function *)

(** [update_pet_state_atomic(device_id, update_fields)] (app.py, lines
    691-795).  The whole body
    runs inside [with db_lock]; so does the retry, which is a recursive
    call made before the block is left.  [fuel] bounds the recursion
    depth of the model. *)
Fixpoint update_pet_state_atomic (fuel : nat) (device : string)
    (update_fields : list Field) {struct fuel} : M (option PetRow) :=
  with_db_lock (
    result <- sql_select_pet device ;;
    match result with
    | None => ret None
    | Some current_state =>
        let new_state :=
          set_version (version current_state + 1)
                      (merge current_state update_fields) in
        rowcount <- sql_update_pet_versioned new_state
                      (row_id current_state) (version current_state) ;;
        if rowcount =? 0 then
          match fuel with
          | O => out_of_fuel
          | S fuel' => update_pet_state_atomic fuel' device update_fields
          end
        else ret (Some new_state)
    end).

(** [get_pet_state(device_id)] (lines 797-843). *)
Definition get_pet_state (device : string) : M (option PetRow) :=
  with_db_lock (sql_select_pet device).

(** ** Emotion priority *)

(** [get_emotion_priority(state)] (lines 845-884); the function reads
    [datetime.now()]. *)
Definition get_emotion_priority (clk : Clock) (state : PetRow) : string :=
  let locked :=
    match emotion_expire_at state with
    | Some expire_time => now clk <? expire_time
    | None => false
    end in
  if locked then current_emotion state
  else if health state <? 40 then "SICK"
  else if poop_present state then
    match poop_timestamp state with
    | Some poop_time =>
        if minutes 15 <? now clk - poop_time then "SICK" else "POOP"
    | None => "POOP"
    end
  else if Qlt_bool 70 (hunger state) then
    if (stage state =? "INFANT")%string then "CRY" else "HUNGER"
  else if energy state <? 30 then "SLEEP"
  else if 80 <? happiness state then "HAPPY"
  else if happiness state <? 40 then "SAD"
  else "IDLE".

(** ** Pet engine: the scheduler tick *)

(** Stage of an age, as the tick remaps it. *)
Definition stage_of_age (new_age : Z) : string :=
  if new_age <=? 5 then "INFANT"
  else if new_age <=? 10 then "CHILD"
  else if new_age <=? 17 then "ADULT"
  else if new_age <=? 21 then "OLD"
  else "END".

(** [hunger_increase] of a stage. *)
Definition hunger_increase (current_stage : string) : Z :=
  if (current_stage =? "INFANT")%string then 15
  else if (current_stage =? "CHILD")%string then 10
  else if (current_stage =? "ADULT")%string then 8
  else if (current_stage =? "OLD")%string then 12
  else 0.

(** The stage a tick works with: the fetched one, or the one its age
    progression has just assigned. *)
Definition tick_stage (clk : Clock) (state : PetRow) : string :=
  match last_age_increment state with
  | Some last_age_time =>
      if hours 24 <? now clk - last_age_time
      then stage_of_age (age state + 1) else stage state
  | None => stage state
  end.

(** [updates.get('stage', default)]. *)
Definition get_stage (updates : list Field) (default : string) : string :=
  fold_left (fun acc f => match f with F_stage v => v | _ => acc end)
            updates default.

(** Steps 1 to 5 of a tick (lines 911-979): the [updates] dictionary
    built from the fetched [state].  [rnd] is the value of [random.random()]. *)
Definition pet_engine_updates (clk : Clock) (rnd : Q) (state : PetRow)
    : list Field :=
  let updates : list Field := [] in
  (* 1. age progression *)
  let updates :=
    match last_age_increment state with
    | Some last_age_time =>
        if hours 24 <? now clk - last_age_time then
          updates ++ [F_age (age state + 1);
                      F_last_age_increment (Some (now clk));
                      F_stage (stage_of_age (age state + 1))]
        else updates
    | None => updates
    end in
  (* 2. hunger *)
  let current_stage := get_stage updates (stage state) in
  let updates :=
    updates ++
    [F_hunger (py_minQ 100
                 (hunger state + inject_Z (hunger_increase current_stage) / 30))]
  in
  (* 3. digestion and poop *)
  let updates :=
    match digestion_due_time state with
    | Some due_time =>
        if (due_time <? now clk) && negb (poop_present state) then
          updates ++ [F_poop_present true;
                      F_poop_timestamp (Some (now clk));
                      F_digestion_due_time None]
        else updates
    | None => updates
    end in
  let updates :=
    if poop_present state then
      match poop_timestamp state with
      | Some poop_time =>
          if minutes 15 <? now clk - poop_time then
            updates ++ [F_health (py_max 0 (health state - 10))]
          else updates
      | None => updates
      end
    else updates in
  (* 4. energy decay *)
  let updates := updates ++ [F_energy (py_max 0 (energy state - 2))] in
  (* 5. random sickness at OLD age *)
  if (current_stage =? "OLD")%string then
    if Qlt_bool rnd (1 # 100) then
      updates ++ [F_health (py_max 0 (health state - 5))]
    else updates
  else updates.

(** [datetime] is a local name of [pet_engine_cycle], bound by the
    [from datetime import ...] statements inside three of its branches.
    It is bound after an iteration if it was before or one of them ran. *)
Definition imports_datetime (state : PetRow) : bool :=
  match last_age_increment state with Some _ => true | None => false end
  || match digestion_due_time state with Some _ => true | None => false end
  || (poop_present state
      && match poop_timestamp state with Some _ => true | None => false end).

Inductive TickResult :=
| TickNoPet                       (* "No pet state found" *)
| TickSkipped                     (* action_lock set *)
| TickRaised                      (* an exception, caught and logged *)
| TickFailed                      (* update_pet_state_atomic returned None *)
| TickCommitted (result : PetRow).

(** The body of an iteration of [pet_engine_cycle] (lines 888-1016)
    once [state] has been fetched.  [datetime_bound] tells whether an earlier iteration bound
    the local name [datetime]. *)
Definition pet_engine_step (fuel : nat) (clk : Clock) (rnd : Q)
    (datetime_bound : bool) (device : string) (state : PetRow)
    : M TickResult :=
  if action_lock state then ret TickSkipped
  else
    let updates := pet_engine_updates clk rnd state in
    (* 6. emotion priority *)
    let merged_state := merge state updates in
    let new_emotion := get_emotion_priority clk merged_state in
    let with_emotion := updates ++ [F_current_emotion new_emotion] in
    let commit (updates : list Field) : M TickResult :=
      result <- update_pet_state_atomic fuel device updates ;;
      match result with
      | Some result => ret (TickCommitted result)
      | None => ret TickFailed
      end in
    match emotion_expire_at state with
    | None => commit with_emotion
    | Some expire_at =>
        if datetime_bound || imports_datetime state then
          if expire_at <=? now clk then commit with_emotion
          else commit updates
        else ret TickRaised          (* UnboundLocalError *)
    end.

(** One iteration of the loop of [pet_engine_cycle], after the sleep. *)
Definition pet_engine_iteration (fuel : nat) (clk : Clock) (rnd : Q)
    (datetime_bound : bool) : M TickResult :=
  let device := "ESP32_001" in
  state <- get_pet_state device ;;
  match state with
  | None => ret TickNoPet
  | Some state => pet_engine_step fuel clk rnd datetime_bound device state
  end.

(** ** Pet action endpoints *)

Inductive FeedResponse :=
| FeedOk (hunger : Q) (emotion : string) (digestion_due : option timestamp)
| FeedNotFound                    (* 404 "Pet not found" *)
| FeedFailed.                     (* 500 "Failed to feed pet" *)

(** The feed dictionary shared by [/api/pet/feed] and [/upload]. *)
Definition feed_updates (clk : Clock) (state : PetRow) : list Field :=
  [F_hunger (py_maxQ 0 (hunger state - 40));
   F_last_feed_time (Some (now clk));
   F_digestion_due_time (Some (now clk + minutes 30));
   F_current_emotion "EATING";
   F_emotion_expire_at (Some (now clk + seconds 3))].

(** [POST /api/pet/feed], [pet_feed] (lines 1785-1830). *)
Definition pet_feed (fuel : nat) (clk : Clock) (device : string)
    : M FeedResponse :=
  state <- get_pet_state device ;;
  match state with
  | None => ret FeedNotFound
  | Some state =>
      update_pet_state_atomic fuel device [F_action_lock true] ;;;
      result <- update_pet_state_atomic fuel device
                  (feed_updates clk state ++ [F_action_lock false]) ;;
      match result with
      | Some result =>
          ret (FeedOk (hunger result) (current_emotion result)
                      (digestion_due_time result))
      | None => ret FeedFailed
      end
  end.

Inductive UploadResponse :=
| UploadError                     (* 400, empty body *)
| UploadOk.                       (* 200, 'pet_fed': True *)

(** [POST /upload] (lines 1391-1468).  The image row goes to [sensor_readings], a table
    the model does not hold; only the critical section is kept. *)
Definition upload_binary_image (fuel : nat) (clk : Clock)
    (image_data_empty : bool) (device : string) : M UploadResponse :=
  if image_data_empty then ret UploadError
  else
    with_db_lock (ret tt) ;;;
    state <- get_pet_state device ;;
    match state with
    | Some state =>
        update_pet_state_atomic fuel device (feed_updates clk state) ;;;
        ret UploadOk
    | None => ret UploadOk
    end.

Inductive ActionResponse :=
| ActionOk (result : PetRow)      (* 200, the resulting fields *)
| ActionNoop                      (* 200, nothing to do *)
| ActionNotFound                  (* 404 "Pet not found" *)
| ActionFailed.                   (* 500 *)

(** The common tail of the action endpoints: set the lock, commit the
    effect (which clears the lock), report. *)
Definition locked_action (fuel : nat) (device : string)
    (updates : list Field) : M ActionResponse :=
  update_pet_state_atomic fuel device [F_action_lock true] ;;;
  result <- update_pet_state_atomic fuel device updates ;;
  match result with
  | Some result => ret (ActionOk result)
  | None => ret ActionFailed
  end.

(** [POST /api/pet/clean] (lines 1832-1884). *)
Definition pet_clean (fuel : nat) (clk : Clock) (device : string)
    : M ActionResponse :=
  state <- get_pet_state device ;;
  match state with
  | None => ret ActionNotFound
  | Some state =>
      if negb (poop_present state) then ret ActionNoop
      else
        locked_action fuel device
          [F_poop_present false; F_poop_timestamp None; F_cleanliness 100;
           F_health (py_min 100 (health state + 5));
           F_last_clean_time (Some (now clk));
           F_current_emotion "CLEAN_SUCCESS";
           F_emotion_expire_at (Some (now clk + seconds 3));
           F_action_lock false]
  end.

(** [POST /api/pet/inject] (lines 1886-1933). *)
Definition pet_inject (fuel : nat) (clk : Clock) (device : string)
    : M ActionResponse :=
  state <- get_pet_state device ;;
  match state with
  | None => ret ActionNotFound
  | Some state =>
      if 80 <=? health state then ret ActionNoop
      else
        locked_action fuel device
          [F_health (py_min 100 (health state + 20));
           F_current_emotion "RECOVER";
           F_emotion_expire_at (Some (now clk + seconds 3));
           F_action_lock false]
  end.

(** [POST /api/pet/play-result] (lines 1935-1987); [result_type] is the request value
    after [.upper()]. *)
Definition pet_play_result (fuel : nat) (clk : Clock)
    (device result_type : string) : M ActionResponse :=
  state <- get_pet_state device ;;
  match state with
  | None => ret ActionNotFound
  | Some state =>
      locked_action fuel device
        (if (result_type =? "WIN")%string then
           [F_happiness (py_min 100 (happiness state + 20));
            F_last_play_time (Some (now clk));
            F_current_emotion "WIN";
            F_emotion_expire_at (Some (now clk + seconds 3));
            F_action_lock false]
         else
           [F_happiness (py_max 0 (happiness state - 10));
            F_last_play_time (Some (now clk));
            F_current_emotion "LOSE";
            F_emotion_expire_at (Some (now clk + seconds 3));
            F_action_lock false])
  end.

Inductive MenuResponse :=
| MenuOk (current_menu : string)  (* 200 *)
| MenuInvalid                     (* 400 *)
| MenuNotFound                    (* 404 *)
| MenuFailed.                     (* 500 *)

Definition in_strings (s : string) (l : list string) : bool :=
  existsb (fun x => (s =? x)%string) l.

(** [POST /api/pet/menu] (lines 1989-2023); [menu] is the request value after [.upper()]. *)
Definition pet_menu (fuel : nat) (device menu : string) : M MenuResponse :=
  if negb (in_strings menu ["MAIN"; "HEALTH"; "CLEAN"; "FEED"; "PLAY"])
  then ret MenuInvalid
  else
    state <- get_pet_state device ;;
    match state with
    | None => ret MenuNotFound
    | Some _ =>
        result <- update_pet_state_atomic fuel device [F_current_menu menu] ;;
        match result with
        | Some _ => ret (MenuOk menu)
        | None => ret MenuFailed
        end
    end.

(** [POST /api/oled-display/menu-switch] (lines 2866-2915), for a
    request with a JSON body: writes [current_menu] with a direct
    UPDATE. *)
Definition switch_menu (device menu : string) : M MenuResponse :=
  if negb (in_strings menu ["MAIN"; "FOOD_MENU"; "TOILET_MENU"])
  then ret MenuInvalid
  else
    with_db_lock (sql_update_pet_by_device device [F_current_menu menu]) ;;;
    ret (MenuOk menu).

(** ** SQL statements on [oled_display_state] *)

Definition sql_select_oled (device : string) : M (option OledRow) :=
  fun w =>
    Returns (find (fun r => (o_device_id r =? device)%string)
                  (oled_display_state w)) w.

(** [UPDATE oled_display_state SET ... WHERE device_id = ?], the
    assignment given as a function on the row. *)
Definition sql_update_oled (device : string) (assign : OledRow -> OledRow)
    : M Z :=
  fun w =>
    let hit r := (o_device_id r =? device)%string in
    Returns (Z.of_nat (length (filter hit (oled_display_state w))))
            (set_oled_display_state
               (map (fun r => if hit r then assign r else r)
                    (oled_display_state w)) w).

Definition sql_insert_oled (r : OledRow) : M unit :=
  modify (fun w => set_oled_display_state (oled_display_state w ++ [r]) w).

(** [DELETE FROM oled_display_state WHERE device_id = ?]. *)
Definition sql_delete_oled (device : string) : M unit :=
  modify (fun w =>
    set_oled_display_state
      (filter (fun r => negb (o_device_id r =? device)%string)
              (oled_display_state w)) w).

(** A new row with the column defaults of the CREATE TABLE statement. *)
Definition default_oled_row (clk : Clock) (device : string) : OledRow :=
  {| o_device_id := device; animation_type := Some "pet"; animation_id := 1;
     animation_name := "CHILD"; show_home_icon := Some false;
     show_food_icon := Some false; show_poop_icon := Some false;
     screen_type := Some "MAIN";
     updated_at := Some (CURRENT_TIMESTAMP clk); updated_by := "web_ui" |}.

(** The row [device_startup_complete] writes: as an UPDATE of [r], and,
    with [r] the default row, as its INSERT. *)
Definition startup_oled_row (clk : Clock) (r : OledRow) : OledRow :=
  {| o_device_id := o_device_id r; animation_type := Some "pet";
     animation_id := 0; animation_name := "INFANT";
     show_home_icon := Some false; show_food_icon := Some false;
     show_poop_icon := Some false; screen_type := Some "MAIN";
     updated_at := Some (CURRENT_TIMESTAMP clk);
     updated_by := "device_startup" |}.

(** The row [set_oled_display] writes. *)
Definition web_ui_oled_row (clk : Clock) (ty : option string) (id : Z)
    (name : string) (r : OledRow) : OledRow :=
  {| o_device_id := o_device_id r; animation_type := ty;
     animation_id := id; animation_name := name;
     show_home_icon := show_home_icon r; show_food_icon := show_food_icon r;
     show_poop_icon := show_poop_icon r; screen_type := screen_type r;
     updated_at := Some (CURRENT_TIMESTAMP clk); updated_by := "web_ui" |}.

Inductive Icon := HomeIcon | FoodIcon | PoopIcon.

(** The row an icon toggle writes. *)
Definition toggle_oled_row (clk : Clock) (icon : Icon) (v : option bool)
    (r : OledRow) : OledRow :=
  {| o_device_id := o_device_id r; animation_type := animation_type r;
     animation_id := animation_id r; animation_name := animation_name r;
     show_home_icon :=
       match icon with HomeIcon => v | _ => show_home_icon r end;
     show_food_icon :=
       match icon with FoodIcon => v | _ => show_food_icon r end;
     show_poop_icon :=
       match icon with PoopIcon => v | _ => show_poop_icon r end;
     screen_type := screen_type r;
     updated_at := Some (CURRENT_TIMESTAMP clk); updated_by := "web_ui" |}.

(** ** Database initialisation *)

Definition system_init_oled_row (clk : Clock) : OledRow :=
  {| o_device_id := "ESP32_001"; animation_type := Some "pet";
     animation_id := 1; animation_name := "CHILD";
     show_home_icon := Some false; show_food_icon := Some false;
     show_poop_icon := Some false; screen_type := Some "MAIN";
     updated_at := Some (CURRENT_TIMESTAMP clk);
     updated_by := "system_init" |}.

(** [init_database()] (lines 446-684): the part that fills the empty
    tables. *)
Definition init_database (clk : Clock) : M bool :=
  with_db_lock (
    w <- get_world ;;
    (match oled_display_state w with
     | [] => sql_insert_oled (system_init_oled_row clk)
     | _ => ret tt
     end) ;;;
    w <- get_world ;;
    (match pet_state w with
     | [] => sql_insert_pet clk "ESP32_001"
     | _ => ret tt
     end) ;;;
    ret true).

(** The process right after the module is loaded on a fresh database
    file: empty tables, lock free, detector at its defaults. *)
Definition empty_world : World :=
  {| db_lock := false; pet_state := []; oled_display_state := [];
     important_events := []; last_step_time := 0; step_count_global := 0 |}.

(** ** Display endpoints *)

Inductive SimpleResponse :=
| RespOk                          (* 200 *)
| RespBadRequest.                 (* 400 *)

(** [POST /api/oled-display/set] (lines 2422-2509). *)
Definition set_oled_display (clk : Clock) (is_json : bool)
    (anim_id : Z) (anim_type : option string) (device : string)
    : M SimpleResponse :=
  if negb is_json then ret RespBadRequest
  else if negb (existsb (Z.eqb anim_id) [0; 1; 2; 3]) then ret RespBadRequest
  else
    let animation_name :=
      if anim_id =? 0 then "INFANT"
      else if anim_id =? 1 then "CHILD"
      else if anim_id =? 2 then "ADULT"
      else "OLD" in
    with_db_lock (
      rowcount <- sql_update_oled device
                    (web_ui_oled_row clk anim_type anim_id animation_name) ;;
      if rowcount =? 0 then
        sql_insert_oled (web_ui_oled_row clk anim_type anim_id animation_name
                           (default_oled_row clk device))
      else ret tt) ;;;
    ret RespOk.

(** [POST /api/oled-display/reset] (lines 2512-2559). *)
Definition reset_oled_display (device : string) : M SimpleResponse :=
  with_db_lock (sql_delete_oled device) ;;;
  ret RespOk.

(** The three icon toggles, [POST /api/oled-display/*-icon-toggle]
    (lines 2669-2863). *)
Definition toggle_icon (clk : Clock) (icon : Icon) (v : option bool)
    (device : string) : M SimpleResponse :=
  with_db_lock (
    rowcount <- sql_update_oled device (toggle_oled_row clk icon v) ;;
    if rowcount =? 0 then
      sql_insert_oled (toggle_oled_row clk icon v
                         (default_oled_row clk device))
    else ret tt) ;;;
  ret RespOk.

(** The assignments of the startup reset of the pet row. *)
Definition startup_reset_fields (clk : Clock) : list Field :=
  [F_age 0; F_stage "INFANT"; F_health 100; F_hunger 0; F_cleanliness 100;
   F_happiness 100; F_energy 100; F_poop_present false;
   F_poop_timestamp None; F_digestion_due_time None; F_current_menu "MAIN";
   F_current_emotion "IDLE"; F_emotion_expire_at None; F_action_lock false;
   F_last_feed_time None; F_last_play_time None; F_last_sleep_time None;
   F_last_clean_time None;
   F_last_age_increment (Some (CURRENT_TIMESTAMP clk))].

(** [POST /api/device/startup-complete] (lines 2561-2667). *)
Definition device_startup_complete (clk : Clock) (device : string)
    : M SimpleResponse :=
  with_db_lock (
    rowcount <- sql_update_oled device (startup_oled_row clk) ;;
    (if rowcount =? 0 then
       sql_insert_oled (startup_oled_row clk (default_oled_row clk device))
     else ret tt) ;;;
    rowcount <- sql_update_pet_by_device device (startup_reset_fields clk) ;;
    if rowcount =? 0 then sql_insert_pet clk device else ret tt) ;;;
  ret RespOk.

(** ** The display poll *)

(** The pet part of a display descriptor; an absent JSON key is [None]. *)
Record PetView := {
  v_emotion : string;
  v_current_menu : string;
  v_health : Z;
  v_hunger : Q;
  v_cleanliness : Z;
  v_happiness : Z;
  v_energy : Z;
  v_poop_present : bool;
  v_age : option Z;
  v_is_hungry : option bool;
  v_play_eating_animation : option bool;
  v_play_cleaning_animation : option bool
}.

(** The JSON body and HTTP status of [GET /api/oled-display/get]. *)
Record Display := {
  d_http : Z;
  d_status : string;
  d_mode : string;
  d_animation_id : Z;
  d_animation_name : option string;
  d_animation_type : option string;
  d_stage : string;
  d_show_home_icon : bool;
  d_show_food_icon : bool;
  d_show_poop_icon : bool;
  d_screen_type : string;
  d_pet : option PetView
}.

(** The canonical descriptor of the startup lock. *)
Definition startup_display : Display :=
  {| d_http := 200; d_status := "success"; d_mode := "STARTUP_RESET";
     d_animation_id := 0; d_animation_name := Some "INFANT";
     d_animation_type := Some "pet"; d_stage := "INFANT";
     d_show_home_icon := false; d_show_food_icon := false;
     d_show_poop_icon := false; d_screen_type := "MAIN"; d_pet := None |}.

(** [bool(x) if x is not None else False]. *)
Definition icon_flag (x : option bool) : bool :=
  match x with Some b => b | None => false end.

(** [x or 'MAIN']. *)
Definition or_MAIN (x : option string) : string :=
  match x with
  | Some s => if (s =? "")%string then "MAIN" else s
  | None => "MAIN"
  end.

Definition manual_display (manual_selection : OledRow) : Display :=
  {| d_http := 200; d_status := "success"; d_mode := "MANUAL";
     d_animation_id := animation_id manual_selection;
     d_animation_name := Some (animation_name manual_selection);
     d_animation_type := animation_type manual_selection;
     d_stage := animation_name manual_selection;
     d_show_home_icon := icon_flag (show_home_icon manual_selection);
     d_show_food_icon := icon_flag (show_food_icon manual_selection);
     d_show_poop_icon := icon_flag (show_poop_icon manual_selection);
     d_screen_type := or_MAIN (screen_type manual_selection);
     d_pet := None |}.

(** The fallback when no pet state exists. *)
Definition default_display : Display :=
  {| d_http := 200; d_status := "success"; d_mode := "DEFAULT";
     d_animation_id := 1; d_animation_name := None;
     d_animation_type := None; d_stage := "CHILD";
     d_show_home_icon := true; d_show_food_icon := false;
     d_show_poop_icon := false; d_screen_type := "MAIN";
     d_pet := Some {| v_emotion := "IDLE"; v_current_menu := "MAIN";
                      v_health := 100; v_hunger := 0; v_cleanliness := 100;
                      v_happiness := 100; v_energy := 100;
                      v_poop_present := false; v_age := None;
                      v_is_hungry := None; v_play_eating_animation := None;
                      v_play_cleaning_animation := None |} |}.

(** [stage_to_id.get(stage, 1)]. *)
Definition stage_to_id (stage : string) : Z :=
  if (stage =? "INFANT")%string then 0
  else if (stage =? "CHILD")%string then 1
  else if (stage =? "ADULT")%string then 2
  else if (stage =? "OLD")%string then 3
  else if (stage =? "END")%string then 3
  else 1.

Definition automatic_display (animation_id : Z) (pet : PetRow)
    (current_menu : string) (play_eating play_cleaning : bool) : Display :=
  {| d_http := 200; d_status := "success"; d_mode := "AUTOMATIC";
     d_animation_id := animation_id;
     d_animation_name := Some (stage pet);
     d_animation_type := None; d_stage := stage pet;
     d_show_home_icon := true;
     d_show_food_icon := Qlt_bool 70 (hunger pet);
     d_show_poop_icon := poop_present pet;
     d_screen_type := current_menu;
     d_pet := Some {| v_emotion := current_emotion pet;
                      v_current_menu := current_menu;
                      v_health := health pet; v_hunger := hunger pet;
                      v_cleanliness := cleanliness pet;
                      v_happiness := happiness pet; v_energy := energy pet;
                      v_poop_present := poop_present pet;
                      v_age := Some (age pet);
                      v_is_hungry := Some (Qlt_bool 70 (hunger pet));
                      v_play_eating_animation := Some play_eating;
                      v_play_cleaning_animation := Some play_cleaning |} |}.

(** The body of the [except Exception] clause: status 500. *)
Definition error_display : Display :=
  {| d_http := 500; d_status := "error"; d_mode := "";
     d_animation_id := 0; d_animation_name := None;
     d_animation_type := None; d_stage := "";
     d_show_home_icon := false; d_show_food_icon := false;
     d_show_poop_icon := false; d_screen_type := ""; d_pet := None |}.

(** The startup test on the stored row: written by [device_startup] and
    less than five seconds old on the UTC clock. *)
Definition startup_recent (clk : Clock) (r : OledRow) : bool :=
  (updated_by r =? "device_startup")%string
  && match updated_at r with
     | Some updated_time => utcnow clk - updated_time <? seconds 5
     | None => false
     end.

(** A menu transition of the poll: the direct UPDATE, then the re-fetch
    [pet = get_pet_state(device_id)], both inside [with db_lock].  A
    re-fetch that found no row would make [pet["stage"]] raise. *)
Definition menu_transition (device : string) (assignments : list Field)
    (animation_id : Z) (current_menu : string) (play_eating : bool)
    : M Display :=
  pet <- with_db_lock (
           sql_update_pet_by_device device assignments ;;;
           get_pet_state device) ;;
  match pet with
  | Some pet =>
      ret (automatic_display animation_id pet current_menu play_eating false)
  | None => ret error_display
  end.

(** [GET /api/oled-display/get] (lines 2178-2419). *)
Definition get_oled_display (clk : Clock) (device : string) : M Display :=
  (* FIRST: recent device startup *)
  startup_reset <- with_db_lock (
    result <- sql_select_oled device ;;
    match result with
    | Some r => ret (startup_recent clk r)
    | None => ret false
    end) ;;
  if startup_reset then ret startup_display
  else
    (* SECOND: manual selection *)
    manual_selection <- with_db_lock (sql_select_oled device) ;;
    match manual_selection with
    | Some manual_selection => ret (manual_display manual_selection)
    | None =>
        (* THIRD: the pet state *)
        pet <- get_pet_state device ;;
        match pet with
        | None => ret default_display
        | Some pet =>
            let animation_id := stage_to_id (stage pet) in
            let menu := current_menu pet in
            if Qle_bool (hunger pet) 50 && (menu =? "FOOD_MENU")%string then
              menu_transition device [F_current_emotion "EATING"]
                animation_id menu true
            else if (current_emotion pet =? "EATING")%string
                    && (menu =? "FOOD_MENU")%string then
              menu_transition device
                [F_current_menu "MAIN"; F_current_emotion "IDLE"]
                animation_id "MAIN" false
            else if negb (poop_present pet)
                    && (menu =? "TOILET_MENU")%string then
              menu_transition device
                [F_current_menu "MAIN"; F_current_emotion "IDLE"]
                animation_id "MAIN" false
            else
              ret (automatic_display animation_id pet menu false false)
        end
    end.

(** ** Important events *)

Inductive AckResponse :=
| AckOk (event_id : Z)            (* 200, status success *)
| AckMissingField                 (* 400 "event_id is required" *)
| AckNotFound (event_id : Z).     (* 404 "Event not found or already
                                     processed" *)

Definition ack_http (r : AckResponse) : Z :=
  match r with
  | AckOk _ => 200
  | AckMissingField => 400
  | AckNotFound _ => 404
  end.

(** [UPDATE important_events SET is_sent = 1 WHERE id = ? AND
    device_id = ?]; the result is [cursor.rowcount]. *)
Definition sql_mark_event_sent (event_id : Z) (device : string) : M Z :=
  fun w =>
    let hit r := (e_id r =? event_id) && (e_device_id r =? device)%string in
    Returns (Z.of_nat (length (filter hit (important_events w))))
            (set_important_events
               (map (fun r =>
                       if hit r then
                         {| e_id := e_id r; e_device_id := e_device_id r;
                            event_type := event_type r;
                            message := message r; is_sent := true |}
                       else r)
                    (important_events w)) w).

(** [POST /api/device/event/received] (lines 1727-1781); [event_id] is [None] when the
    body is empty or has no such key. *)
Definition mark_event_received (event_id : option Z) (device : string)
    : M AckResponse :=
  match event_id with
  | None => ret AckMissingField
  | Some event_id =>
      with_db_lock (
        rowcount <- sql_mark_event_sent event_id device ;;
        if 0 <? rowcount then ret (AckOk event_id)
        else ret (AckNotFound event_id))
  end.

(** The unsent events of a device: the WHERE clause of
    [get_important_events]. *)
Definition unsent_events (device : string) (w : World) : list EventRow :=
  filter (fun r => (e_device_id r =? device)%string && negb (is_sent r))
         (important_events w).

(** ** Step detection *)

Open Scope Q_scope.

Definition barrier : Q := 10000.
Definition min_interval : Q := 2 # 10.
Definition sample_spacing : Q := 1 # 10.

Record Reading := { accel_x : Q; accel_y : Q; accel_z : Q }.

Definition stoss (r : Reading) : Q :=
  accel_x r * accel_x r + accel_y r * accel_y r + accel_z r * accel_z r.

(** [detect_steps(accel_x, accel_y, accel_z, current_time)] (lines
    54-82).  The separate [step_counter_lock] around the counter is
    never nested and is left out. *)
Definition detect_steps (r : Reading) (current_time : Q) : M Z :=
  fun w =>
    let time_since_last_step := current_time - last_step_time w in
    if Qlt_bool barrier (stoss r)
       && Qlt_bool min_interval time_since_last_step
    then Returns 1%Z
           (set_step_state current_time (step_count_global w + 1)%Z w)
    else Returns 0%Z w.

(** The loop of [receive_sensor_data] (lines 1199-1217) over
    [enumerate(readings)], from
    index [idx] on, with [total_steps_batch] as accumulator. *)
Fixpoint detect_batch (current_time : Q) (idx : Z) (readings : list Reading)
    (total_steps_batch : Z) : M Z :=
  match readings with
  | [] => ret total_steps_batch
  | reading :: rest =>
      let batch_time := current_time + inject_Z idx * sample_spacing in
      steps_in_reading <- detect_steps reading batch_time ;;
      detect_batch current_time (idx + 1)%Z rest
                   (total_steps_batch + steps_in_reading)%Z
  end.

(** The step count [receive_sensor_data] computes for a request:
    [readings] is the list under [sensor_batch.readings] (empty when the
    key is absent), [single] the top-level accelerometer triple. *)
Definition count_request_steps (single : Reading) (readings : list Reading)
    (current_time : Q) : M Z :=
  match readings with
  | [] => detect_steps single current_time
  | _ => detect_batch current_time 0%Z readings 0%Z
  end.

Close Scope Q_scope.

(** ** Request traces *)

(** The writers of one device's pet row: the central update function
    with any dictionary, and the statements and endpoints that write
    the row with a direct UPDATE. *)
Inductive PetWrite :=
| AtomicUpdate (update_fields : list Field)
| DirectUpdate (assignments : list Field)
| MenuSwitch (menu : string)
| StartupComplete (clk : Clock).

Definition run_write (fuel : nat) (device : string) (wr : PetWrite) : M unit :=
  match wr with
  | AtomicUpdate update_fields =>
      update_pet_state_atomic fuel device update_fields ;;; ret tt
  | DirectUpdate assignments =>
      with_db_lock (sql_update_pet_by_device device assignments) ;;; ret tt
  | MenuSwitch menu => switch_menu device menu ;;; ret tt
  | StartupComplete clk => device_startup_complete clk device ;;; ret tt
  end.

Fixpoint run_writes (fuel : nat) (device : string) (ws : list PetWrite)
    : M unit :=
  match ws with
  | [] => ret tt
  | wr :: rest => run_write fuel device wr ;;; run_writes fuel device rest
  end.

Definition is_atomic (wr : PetWrite) : bool :=
  match wr with AtomicUpdate _ => true | _ => false end.

(** The requests the server handles, as far as the model goes. *)
Inductive Request :=
| ReqInit (clk : Clock)
| ReqFeed (clk : Clock) (device : string)
| ReqUpload (clk : Clock) (image_data_empty : bool) (device : string)
| ReqPetMenu (device menu : string)
| ReqSwitchMenu (device menu : string)
| ReqSetDisplay (clk : Clock) (is_json : bool) (anim_id : Z)
    (anim_type : option string) (device : string)
| ReqResetDisplay (device : string)
| ReqToggleIcon (clk : Clock) (icon : Icon) (v : option bool)
    (device : string)
| ReqStartup (clk : Clock) (device : string)
| ReqPoll (clk : Clock) (device : string)
| ReqAck (event_id : option Z) (device : string)
| ReqSensor (single : Reading) (readings : list Reading) (current_time : Q)
| ReqTick (clk : Clock) (rnd : Q) (datetime_bound : bool)
| ReqClean (clk : Clock) (device : string)
| ReqInject (clk : Clock) (device : string)
| ReqPlayResult (clk : Clock) (device result_type : string).

Definition handle (fuel : nat) (req : Request) : M unit :=
  match req with
  | ReqInit clk => init_database clk ;;; ret tt
  | ReqFeed clk device => pet_feed fuel clk device ;;; ret tt
  | ReqUpload clk e device => upload_binary_image fuel clk e device ;;; ret tt
  | ReqPetMenu device menu => pet_menu fuel device menu ;;; ret tt
  | ReqSwitchMenu device menu => switch_menu device menu ;;; ret tt
  | ReqSetDisplay clk j i t device =>
      set_oled_display clk j i t device ;;; ret tt
  | ReqResetDisplay device => reset_oled_display device ;;; ret tt
  | ReqToggleIcon clk icon v device => toggle_icon clk icon v device ;;; ret tt
  | ReqStartup clk device => device_startup_complete clk device ;;; ret tt
  | ReqPoll clk device => get_oled_display clk device ;;; ret tt
  | ReqAck event_id device => mark_event_received event_id device ;;; ret tt
  | ReqSensor single readings t => count_request_steps single readings t ;;; ret tt
  | ReqTick clk rnd b => pet_engine_iteration fuel clk rnd b ;;; ret tt
  | ReqClean clk device => pet_clean fuel clk device ;;; ret tt
  | ReqInject clk device => pet_inject fuel clk device ;;; ret tt
  | ReqPlayResult clk device r => pet_play_result fuel clk device r ;;; ret tt
  end.

Fixpoint run (fuel : nat) (reqs : list Request) : M unit :=
  match reqs with
  | [] => ret tt
  | req :: rest => handle fuel req ;;; run fuel rest
  end.





(** The row [get_pet_state] would return. *)
Definition pet_of (device : string) (w : World) : option PetRow :=
  find (fun r => (device_id r =? device)%string) (pet_state w).

(** The row the display poll would find. *)
Definition oled_of (device : string) (w : World) : option OledRow :=
  find (fun r => (o_device_id r =? device)%string) (oled_display_state w).

(** The merged state of an [update_pet_state_atomic] call that read
    [current_state]. *)
Definition merged (update_fields : list Field) (current_state : PetRow)
    : PetRow :=
  set_version (version current_state + 1) (merge current_state update_fields).

(** The table after its version-conditioned UPDATE. *)
Definition written (update_fields : list Field) (current_state : PetRow)
    (rows : list PetRow) : list PetRow :=
  map (fun r =>
         if (row_id r =? row_id current_state)
            && (version r =? version current_state)
         then store_columns (merged update_fields current_state) r else r)
      rows.

(** ** Sample states *)

Definition clock_at (s : Z) : Clock :=
  {| now := seconds s; utcnow := seconds s |}.

(** The row and the world [init_database] leaves on a fresh database. *)
Definition fresh_row : PetRow :=
  default_pet_row 1 "ESP32_001" (seconds 1000).

Definition init_world (clk : Clock) : World :=
  {| db_lock := false;
     pet_state := [default_pet_row 1 "ESP32_001" (CURRENT_TIMESTAMP clk)];
     oled_display_state := [system_init_oled_row clk];
     important_events := []; last_step_time := 0; step_count_global := 0 |}.

Definition fresh_world : World := init_world (clock_at 1000).

(** ** The emotion precedence in the words of the specification *)

(** The temporary-emotion lock: [emotion_expire_at] is set and in the
    future. *)
Definition emotion_locked (clk : Clock) (state : PetRow) : Prop :=
  exists t, emotion_expire_at state = Some t /\ now clk < t.

(** The poop is older than 15 minutes. *)
Definition poop_neglected (clk : Clock) (state : PetRow) : Prop :=
  exists t, poop_timestamp state = Some t /\ minutes 15 < now clk - t.

(** One rule per line of the precedence list; each rule carries the
    negation of the conditions above it. *)
Inductive priority (clk : Clock) (state : PetRow) : string -> Prop :=
| priority_locked :
    emotion_locked clk state ->
    priority clk state (current_emotion state)
| priority_sick :
    ~ emotion_locked clk state ->
    health state < 40 ->
    priority clk state "SICK"
| priority_poop_old :
    ~ emotion_locked clk state -> 40 <= health state ->
    poop_present state = true ->
    poop_neglected clk state ->
    priority clk state "SICK"
| priority_poop :
    ~ emotion_locked clk state -> 40 <= health state ->
    poop_present state = true ->
    ~ poop_neglected clk state ->
    priority clk state "POOP"
| priority_cry :
    ~ emotion_locked clk state -> 40 <= health state ->
    poop_present state = false ->
    (70 < hunger state)%Q ->
    stage state = "INFANT" ->
    priority clk state "CRY"
| priority_hunger :
    ~ emotion_locked clk state -> 40 <= health state ->
    poop_present state = false ->
    (70 < hunger state)%Q ->
    stage state <> "INFANT" ->
    priority clk state "HUNGER"
| priority_sleep :
    ~ emotion_locked clk state -> 40 <= health state ->
    poop_present state = false ->
    (hunger state <= 70)%Q ->
    energy state < 30 ->
    priority clk state "SLEEP"
| priority_happy :
    ~ emotion_locked clk state -> 40 <= health state ->
    poop_present state = false ->
    (hunger state <= 70)%Q ->
    30 <= energy state ->
    80 < happiness state ->
    priority clk state "HAPPY"
| priority_sad :
    ~ emotion_locked clk state -> 40 <= health state ->
    poop_present state = false ->
    (hunger state <= 70)%Q ->
    30 <= energy state ->
    happiness state < 40 ->
    priority clk state "SAD"
| priority_idle :
    ~ emotion_locked clk state -> 40 <= health state ->
    poop_present state = false ->
    (hunger state <= 70)%Q ->
    30 <= energy state ->
    40 <= happiness state <= 80 ->
    priority clk state "IDLE".

(** A pet with fresh poop, for the examples. *)
Definition pooped_row : PetRow :=
  set_field (set_field fresh_row (F_poop_present true))
            (F_poop_timestamp (Some (seconds 1000))).


(** The condition under which the display poll takes one of its three
    menu transitions. *)
Definition menu_transition_due (pet : PetRow) : bool :=
  (Qle_bool (hunger pet) 50 && (current_menu pet =? "FOOD_MENU")%string)
  || ((current_emotion pet =? "EATING")%string
      && (current_menu pet =? "FOOD_MENU")%string)
  || (negb (poop_present pet) && (current_menu pet =? "TOILET_MENU")%string).

(** A fed pet on the food menu, and the requests that lead there
    through the API: database initialisation, reset of the display to
    automatic mode, and a switch to the food menu. *)
Definition food_menu_requests : list Request :=
  [ReqInit (clock_at 1000); ReqResetDisplay "ESP32_001";
   ReqSwitchMenu "ESP32_001" "FOOD_MENU"].

Definition food_menu_world : World :=
  {| db_lock := false;
     pet_state := [set_field fresh_row (F_current_menu "FOOD_MENU")];
     oled_display_state := []; important_events := [];
     last_step_time := 0; step_count_global := 0 |}.

(** A pet with hunger 50. *)
Definition hungry_world : World :=
  {| db_lock := false;
     pet_state := [set_field fresh_row (F_hunger 50)];
     oled_display_state := [system_init_oled_row (clock_at 1000)];
     important_events := []; last_step_time := 0; step_count_global := 0 |}.

(** ** Vocabulary of the step detector *)

(** A super-barrier reading. *)
Definition is_peak (r : Reading) : bool := Qlt_bool barrier (stoss r).

(** The timestamp the batch loop gives the reading at index [k]. *)
Definition batch_time (current_time : Q) (k : nat) : Q :=
  (current_time + inject_Z (Z.of_nat k) * sample_spacing)%Q.

(** The reading at index [k] of a batch is a peak. *)
Definition peak_at (readings : list Reading) (k : nat) : Prop :=
  exists r, nth_error readings k = Some r /\ (barrier < stoss r)%Q.

(** The number of peaks in a batch. *)
Definition count_peaks (readings : list Reading) : Z :=
  Z.of_nat (length (filter is_peak readings)).

Definition still : Reading := {| accel_x := 0; accel_y := 0; accel_z := 0 |}.
Definition spike : Reading :=
  {| accel_x := 100; accel_y := 100; accel_z := 100 |}.

(** Two batches sent two seconds apart: the first, of twenty readings,
    ends on a spike; the second has spikes at indices 0 and 3. *)
Definition first_batch : list Reading := repeat still 19 ++ [spike].
Definition second_batch : list Reading := [spike; still; still; spike].

(** An event as [store_sensor_data] records it, not yet sent. *)
Definition event_world : World :=
  {| db_lock := false; pet_state := [fresh_row];
     oled_display_state := [system_init_oled_row (clock_at 1000)];
     important_events :=
       [{| e_id := 1; e_device_id := "ESP32_001";
           event_type := "high_sound";
           message := "High sound detected: 85.0 dB"; is_sent := false |}];
     last_step_time := 0; step_count_global := 0 |}.

(** ** Invariants of computations *)







(* ------------------------------------------------------------------ *)
(** ** Further vocabulary *)

(** *** The dictionary of a tick *)

(** The entry [current_emotion] a tick adds to its dictionary: none
    while the stored expiry lies in the future. *)
Definition tick_emotion_entry (clk : Clock) (rnd : Q) (state : PetRow)
    : list Field :=
  let updates := pet_engine_updates clk rnd state in
  let entry :=
    [F_current_emotion (get_emotion_priority clk (merge state updates))] in
  match emotion_expire_at state with
  | None => entry
  | Some expire_at => if expire_at <=? now clk then entry else []
  end.

(** The dictionary a committing tick hands to [update_pet_state_atomic]. *)
Definition tick_updates (clk : Clock) (rnd : Q) (state : PetRow)
    : list Field :=
  pet_engine_updates clk rnd state ++ tick_emotion_entry clk rnd state.

(** The poop of [state] has been lying for more than 15 minutes. *)
Definition poop_overdue (clk : Clock) (state : PetRow) : bool :=
  poop_present state
  && match poop_timestamp state with
     | Some poop_time => minutes 15 <? now clk - poop_time
     | None => false
     end.

(** The age progression of a tick is due. *)
Definition birthday_due (clk : Clock) (state : PetRow) : bool :=
  match last_age_increment state with
  | Some last_age_time => hours 24 <? now clk - last_age_time
  | None => false
  end.

(** The digestion of a tick is due. *)
Definition digestion_due (clk : Clock) (state : PetRow) : bool :=
  match digestion_due_time state with
  | Some due_time => (due_time <? now clk) && negb (poop_present state)
  | None => false
  end.

(** *** The display row of a device *)

(** The display row of a device, or the column defaults if it has
    none: the row an UPDATE-else-INSERT starts from. *)
Definition oled_or_default (clk : Clock) (device : string) (w : World)
    : OledRow :=
  match oled_of device w with
  | Some r => r
  | None => default_oled_row clk device
  end.

(** The name [set_oled_display] gives an animation id. *)
Definition animation_map (anim_id : Z) : string :=
  if anim_id =? 0 then "INFANT"
  else if anim_id =? 1 then "CHILD"
  else if anim_id =? 2 then "ADULT"
  else "OLD".

(** *** Row invariants *)

(** Every row of [pet_state] satisfies [Inv]. *)
Definition all_rows (Inv : PetRow -> Prop) (w : World) : Prop :=
  Forall Inv (pet_state w).

(** A computation that keeps a row invariant: run from a state whose
    rows all satisfy [Inv], it returns with such a state, and a result
    that satisfies [post]. *)
Definition keeps (Inv : PetRow -> Prop) {A} (c : M A) (post : A -> Prop)
    : Prop :=
  forall w a w',
    all_rows Inv w -> c w = Returns a w' -> all_rows Inv w' /\ post a.

(** A dictionary that can be merged into any row satisfying [Inv]. *)
Definition compatible (Inv : PetRow -> Prop) (u : list Field) : Prop :=
  forall r, Inv r -> Inv (merge r u).

(** The row a reading call may return satisfies [Inv]. *)
Definition some_row (Inv : PetRow -> Prop) (o : option PetRow) : Prop :=
  forall r, o = Some r -> Inv r.

(** The five stats of a row are in range. *)
Definition stats_in_range (r : PetRow) : Prop :=
  0 <= health r <= 100
  /\ (0 <= hunger r <= 100)%Q
  /\ cleanliness r = 100
  /\ 0 <= happiness r <= 100
  /\ 0 <= energy r <= 100.

Definition field_in_range (f : Field) : Prop :=
  match f with
  | F_health v | F_happiness v | F_energy v => 0 <= v <= 100
  | F_hunger v => (0 <= v <= 100)%Q
  | F_cleanliness v => v = 100
  | _ => True
  end.

(** The action lock of a row is clear. *)
Definition unlocked (r : PetRow) : Prop := action_lock r = false.

(** A dictionary without an [action_lock] entry. *)
Definition no_lock_entry (u : list Field) : Prop :=
  Forall (fun f => match f with F_action_lock _ => False | _ => True end) u.

(** The age clock of a row is set. *)
Definition aged (r : PetRow) : Prop := last_age_increment r <> None.

(** A dictionary that does not clear the age clock. *)
Definition keeps_age_clock (u : list Field) : Prop :=
  Forall (fun f => f <> F_last_age_increment None) u.

(** *** The step counter *)

(** [POST /api/step-counter/reset], [reset_step_counter] (lines
    2959-2992): the counter goes back to 0; the answer carries the old
    count as [reset_from].  The time of the last step, an attribute of
    [detect_steps], is not touched. *)
Definition reset_step_counter : M Z :=
  fun w =>
    let old_count := step_count_global w in
    Returns old_count (set_step_state (last_step_time w) 0 w).


Definition sum_Z (l : list Z) : Z := fold_right Z.add 0 l.

(** *** The orientation of the device *)

(** [abs(x)] of a float. *)
Definition py_absQ (x : Q) : Q := if Qlt_bool x 0 then (- x)%Q else x.

Section Orientation.

(** [x ** 0.5]. *)
Variable sqrt : Q -> Q.

(** [detect_device_orientation(ax, ay, az)] (app.py, lines 143-192),
    for numbers: the direction and the confidence.  A block whose axis
    dominates but whose threshold is not reached falls through to the
    next one. *)
Definition detect_device_orientation (ax ay az : Q) : string * Q :=
  let magnitude := sqrt (ax * ax + ay * ay + az * az)%Q in
  let confidence := (100 - py_absQ (magnitude - (981 # 100)) * 10)%Q in
  let confidence := if Qlt_bool 100 confidence then 100%Q else confidence in
  let confidence := if Qlt_bool confidence 0 then 0%Q else confidence in
  let abs_ax := py_absQ ax in
  let abs_ay := py_absQ ay in
  let abs_az := py_absQ az in
  let fallback := ("NEUTRAL", confidence) in
  let y_axis :=
    if Qlt_bool abs_ax abs_ay && Qlt_bool abs_az abs_ay then
      if Qlt_bool 5 ay then ("BACK", confidence)
      else if Qlt_bool ay (-5) then ("FORWARD", confidence)
      else fallback
    else fallback in
  let x_axis :=
    if Qlt_bool abs_ay abs_ax && Qlt_bool abs_az abs_ax then
      if Qlt_bool 5 ax then ("RIGHT", confidence)
      else if Qlt_bool ax (-5) then ("LEFT", confidence)
      else y_axis
    else y_axis in
  if Qlt_bool abs_ax abs_az && Qlt_bool abs_ay abs_az then
    if Qlt_bool 7 az then ("NEUTRAL", confidence)
    else if Qlt_bool az (-7) then ("INVERTED", confidence)
    else x_axis
  else x_axis.

End Orientation.

(** *** The daily step statistics *)

(** One row of [step_statistics]; [id] and [recorded_at], which the
    function does not read, are left out.  A date is a day number. *)
Record StepStatRow := {
  st_device_id : string;
  date_recorded : Z;
  total_steps : option Z;
  peak_steps : option Z;
  avg_step_interval : Q;
  activity_level : string;
  st_updated_at : timestamp
}.

(** [datetime.now().date()]. *)
Definition today (clk : Clock) : Z := now clk / 86400000000.

(** [x or 0]. *)
Definition or_zero (x : option Z) : Z :=
  match x with Some v => v | None => 0 end.

(** The WHERE clause [device_id = ? AND date_recorded = ?]. *)
Definition stat_key (device : string) (day : Z) (r : StepStatRow) : bool :=
  (st_device_id r =? device)%string && (date_recorded r =? day).

(** [update_step_stats_immediate(device_id, steps)] (lines 2046-2088).
    The table is passed in and handed back; the statements run inside
    [with db_lock]. *)
Definition update_step_stats_immediate (clk : Clock) (device : string)
    (steps : Z) (step_statistics : list StepStatRow)
    : M (list StepStatRow) :=
  with_db_lock (
    let day := today clk in
    match find (stat_key device day) step_statistics with
    | Some existing =>
        let new_total := or_zero (total_steps existing) + steps in
        let new_peak := py_max (or_zero (peak_steps existing)) steps in
        ret (map (fun r =>
                    if stat_key device day r then
                      {| st_device_id := st_device_id r;
                         date_recorded := date_recorded r;
                         total_steps := Some new_total;
                         peak_steps := Some new_peak;
                         avg_step_interval := avg_step_interval r;
                         activity_level := activity_level r;
                         st_updated_at := CURRENT_TIMESTAMP clk |}
                    else r) step_statistics)
    | None =>
        ret (step_statistics ++
             [{| st_device_id := device; date_recorded := day;
                 total_steps := Some steps; peak_steps := Some steps;
                 avg_step_interval := 0; activity_level := "LOW";
                 st_updated_at := CURRENT_TIMESTAMP clk |}])
    end).

(** The calls of a sequence of step reports of one device, each with
    its clock and its number of steps. *)
Fixpoint report_steps (device : string) (calls : list (Clock * Z))
    (step_statistics : list StepStatRow) : M (list StepStatRow) :=
  match calls with
  | [] => ret step_statistics
  | (clk, steps) :: rest =>
      table <- update_step_stats_immediate clk device steps step_statistics ;;
      report_steps device rest table
  end.

(** *** Further sample states *)

(** A world holding one pet row and no display row. *)
Definition world_of (r : PetRow) : World :=
  {| db_lock := false; pet_state := [r]; oled_display_state := [];
     important_events := []; last_step_time := 0; step_count_global := 0 |}.

(** A pet with health 30. *)
Definition sick_row : PetRow := set_field fresh_row (F_health 30).

(** The row a feed at second 2000 leaves of [fresh_row]. *)
Definition fed_row : PetRow :=
  merged (feed_updates (clock_at 2000) fresh_row ++ [F_action_lock false])
         (merged [F_action_lock true] fresh_row).

(** A day in the life of the pet: a feed, the tick that digests it, a
    lost game, a tick that finds the poop overdue, the cleaning and an
    injection. *)
Definition care_requests : list Request :=
  [ReqFeed (clock_at 2001) "ESP32_001";
   ReqTick (clock_at 3802) (1 # 2) false;
   ReqPlayResult (clock_at 3810) "ESP32_001" "LOSE";
   ReqTick (clock_at 5000) (1 # 2) false;
   ReqClean (clock_at 5010) "ESP32_001";
   ReqInject (clock_at 5020) "ESP32_001"].

(** The world [care_requests] leaves of [fresh_world]. *)
Definition sample_world : World :=
  Eval vm_compute in
    match run 0 care_requests fresh_world with
    | Returns _ w => w
    | _ => empty_world
    end.

(* ================================================================== *)
(** * Part II: properties                                              *)
(* ================================================================== *)

(** ** The lock and the monad *)

Lemma unlock_lock (w : World) :
  db_lock w = false -> set_db_lock false (set_db_lock true w) = w.
Proof. destruct w; simpl; intros ->; reflexivity. Qed.

Lemma with_db_lock_held {A} (body : M A) (w : World) :
  db_lock w = true -> with_db_lock body w = Deadlock w.
Proof. unfold with_db_lock; intros ->; reflexivity. Qed.

Lemma with_db_lock_free {A} (body : M A) (w : World) :
  db_lock w = false ->
  with_db_lock body w =
  match body (set_db_lock true w) with
  | Returns a w' => Returns a (set_db_lock false w')
  | Deadlock w' => Deadlock w'
  | OutOfFuel => OutOfFuel
  end.
Proof. unfold with_db_lock; intros ->; reflexivity. Qed.

(** A read-only critical section leaves the world as it found it. *)
Lemma get_pet_state_free (device : string) (w : World) :
  db_lock w = false ->
  get_pet_state device w = Returns (pet_of device w) w.
Proof.
  intros H. unfold get_pet_state. rewrite with_db_lock_free by exact H.
  unfold sql_select_pet, pet_of. simpl. now rewrite unlock_lock.
Qed.

Lemma get_pet_state_held (device : string) (w : World) :
  db_lock w = true -> get_pet_state device w = Deadlock w.
Proof. apply with_db_lock_held. Qed.

(** ** Merging dictionaries into a row *)

Lemma set_field_keeps (r : PetRow) (f : Field) :
  row_id (set_field r f) = row_id r
  /\ device_id (set_field r f) = device_id r
  /\ version (set_field r f) = version r.
Proof. destruct f; simpl; auto. Qed.

Lemma merge_keeps (updates : list Field) (r : PetRow) :
  row_id (merge r updates) = row_id r
  /\ device_id (merge r updates) = device_id r
  /\ version (merge r updates) = version r.
Proof.
  unfold merge. revert r.
  induction updates as [|f updates IH]; intros r; simpl; auto.
  destruct (IH (set_field r f)) as (H1 & H2 & H3).
  destruct (set_field_keeps r f) as (K1 & K2 & K3).
  repeat split; congruence.
Qed.

Lemma merge_app (r : PetRow) (us vs : list Field) :
  merge r (us ++ vs) = merge (merge r us) vs.
Proof. unfold merge. apply fold_left_app. Qed.

Lemma store_columns_same (a b : PetRow) :
  row_id a = row_id b -> device_id a = device_id b -> store_columns a b = a.
Proof. destruct a, b; simpl; intros; subst; reflexivity. Qed.

(** ** Finding the device's row after an UPDATE *)

Lemma find_map_device (device : string) (g : PetRow -> PetRow)
    (rows : list PetRow) :
  (forall r, device_id (g r) = device_id r) ->
  find (fun r => (device_id r =? device)%string) (map g rows)
  = option_map g (find (fun r => (device_id r =? device)%string) rows).
Proof.
  intros Hg. induction rows as [|r rows IH]; simpl; [reflexivity|].
  rewrite Hg. destruct (device_id r =? device)%string; simpl; auto.
Qed.

Lemma find_device_id (device : string) (rows : list PetRow) (r : PetRow) :
  find (fun r => (device_id r =? device)%string) rows = Some r ->
  device_id r = device /\ In r rows.
Proof.
  intros H. apply find_some in H. destruct H as [Hin Heq].
  apply String.eqb_eq in Heq. auto.
Qed.

Lemma rowcount_positive (hit : PetRow -> bool) (rows : list PetRow)
    (r : PetRow) :
  In r rows -> hit r = true -> 0 < Z.of_nat (length (filter hit rows)).
Proof.
  intros Hin Hhit.
  assert (In r (filter hit rows)) by (apply filter_In; auto).
  destruct (filter hit rows); simpl in *; [contradiction | lia].
Qed.

Lemma set_pet_state_unlock (t : list PetRow) (w : World) :
  db_lock w = false ->
  set_db_lock false (set_pet_state t (set_db_lock true w)) = set_pet_state t w.
Proof. destruct w; simpl; intros ->; reflexivity. Qed.

(** ** The central update function *)

Section AtomicUpdate.

Variable fuel : nat.
Variable device : string.
Variable update_fields : list Field.

Lemma merged_keeps (current_state : PetRow) :
  row_id (merged update_fields current_state) = row_id current_state
  /\ device_id (merged update_fields current_state) = device_id current_state
  /\ version (merged update_fields current_state) = version current_state + 1.
Proof.
  unfold merged.
  destruct (merge_keeps update_fields current_state) as (H1 & H2 & _).
  destruct (merge current_state update_fields); simpl in *; auto.
Qed.

(** With the lock free and a row for the device, the call returns the
    merged state after a single read and write. *)
Lemma update_pet_state_atomic_free (w : World) (current_state : PetRow) :
  db_lock w = false ->
  pet_of device w = Some current_state ->
  update_pet_state_atomic fuel device update_fields w
  = Returns (Some (merged update_fields current_state))
            (set_pet_state (written update_fields current_state (pet_state w)) w).
Proof.
  intros Hfree Hfind.
  assert (Hstep :
    with_db_lock (
      result <- sql_select_pet device ;;
      match result with
      | None => ret None
      | Some current_state =>
          rowcount <- sql_update_pet_versioned (merged update_fields current_state)
                        (row_id current_state) (version current_state) ;;
          if rowcount =? 0 then
            match fuel with
            | O => out_of_fuel
            | S fuel' => update_pet_state_atomic fuel' device update_fields
            end
          else ret (Some (merged update_fields current_state))
      end) w
    = Returns (Some (merged update_fields current_state))
              (set_pet_state (written update_fields current_state (pet_state w)) w)).
  { rewrite with_db_lock_free by exact Hfree.
    unfold bind, sql_select_pet. simpl.
    unfold pet_of in Hfind. rewrite Hfind.
    unfold sql_update_pet_versioned. simpl.
    destruct (find_device_id _ _ _ Hfind) as [_ Hin].
    pose proof (rowcount_positive
      (fun r => (row_id r =? row_id current_state)
                && (version r =? version current_state))
      (pet_state w) current_state Hin) as Hpos.
    cbv beta in Hpos. rewrite !Z.eqb_refl in Hpos. specialize (Hpos eq_refl).
    destruct (Z.eqb_spec
      (Z.of_nat (length (filter
         (fun r => (row_id r =? row_id current_state)
                   && (version r =? version current_state))
         (pet_state w)))) 0) as [E|_]; [lia|].
    unfold ret. now rewrite set_pet_state_unlock. }
  destruct fuel; exact Hstep.
Qed.

Lemma update_pet_state_atomic_held (w : World) :
  db_lock w = true ->
  update_pet_state_atomic fuel device update_fields w = Deadlock w.
Proof. intros H. destruct fuel; simpl; now apply with_db_lock_held. Qed.

Lemma update_pet_state_atomic_missing (w : World) :
  db_lock w = false ->
  pet_of device w = None ->
  update_pet_state_atomic fuel device update_fields w = Returns None w.
Proof.
  intros Hfree Hfind.
  destruct fuel; simpl; rewrite with_db_lock_free by exact Hfree;
    unfold bind, sql_select_pet; simpl; unfold pet_of in Hfind;
    rewrite Hfind; unfold ret; now rewrite unlock_lock.
Qed.

(** The device's row after the call is the merged state. *)
Lemma pet_of_written (w : World) (current_state : PetRow) :
  pet_of device w = Some current_state ->
  pet_of device (set_pet_state (written update_fields current_state (pet_state w)) w)
  = Some (merged update_fields current_state).
Proof.
  intros Hfind. unfold pet_of in *. simpl. unfold written.
  rewrite find_map_device.
  - rewrite Hfind. simpl. rewrite !Z.eqb_refl. simpl.
    destruct (merged_keeps current_state) as (H1 & H2 & _).
    now rewrite store_columns_same.
  - intros r. now destruct (_ && _).
Qed.

End AtomicUpdate.

Lemma init_database_empty (clk : Clock) :
  init_database clk empty_world = Returns true (init_world clk).
Proof. reflexivity. Qed.

Lemma init_database_fresh :
  init_database (clock_at 1000) empty_world = Returns true fresh_world.
Proof. apply init_database_empty. Qed.



(** ** Direct writes of the pet row *)

Lemma find_map_device_hit (device : string) (assignments : list Field)
    (rows : list PetRow) :
  find (fun r => (device_id r =? device)%string)
       (map (fun r => if (device_id r =? device)%string
                      then merge r assignments else r) rows)
  = option_map (fun r => merge r assignments)
      (find (fun r => (device_id r =? device)%string) rows).
Proof.
  induction rows as [|r rows IH]; simpl; [reflexivity|].
  destruct (device_id r =? device)%string eqn:E; simpl.
  - destruct (merge_keeps assignments r) as (_ & -> & _). now rewrite E.
  - now rewrite E.
Qed.

Lemma direct_update_free (device : string) (assignments : list Field)
    (w : World) (r : PetRow) :
  db_lock w = false ->
  pet_of device w = Some r ->
  exists rowcount w',
    with_db_lock (sql_update_pet_by_device device assignments) w
    = Returns rowcount w'
    /\ 0 < rowcount
    /\ db_lock w' = false
    /\ pet_of device w' = Some (merge r assignments)
    /\ oled_display_state w' = oled_display_state w.
Proof.
  intros Hfree Hfind.
  rewrite with_db_lock_free by exact Hfree.
  unfold sql_update_pet_by_device. simpl.
  eexists _, _. split; [reflexivity|].
  destruct (find_device_id _ _ _ Hfind) as [Hdev Hin].
  split.
  { apply rowcount_positive with (r := r); [exact Hin|].
    now apply String.eqb_eq. }
  split; [reflexivity|]. split; [|reflexivity].
  unfold pet_of in *. simpl. rewrite find_map_device_hit. now rewrite Hfind.
Qed.

Lemma switch_menu_free (device menu : string) (w : World) (r : PetRow) :
  db_lock w = false ->
  pet_of device w = Some r ->
  exists resp w' r',
    switch_menu device menu w = Returns resp w'
    /\ db_lock w' = false
    /\ pet_of device w' = Some r'
    /\ version r' = version r
    /\ (in_strings menu ["MAIN"; "FOOD_MENU"; "TOILET_MENU"] = true ->
        r' = merge r [F_current_menu menu]).
Proof.
  intros Hfree Hfind. unfold switch_menu.
  destruct (in_strings menu _) eqn:E; simpl.
  - destruct (direct_update_free device [F_current_menu menu] w r Hfree Hfind)
      as (rc & w' & Hrun & _ & Hl & Hrow & _).
    unfold bind. rewrite Hrun. unfold ret.
    exists (MenuOk menu), w', (merge r [F_current_menu menu]).
    repeat split; auto.
  - unfold ret. exists MenuInvalid, w, r. repeat split; auto. discriminate.
Qed.

Lemma device_startup_complete_free (clk : Clock) (device : string)
    (w : World) (r : PetRow) :
  db_lock w = false ->
  pet_of device w = Some r ->
  exists w',
    device_startup_complete clk device w = Returns RespOk w'
    /\ db_lock w' = false
    /\ pet_of device w' = Some (merge r (startup_reset_fields clk)).
Proof.
  intros Hfree Hfind. unfold device_startup_complete.
  unfold bind at 1. rewrite with_db_lock_free by exact Hfree.
  destruct (find_device_id _ _ _ Hfind) as [Hdev Hin].
  assert (Hpos : forall w0, pet_state w0 = pet_state w ->
            (Z.of_nat (length (filter
               (fun r => (device_id r =? device)%string) (pet_state w0)))
             =? 0) = false).
  { intros w0 ->. apply Z.eqb_neq.
    pose proof (rowcount_positive
      (fun r => (device_id r =? device)%string) (pet_state w) r Hin) as P.
    cbv beta in P. rewrite Hdev, String.eqb_refl in P.
    specialize (P eq_refl). lia. }
  unfold bind, sql_update_oled, sql_insert_oled, modify,
    sql_update_pet_by_device, ret.
  cbv beta.
  destruct (Z.of_nat _ =? 0); cbv beta iota; simpl;
    (rewrite Hpos by reflexivity); simpl;
    (eexists; split; [reflexivity|]); (split; [reflexivity|]);
    unfold pet_of in *; simpl;
    (etransitivity;
     [exact (find_map_device_hit device (startup_reset_fields clk)
               (pet_state w))
     | now rewrite Hfind]).
Qed.

(** ** C1: the version counter *)

Lemma run_write_version (fuel : nat) (device : string) (wr : PetWrite)
    (w : World) (r : PetRow) :
  db_lock w = false ->
  pet_of device w = Some r ->
  exists w' r',
    run_write fuel device wr w = Returns tt w'
    /\ db_lock w' = false
    /\ pet_of device w' = Some r'
    /\ version r' = version r + (if is_atomic wr then 1 else 0).
Proof.
  intros Hfree Hfind. destruct wr as [u|a|menu|clk]; simpl.
  - unfold bind.
    rewrite (update_pet_state_atomic_free fuel device u w r Hfree Hfind).
    unfold ret. eexists _, _. split; [reflexivity|].
    split; [destruct w; simpl in *; assumption|].
    split; [now apply pet_of_written|].
    now destruct (merged_keeps u r) as (_ & _ & ->).
  - destruct (direct_update_free device a w r Hfree Hfind)
      as (rc & w' & Hrun & _ & Hl & Hrow & _).
    unfold bind. rewrite Hrun. unfold ret.
    exists w', (merge r a). repeat split; auto.
    destruct (merge_keeps a r) as (_ & _ & ->). simpl. lia.
  - destruct (switch_menu_free device menu w r Hfree Hfind)
      as (resp & w' & r' & Hrun & Hl & Hrow & Hv & _).
    unfold bind. rewrite Hrun. unfold ret.
    exists w', r'. repeat split; auto. simpl. lia.
  - destruct (device_startup_complete_free clk device w r Hfree Hfind)
      as (w' & Hrun & Hl & Hrow).
    unfold bind. rewrite Hrun. unfold ret.
    exists w', (merge r (startup_reset_fields clk)). repeat split; auto.
    destruct (merge_keeps (startup_reset_fields clk) r) as (_ & _ & ->).
    simpl. lia.
Qed.

(** C1 (as amended).  Every write through [update_pet_state_atomic]
    succeeds on an existing row and raises its version by exactly 1; the
    writes that bypass it (the direct UPDATE statements, among them
    those of the menu-switch endpoint and of the startup-complete reset
    of an existing row) leave the version as it is.  So after any
    sequence of writes to a device's row the stored version is the
    version before plus the number of [update_pet_state_atomic] calls in
    the sequence: counted from creation, where the version is 0, it is
    the number of updates committed through the central function. *)
Theorem version_counts_atomic_updates :
  forall (fuel : nat) (device : string) (ws : list PetWrite)
         (w : World) (r : PetRow),
    db_lock w = false ->
    pet_of device w = Some r ->
    exists w' r',
      run_writes fuel device ws w = Returns tt w'
      /\ db_lock w' = false
      /\ pet_of device w' = Some r'
      /\ version r' = version r + Z.of_nat (length (filter is_atomic ws))
      /\ (version r = 0 ->
          version r' = Z.of_nat (length (filter is_atomic ws))).
Proof.
  intros fuel device ws. induction ws as [|wr ws IH]; intros w r Hfree Hfind.
  - exists w, r. simpl. unfold ret. repeat split; auto; simpl; lia.
  - destruct (run_write_version fuel device wr w r Hfree Hfind)
      as (w1 & r1 & Hrun & Hfree1 & Hfind1 & Hv1).
    destruct (IH w1 r1 Hfree1 Hfind1) as (w' & r' & Hrun' & Hf' & Hr' & Hv' & _).
    assert (Hsum : version r'
                   = version r + Z.of_nat (length (filter is_atomic (wr :: ws)))).
    { simpl. destruct (is_atomic wr); simpl length; lia. }
    exists w', r'.
    change (run_writes fuel device (wr :: ws))
      with (run_write fuel device wr ;;; run_writes fuel device ws).
    unfold bind at 1. rewrite Hrun.
    repeat split; auto. lia.
Qed.

Lemma version_counts_atomic_updates_witness :
  db_lock fresh_world = false
  /\ pet_of "ESP32_001" fresh_world = Some fresh_row
  /\ exists w' r',
       run_writes 0 "ESP32_001"
         [AtomicUpdate [F_action_lock true]; MenuSwitch "FOOD_MENU";
          StartupComplete (clock_at 2000); AtomicUpdate [F_health 90]]
         fresh_world = Returns tt w'
       /\ pet_of "ESP32_001" w' = Some r'
       /\ version r' = 2.
Proof.
  split; [reflexivity|]. split; [reflexivity|].
  destruct (version_counts_atomic_updates 0 "ESP32_001"
              [AtomicUpdate [F_action_lock true]; MenuSwitch "FOOD_MENU";
               StartupComplete (clock_at 2000); AtomicUpdate [F_health 90]]
              fresh_world fresh_row eq_refl eq_refl)
    as (w' & r' & Hrun & _ & Hrow & Hv & _).
  exists w', r'. repeat split; assumption.
Defined.

(** C1 as stated fails: the menu-switch endpoint writes the row, here
    changing [current_menu] from MAIN to FOOD_MENU, and the version
    stays 0. *)
Lemma switch_menu_keeps_version :
  exists w' r',
    switch_menu "ESP32_001" "FOOD_MENU" fresh_world
    = Returns (MenuOk "FOOD_MENU") w'
    /\ pet_of "ESP32_001" w' = Some r'
    /\ current_menu fresh_row = "MAIN"
    /\ current_menu r' = "FOOD_MENU"
    /\ version r' = version fresh_row
    /\ version r' <> version fresh_row + 1.
Proof.
  vm_compute. eexists _, _. split; [reflexivity|]. split; [reflexivity|].
  repeat split; discriminate.
Qed.

(** The startup-complete reset of an existing row does not count
    either. *)
Lemma startup_complete_keeps_version :
  exists w' r',
    device_startup_complete (clock_at 2000) "ESP32_001" fresh_world
    = Returns RespOk w'
    /\ pet_of "ESP32_001" w' = Some r'
    /\ last_age_increment r' <> last_age_increment fresh_row
    /\ version r' = version fresh_row.
Proof.
  vm_compute. eexists _, _. split; [reflexivity|]. split; [reflexivity|].
  split; [discriminate | reflexivity].
Qed.

(** ** C2: emotion priority *)

Lemma Qlt_bool_iff (x y : Q) : Qlt_bool x y = true <-> (x < y)%Q.
Proof.
  unfold Qlt_bool. rewrite negb_true_iff. split.
  - intros H. apply Qnot_le_lt. intros Hle.
    apply Qle_bool_iff in Hle. congruence.
  - intros H. destruct (Qle_bool y x) eqn:E; [|reflexivity].
    apply Qle_bool_iff in E. exfalso. now apply (Qlt_not_le x y).
Qed.

Lemma Qlt_bool_false_iff (x y : Q) : Qlt_bool x y = false <-> (y <= x)%Q.
Proof.
  unfold Qlt_bool. rewrite negb_false_iff. apply Qle_bool_iff.
Qed.

Lemma emotion_locked_dec (clk : Clock) (state : PetRow) :
  (match emotion_expire_at state with
   | Some expire_time => now clk <? expire_time
   | None => false
   end) = true <-> emotion_locked clk state.
Proof.
  unfold emotion_locked. destruct (emotion_expire_at state) as [t|].
  - rewrite Z.ltb_lt. split.
    + intros H. now exists t.
    + intros (t' & E & H). now inversion E; subst.
  - split; [discriminate | intros (t & E & _); discriminate].
Qed.

Lemma poop_neglected_dec (clk : Clock) (state : PetRow) :
  (match poop_timestamp state with
   | Some poop_time => minutes 15 <? now clk - poop_time
   | None => false
   end) = true <-> poop_neglected clk state.
Proof.
  unfold poop_neglected. destruct (poop_timestamp state) as [t|].
  - rewrite Z.ltb_lt. split.
    + intros H. now exists t.
    + intros (t' & E & H). now inversion E; subst.
  - split; [discriminate | intros (t & E & _); discriminate].
Qed.

(** The function satisfies the precedence list. *)
Lemma get_emotion_priority_sound (clk : Clock) (state : PetRow) :
  priority clk state (get_emotion_priority clk state).
Proof.
  unfold get_emotion_priority.
  pose proof (emotion_locked_dec clk state) as HL.
  destruct (match emotion_expire_at state with
            | Some expire_time => now clk <? expire_time
            | None => false end) eqn:EL.
  { apply priority_locked. now apply HL. }
  assert (NL : ~ emotion_locked clk state).
  { intros C. apply HL in C. discriminate. }
  destruct (Z.ltb_spec (health state) 40) as [Hh|Hh].
  { now apply priority_sick. }
  destruct (poop_present state) eqn:EP.
  { pose proof (poop_neglected_dec clk state) as HP.
    destruct (poop_timestamp state) as [t|] eqn:ET.
    - destruct (minutes 15 <? now clk - t) eqn:EN.
      + apply priority_poop_old; auto. now apply HP.
      + apply priority_poop; auto. intros C. apply HP in C. discriminate.
    - apply priority_poop; auto. intros C. apply HP in C. discriminate. }
  destruct (Qlt_bool 70 (hunger state)) eqn:EH.
  { apply Qlt_bool_iff in EH.
    destruct (String.eqb_spec (stage state) "INFANT") as [ES|ES].
    - now apply priority_cry.
    - now apply priority_hunger. }
  apply Qlt_bool_false_iff in EH.
  destruct (Z.ltb_spec (energy state) 30) as [He|He].
  { now apply priority_sleep. }
  destruct (Z.ltb_spec 80 (happiness state)) as [Hp|Hp].
  { now apply priority_happy. }
  destruct (Z.ltb_spec (happiness state) 40) as [Hs|Hs].
  { now apply priority_sad. }
  apply priority_idle; auto.
Qed.

(** The precedence list selects at most one emotion. *)
Lemma priority_functional (clk : Clock) (state : PetRow) (e1 e2 : string) :
  priority clk state e1 -> priority clk state e2 -> e1 = e2.
Proof.
  intros H1 H2.
  inversion H1; subst; inversion H2; subst;
    try reflexivity; try contradiction; try congruence; try lia;
    try (exfalso; eapply Qlt_not_le; eassumption).
Qed.

(** C2 (as amended).  At a given clock reading, the emotion priority
    function returns exactly the one emotion the strict precedence
    selects: the locked emotion while [emotion_expire_at] is in the
    future; else SICK below health 40; else, with poop present, SICK
    after 15 minutes and POOP before; else, above hunger 70, CRY for an
    INFANT and HUNGER otherwise; else SLEEP below energy 30; else HAPPY
    above happiness 80, SAD below 40, and IDLE in between.  It is a
    function of the snapshot and the clock. *)
Theorem get_emotion_priority_precedence :
  forall (clk : Clock) (state : PetRow) (e : string),
    get_emotion_priority clk state = e <-> priority clk state e.
Proof.
  intros clk state e. split.
  - intros <-. apply get_emotion_priority_sound.
  - intros H. eapply priority_functional; [|exact H].
    apply get_emotion_priority_sound.
Qed.

(** C2 as stated fails where it calls the function pure over the
    snapshot: the same snapshot, a pet whose poop appeared at second
    1000, yields POOP five minutes later and SICK twenty minutes
    later. *)
Lemma emotion_depends_on_clock :
  get_emotion_priority (clock_at 1300) pooped_row = "POOP"
  /\ get_emotion_priority (clock_at 2200) pooped_row = "SICK"
  /\ get_emotion_priority (clock_at 1300) pooped_row
     <> get_emotion_priority (clock_at 2200) pooped_row.
Proof. vm_compute. repeat split; discriminate. Qed.

(** ** C4: the scheduler tick *)

Lemma hunger_increase_table :
  hunger_increase "INFANT" = 15 /\ hunger_increase "CHILD" = 10
  /\ hunger_increase "ADULT" = 8 /\ hunger_increase "OLD" = 12.
Proof. repeat split. Qed.

(** What steps 1 to 5 write into hunger, energy and stage. *)
Lemma pet_engine_updates_effect (clk : Clock) (rnd : Q) (state : PetRow) :
  let merged_state := merge state (pet_engine_updates clk rnd state) in
  hunger merged_state
  = py_minQ 100 (hunger state
                 + inject_Z (hunger_increase (stage merged_state)) / 30)
  /\ energy merged_state = py_max 0 (energy state - 2)
  /\ stage merged_state = tick_stage clk state.
Proof.
  unfold pet_engine_updates, tick_stage.
  destruct (last_age_increment state) as [t|];
    [destruct (hours 24 <? now clk - t)|];
    (destruct (digestion_due_time state) as [d|];
     [destruct ((d <? now clk) && negb (poop_present state))|]);
    (destruct (poop_present state);
     [destruct (poop_timestamp state) as [p|];
      [destruct (minutes 15 <? now clk - p)|]|]);
    cbn [app get_stage fold_left];
    match goal with
    | |- context [(?s =? "OLD")%string] =>
        destruct (s =? "OLD")%string; [destruct (Qlt_bool rnd (1 # 100))|]
    end;
    repeat split; reflexivity.
Qed.







(** ** C5: feeding *)









(** ** The display poll, case by case *)

Lemma select_oled_free (device : string) (w : World) :
  db_lock w = false ->
  with_db_lock (sql_select_oled device) w = Returns (oled_of device w) w.
Proof.
  intros H. rewrite with_db_lock_free by exact H.
  unfold sql_select_oled, oled_of. simpl. now rewrite unlock_lock.
Qed.

Lemma startup_check_free (clk : Clock) (device : string) (w : World) :
  db_lock w = false ->
  with_db_lock (
    result <- sql_select_oled device ;;
    match result with
    | Some r => ret (startup_recent clk r)
    | None => ret false
    end) w
  = Returns (match oled_of device w with
             | Some r => startup_recent clk r
             | None => false
             end) w.
Proof.
  intros H. rewrite with_db_lock_free by exact H.
  unfold bind, sql_select_oled, oled_of, ret. simpl.
  destruct (find _ _); now rewrite unlock_lock.
Qed.

Lemma poll_startup (clk : Clock) (device : string) (w : World) (r : OledRow) :
  db_lock w = false ->
  oled_of device w = Some r ->
  startup_recent clk r = true ->
  get_oled_display clk device w = Returns startup_display w.
Proof.
  intros Hfree Hrow Hrecent. unfold get_oled_display. unfold bind at 1.
  rewrite startup_check_free by exact Hfree. now rewrite Hrow, Hrecent.
Qed.

Lemma poll_manual (clk : Clock) (device : string) (w : World) (r : OledRow) :
  db_lock w = false ->
  oled_of device w = Some r ->
  startup_recent clk r = false ->
  get_oled_display clk device w = Returns (manual_display r) w.
Proof.
  intros Hfree Hrow Hrecent. unfold get_oled_display. unfold bind at 1.
  rewrite startup_check_free by exact Hfree. rewrite Hrow, Hrecent.
  unfold bind at 1.
  rewrite select_oled_free by exact Hfree. now rewrite Hrow.
Qed.

Lemma poll_no_row (clk : Clock) (device : string) (w : World) :
  db_lock w = false ->
  oled_of device w = None ->
  get_oled_display clk device w
  = match pet_of device w with
    | None => Returns default_display w
    | Some pet =>
        let animation_id := stage_to_id (stage pet) in
        let menu := current_menu pet in
        if Qle_bool (hunger pet) 50 && (menu =? "FOOD_MENU")%string then
          menu_transition device [F_current_emotion "EATING"]
            animation_id menu true w
        else if (current_emotion pet =? "EATING")%string
                && (menu =? "FOOD_MENU")%string then
          menu_transition device
            [F_current_menu "MAIN"; F_current_emotion "IDLE"]
            animation_id "MAIN" false w
        else if negb (poop_present pet)
                && (menu =? "TOILET_MENU")%string then
          menu_transition device
            [F_current_menu "MAIN"; F_current_emotion "IDLE"]
            animation_id "MAIN" false w
        else
          Returns (automatic_display animation_id pet menu false false) w
    end.
Proof.
  intros Hfree Hrow. unfold get_oled_display. unfold bind at 1.
  rewrite startup_check_free by exact Hfree. rewrite Hrow.
  unfold bind at 1.
  rewrite select_oled_free by exact Hfree. rewrite Hrow.
  unfold bind at 1.
  rewrite get_pet_state_free by exact Hfree.
  destruct (pet_of device w) as [pet|]; [|reflexivity].
  cbv zeta.
  destruct (Qle_bool (hunger pet) 50 && _); [reflexivity|].
  destruct ((current_emotion pet =? "EATING")%string && _); [reflexivity|].
  destruct (negb (poop_present pet) && _); reflexivity.
Qed.

(** A menu transition never comes back: the re-fetch asks for the lock
    its own thread holds.  The UPDATE before it has taken effect. *)
Lemma menu_transition_deadlocks (device : string) (assignments : list Field)
    (animation_id : Z) (menu : string) (play_eating : bool) (w : World) :
  db_lock w = false ->
  exists w',
    menu_transition device assignments animation_id menu play_eating w
    = Deadlock w'
    /\ db_lock w' = true
    /\ pet_state w'
       = map (fun r => if (device_id r =? device)%string
                       then merge r assignments else r) (pet_state w).
Proof.
  intros Hfree. unfold menu_transition.
  unfold bind at 1. rewrite with_db_lock_free by exact Hfree.
  unfold bind at 1. unfold sql_update_pet_by_device.
  rewrite get_pet_state_held by reflexivity.
  eexists. split; [reflexivity|]. split; reflexivity.
Qed.

Lemma poll_no_transition (clk : Clock) (device : string) (w : World)
    (pet : PetRow) :
  db_lock w = false ->
  oled_of device w = None ->
  pet_of device w = Some pet ->
  menu_transition_due pet = false ->
  get_oled_display clk device w
  = Returns (automatic_display (stage_to_id (stage pet)) pet
               (current_menu pet) false false) w.
Proof.
  intros Hfree Hrow Hpet Hdue.
  rewrite poll_no_row by assumption. rewrite Hpet. cbv zeta.
  unfold menu_transition_due in Hdue.
  apply orb_false_iff in Hdue. destruct Hdue as [Hdue H3].
  apply orb_false_iff in Hdue. destruct Hdue as [H1 H2].
  now rewrite H1, H2, H3.
Qed.

Lemma poll_transition (clk : Clock) (device : string) (w : World)
    (pet : PetRow) :
  db_lock w = false ->
  oled_of device w = None ->
  pet_of device w = Some pet ->
  menu_transition_due pet = true ->
  exists w', get_oled_display clk device w = Deadlock w'
             /\ db_lock w' = true
             /\ exists r', pet_of device w' = Some r'
                           /\ version r' = version pet.
Proof.
  intros Hfree Hrow Hpet Hdue.
  rewrite poll_no_row by assumption. rewrite Hpet. cbv zeta.
  assert (Hgen : forall assignments animation_id menu play_eating,
            exists w',
              menu_transition device assignments animation_id menu
                play_eating w = Deadlock w'
              /\ db_lock w' = true
              /\ exists r', pet_of device w' = Some r'
                            /\ version r' = version pet).
  { intros a i m pe.
    destruct (menu_transition_deadlocks device a i m pe w Hfree)
      as (w' & Hrun & Hl & Hrows).
    exists w'. split; [exact Hrun|]. split; [exact Hl|].
    exists (merge pet a). unfold pet_of in *. rewrite Hrows.
    rewrite find_map_device_hit, Hpet. split; [reflexivity|].
    now destruct (merge_keeps a pet) as (_ & _ & ->). }
  unfold menu_transition_due in Hdue.
  destruct (Qle_bool (hunger pet) 50
            && (current_menu pet =? "FOOD_MENU")%string); [apply Hgen|].
  destruct ((current_emotion pet =? "EATING")%string
            && (current_menu pet =? "FOOD_MENU")%string); [apply Hgen|].
  destruct (negb (poop_present pet)
            && (current_menu pet =? "TOILET_MENU")%string); [apply Hgen|].
  discriminate.
Qed.

(** ** C3: precedence of the display poll *)

Lemma stage_to_id_table :
  stage_to_id "INFANT" = 0 /\ stage_to_id "CHILD" = 1
  /\ stage_to_id "ADULT" = 2 /\ stage_to_id "OLD" = 3
  /\ stage_to_id "END" = 3.
Proof. repeat split. Qed.

(** Where the poll returns, it follows the priority order: the startup
    descriptor for a row written by the startup path less than five
    seconds ago, whatever else is stored; else the stored row with mode
    MANUAL; else, with a pet row and no menu transition due, the
    descriptor derived from the pet with mode AUTOMATIC. *)
Lemma display_poll_precedence (clk : Clock) (device : string) (w : World) :
  db_lock w = false ->
  (forall r, oled_of device w = Some r -> startup_recent clk r = true ->
     get_oled_display clk device w = Returns startup_display w)
  /\ (forall r, oled_of device w = Some r -> startup_recent clk r = false ->
        exists disp,
          get_oled_display clk device w = Returns disp w
          /\ d_mode disp = "MANUAL"
          /\ d_animation_id disp = animation_id r
          /\ d_animation_name disp = Some (animation_name r)
          /\ d_animation_type disp = animation_type r
          /\ d_show_home_icon disp = icon_flag (show_home_icon r)
          /\ d_show_food_icon disp = icon_flag (show_food_icon r)
          /\ d_show_poop_icon disp = icon_flag (show_poop_icon r)
          /\ d_screen_type disp = or_MAIN (screen_type r))
  /\ (forall pet, oled_of device w = None -> pet_of device w = Some pet ->
        menu_transition_due pet = false ->
        exists disp,
          get_oled_display clk device w = Returns disp w
          /\ d_mode disp = "AUTOMATIC"
          /\ d_animation_id disp = stage_to_id (stage pet)
          /\ (d_show_food_icon disp = true <-> (70 < hunger pet)%Q)
          /\ d_show_poop_icon disp = poop_present pet).
Proof.
  intros Hfree. split; [|split].
  - intros r Hrow Hrecent. now apply poll_startup with (r := r).
  - intros r Hrow Hrecent. exists (manual_display r).
    split; [now apply poll_manual|]. repeat split.
  - intros pet Hrow Hpet Hdue.
    exists (automatic_display (stage_to_id (stage pet)) pet
              (current_menu pet) false false).
    split; [now apply poll_no_transition|]. simpl.
    repeat split; try apply Qlt_bool_iff.
Qed.

(** C3, where the code departs from it.  With no display row and a pet
    row for which a menu transition is due (on the food menu with
    hunger at most 50 or emotion EATING, or on the toilet menu without
    poop) the poll does not return the AUTOMATIC descriptor: it writes
    the transition, then blocks on [db_lock], which it still holds, and
    every later poll blocks behind it. *)
Theorem display_poll_blocks_on_menu_transition :
  forall (clk : Clock) (device : string) (w : World) (pet : PetRow),
    db_lock w = false ->
    oled_of device w = None ->
    pet_of device w = Some pet ->
    menu_transition_due pet = true ->
    exists w',
      get_oled_display clk device w = Deadlock w'
      /\ db_lock w' = true
      /\ (forall clk' device', get_oled_display clk' device' w' = Deadlock w').
Proof.
  intros clk device w pet Hfree Hrow Hpet Hdue.
  destruct (poll_transition clk device w pet Hfree Hrow Hpet Hdue)
    as (w' & Hrun & Hheld & _).
  exists w'. split; [exact Hrun|]. split; [exact Hheld|].
  intros clk' device'. unfold get_oled_display. unfold bind at 1.
  now rewrite with_db_lock_held.
Qed.

Lemma display_poll_blocks_on_menu_transition_witness :
  run 0 food_menu_requests empty_world = Returns tt food_menu_world
  /\ db_lock food_menu_world = false
  /\ oled_of "ESP32_001" food_menu_world = None
  /\ pet_of "ESP32_001" food_menu_world
     = Some (set_field fresh_row (F_current_menu "FOOD_MENU"))
  /\ menu_transition_due (set_field fresh_row (F_current_menu "FOOD_MENU"))
     = true
  /\ exists w',
       get_oled_display (clock_at 1010) "ESP32_001" food_menu_world
       = Deadlock w'.
Proof.
  split; [reflexivity|]. split; [reflexivity|]. split; [reflexivity|].
  split; [reflexivity|]. split; [reflexivity|].
  destruct (display_poll_blocks_on_menu_transition (clock_at 1010)
              "ESP32_001" food_menu_world
              (set_field fresh_row (F_current_menu "FOOD_MENU"))
              eq_refl eq_refl eq_refl eq_refl) as (w' & Hrun & _).
  exists w'. exact Hrun.
Defined.

(** ** C8: the poll without a pet row *)

(** C8.  For a device without a [pet_state] row the display poll always
    answers with status success: the startup descriptor or the stored
    display row when one applies, and otherwise the fixed default
    descriptor: animation id 1 (CHILD), health 100, hunger 0,
    cleanliness 100, happiness 100, energy 100, menu MAIN, mode
    DEFAULT. *)
Theorem display_poll_default_without_pet :
  forall (clk : Clock) (device : string) (w : World),
    db_lock w = false ->
    pet_of device w = None ->
    exists disp,
      get_oled_display clk device w = Returns disp w
      /\ d_http disp = 200
      /\ d_status disp = "success"
      /\ (oled_of device w = None ->
          d_mode disp = "DEFAULT"
          /\ d_animation_id disp = 1
          /\ d_stage disp = "CHILD"
          /\ d_screen_type disp = "MAIN"
          /\ exists v,
               d_pet disp = Some v
               /\ v_health v = 100 /\ v_hunger v = 0%Q
               /\ v_cleanliness v = 100 /\ v_happiness v = 100
               /\ v_energy v = 100 /\ v_current_menu v = "MAIN").
Proof.
  intros clk device w Hfree Hpet.
  destruct (oled_of device w) as [r|] eqn:Hrow.
  - destruct (startup_recent clk r) eqn:Hrecent.
    + exists startup_display.
      split; [now apply poll_startup with (r := r)|].
      repeat split; discriminate.
    + exists (manual_display r).
      split; [now apply poll_manual|].
      repeat split; discriminate.
  - exists default_display.
    split; [rewrite poll_no_row by assumption; now rewrite Hpet|].
    split; [reflexivity|]. split; [reflexivity|].
    intros _. repeat split. eexists. repeat split.
Qed.

Lemma display_poll_default_without_pet_witness :
  db_lock empty_world = false
  /\ pet_of "D1" empty_world = None
  /\ get_oled_display (clock_at 5) "D1" empty_world
     = Returns default_display empty_world.
Proof.
  split; [reflexivity|]. split; [reflexivity|].
  destruct (display_poll_default_without_pet (clock_at 5) "D1" empty_world
              eq_refl eq_refl) as (disp & Hrun & _).
  vm_compute in Hrun. injection Hrun as <-. vm_compute. reflexivity.
Defined.

(** ** C7: acknowledging events *)

Lemma map_no_hit {A} (hit : A -> bool) (g : A -> A) (l : list A) :
  filter hit l = [] -> map (fun r => if hit r then g r else r) l = l.
Proof.
  induction l as [|a l IH]; simpl; [reflexivity|].
  destruct (hit a); [discriminate|]. intros H. now rewrite IH.
Qed.

Lemma set_important_events_unlock (t : list EventRow) (w : World) :
  db_lock w = false ->
  set_db_lock false (set_important_events t (set_db_lock true w))
  = set_important_events t w.
Proof. destruct w; simpl; intros ->; reflexivity. Qed.

Lemma set_important_events_same (w : World) :
  set_important_events (important_events w) w = w.
Proof. now destruct w. Qed.

(** What the acknowledgement does in each case: a missing [event_id]
    is refused with 400 and nothing changes; an id with no row for the
    device gives 404 and nothing changes; an id with a row for the
    device gives 200 and leaves every such row marked sent. *)
Lemma mark_event_received_cases (device : string) (w : World) :
  db_lock w = false ->
  mark_event_received None device w = Returns AckMissingField w
  /\ (forall event_id,
        (forall e, In e (important_events w) ->
                   e_id e = event_id -> e_device_id e <> device) ->
        mark_event_received (Some event_id) device w
        = Returns (AckNotFound event_id) w)
  /\ (forall event_id e,
        In e (important_events w) ->
        e_id e = event_id -> e_device_id e = device ->
        exists w',
          mark_event_received (Some event_id) device w
          = Returns (AckOk event_id) w'
          /\ forall e', In e' (important_events w') ->
                        e_id e' = event_id -> e_device_id e' = device ->
                        is_sent e' = true).
Proof.
  intros Hfree. split; [reflexivity|]. split.
  - intros event_id Hnone. unfold mark_event_received.
    rewrite with_db_lock_free by exact Hfree.
    unfold bind, sql_mark_event_sent. cbn [important_events set_db_lock].
    assert (Hnil : filter (fun r => (e_id r =? event_id)
                                    && (e_device_id r =? device)%string)
                          (important_events w) = []).
    { destruct (filter _ _) as [|e l] eqn:E; [reflexivity|].
      assert (Hin : In e (e :: l)) by now left.
      rewrite <- E in Hin. apply filter_In in Hin. destruct Hin as [Hin Hhit].
      apply andb_true_iff in Hhit. destruct Hhit as [H1 H2].
      apply Z.eqb_eq in H1. apply String.eqb_eq in H2.
      exfalso. exact (Hnone e Hin H1 H2). }
    rewrite Hnil. simpl. unfold ret.
    rewrite set_important_events_unlock by exact Hfree.
    rewrite (map_no_hit _ _ _ Hnil). now rewrite set_important_events_same.
  - intros event_id e Hin Hid Hdev. unfold mark_event_received.
    rewrite with_db_lock_free by exact Hfree.
    unfold bind, sql_mark_event_sent. cbn [important_events set_db_lock].
    set (hit := fun r => (e_id r =? event_id)
                         && (e_device_id r =? device)%string).
    assert (Hpos : 0 < Z.of_nat (length (filter hit (important_events w)))).
    { assert (Hf : In e (filter hit (important_events w))).
      { apply filter_In. split; [exact Hin|]. unfold hit.
        now rewrite Hid, Hdev, Z.eqb_refl, String.eqb_refl. }
      destruct (filter hit (important_events w)); simpl in *;
        [contradiction | lia]. }
    apply Z.ltb_lt in Hpos. rewrite Hpos. unfold ret.
    eexists. split; [reflexivity|].
    intros e' Hin' Hid' Hdev'. simpl in Hin'.
    apply in_map_iff in Hin'. destruct Hin' as (r & Hr & _).
    subst e'. fold (hit r) in *.
    destruct (hit r) eqn:Ehit; [reflexivity|].
    unfold hit in Ehit.
    now rewrite Hid', Hdev', Z.eqb_refl, String.eqb_refl in Ehit.
Qed.

(** C7, where the code departs from it.  Acknowledging an event that is
    already marked sent is answered like the first acknowledgement,
    with status success and HTTP 200, not with the 404 of "Event not
    found or already processed": the UPDATE selects the row by id and
    device only, whatever [is_sent] holds. *)
Theorem reacknowledge_returns_success :
  forall (event_id : Z) (device : string) (w : World) (e : EventRow),
    db_lock w = false ->
    In e (important_events w) ->
    e_id e = event_id ->
    e_device_id e = device ->
    is_sent e = true ->
    exists w',
      mark_event_received (Some event_id) device w
      = Returns (AckOk event_id) w'
      /\ ack_http (AckOk event_id) = 200.
Proof.
  intros event_id device w e Hfree Hin Hid Hdev _.
  destruct (mark_event_received_cases device w Hfree) as (_ & _ & Hok).
  destruct (Hok event_id e Hin Hid Hdev) as (w' & Hrun & _).
  exists w'. split; [exact Hrun | reflexivity].
Qed.

(** The same on a run of the endpoint: the first acknowledgement marks
    the event sent, the second is answered exactly like the first. *)
Lemma reacknowledge_returns_success_witness :
  exists w1 e1,
    mark_event_received (Some 1) "ESP32_001" event_world
    = Returns (AckOk 1) w1
    /\ db_lock w1 = false
    /\ In e1 (important_events w1)
    /\ e_id e1 = 1 /\ e_device_id e1 = "ESP32_001" /\ is_sent e1 = true
    /\ unsent_events "ESP32_001" w1 = []
    /\ exists w2,
         mark_event_received (Some 1) "ESP32_001" w1 = Returns (AckOk 1) w2.
Proof.
  eexists _, _. split; [vm_compute; reflexivity|].
  split; [reflexivity|]. split; [left; reflexivity|].
  split; [reflexivity|]. split; [reflexivity|]. split; [reflexivity|].
  split; [reflexivity|].
  match goal with
  | |- exists w2, mark_event_received _ _ ?w1 = _ =>
      destruct (reacknowledge_returns_success 1 "ESP32_001" w1
                  {| e_id := 1; e_device_id := "ESP32_001";
                     event_type := "high_sound";
                     message := "High sound detected: 85.0 dB";
                     is_sent := true |}
                  eq_refl (or_introl eq_refl) eq_refl eq_refl eq_refl)
        as (w2 & Hrun & _)
  end.
  exists w2. exact Hrun.
Defined.

(** ** C6: the step detector *)

Lemma is_peak_iff (r : Reading) : is_peak r = true <-> (barrier < stoss r)%Q.
Proof. apply Qlt_bool_iff. Qed.

Lemma is_peak_false_iff (r : Reading) :
  is_peak r = false <-> (stoss r <= barrier)%Q.
Proof. apply Qlt_bool_false_iff. Qed.

Lemma detect_steps_accept (r : Reading) (t : Q) (w : World) :
  (barrier < stoss r)%Q ->
  (min_interval < t - last_step_time w)%Q ->
  detect_steps r t w
  = Returns 1 (set_step_state t (step_count_global w + 1) w).
Proof.
  intros Hp Ht. unfold detect_steps.
  apply Qlt_bool_iff in Hp. apply Qlt_bool_iff in Ht. now rewrite Hp, Ht.
Qed.

Lemma detect_steps_reject (r : Reading) (t : Q) (w : World) :
  (stoss r <= barrier)%Q \/ (t - last_step_time w <= min_interval)%Q ->
  detect_steps r t w = Returns 0 w.
Proof.
  intros [H|H]; unfold detect_steps; apply Qlt_bool_false_iff in H; rewrite H;
    [reflexivity | now rewrite andb_false_r].
Qed.

Lemma peak_at_head (r : Reading) (rest : list Reading) :
  (barrier < stoss r)%Q -> peak_at (r :: rest) 0.
Proof. intros H. now exists r. Qed.

Lemma peak_at_tail (r : Reading) (rest : list Reading) (k : nat) :
  peak_at rest k <-> peak_at (r :: rest) (S k).
Proof. reflexivity. Qed.

Lemma batch_time_shift (t0 : Q) (i k : nat) :
  batch_time t0 (S i + k) = batch_time t0 (i + S k).
Proof. now rewrite Nat.add_succ_r. Qed.

Lemma detect_batch_cons (t0 : Q) (i : nat) (r : Reading)
    (rest : list Reading) (total : Z) (w : World) :
  detect_batch t0 (Z.of_nat i) (r :: rest) total w
  = match detect_steps r (batch_time t0 i) w with
    | Returns steps w' => detect_batch t0 (Z.of_nat (S i)) rest (total + steps) w'
    | Deadlock w' => Deadlock w'
    | OutOfFuel => OutOfFuel
    end.
Proof.
  cbn [detect_batch]. unfold bind, batch_time.
  replace (Z.of_nat i + 1) with (Z.of_nat (S i)) by lia. reflexivity.
Qed.

(** Peaks that all come too soon after the last accepted step are all
    dropped. *)
Lemma detect_batch_rejects (t0 : Q) (readings : list Reading) :
  forall (i : nat) (total : Z) (w : World),
    (forall k, peak_at readings k ->
               (batch_time t0 (i + k) - last_step_time w <= min_interval)%Q) ->
    detect_batch t0 (Z.of_nat i) readings total w = Returns total w.
Proof.
  induction readings as [|r rest IH]; intros i total w H; [reflexivity|].
  rewrite detect_batch_cons.
  rewrite detect_steps_reject.
  - rewrite Z.add_0_r. apply IH. intros k Hk.
    rewrite batch_time_shift. apply H. now apply peak_at_tail.
  - destruct (Qlt_le_dec barrier (stoss r)) as [Hp|Hp]; [right|now left].
    specialize (H 0%nat (peak_at_head r rest Hp)).
    now rewrite Nat.add_0_r in H.
Qed.

(** Peaks that are each eligible and lie more than the minimum interval
    apart are all counted. *)
Lemma detect_batch_separated (t0 : Q) (readings : list Reading) :
  forall (i : nat) (total : Z) (w : World),
    (forall k, peak_at readings k ->
               (min_interval < batch_time t0 (i + k) - last_step_time w)%Q) ->
    (forall k1 k2, (k1 < k2)%nat ->
                   peak_at readings k1 -> peak_at readings k2 ->
                   (min_interval
                    < batch_time t0 (i + k2) - batch_time t0 (i + k1))%Q) ->
    exists w',
      detect_batch t0 (Z.of_nat i) readings total w
      = Returns (total + count_peaks readings) w'.
Proof.
  induction readings as [|r rest IH]; intros i total w Hel Hsep.
  - exists w. unfold count_peaks. simpl. now rewrite Z.add_0_r.
  - rewrite detect_batch_cons.
    assert (Hsep' : forall k1 k2, (k1 < k2)%nat ->
              peak_at rest k1 -> peak_at rest k2 ->
              (min_interval
               < batch_time t0 (S i + k2) - batch_time t0 (S i + k1))%Q).
    { intros k1 k2 Hlt H1 H2. rewrite !batch_time_shift.
      apply Hsep; [lia | now apply peak_at_tail | now apply peak_at_tail]. }
    destruct (Qlt_le_dec barrier (stoss r)) as [Hp|Hp].
    + rewrite detect_steps_accept.
      * destruct (IH (S i) (total + 1)
                    (set_step_state (batch_time t0 i)
                       (step_count_global w + 1) w)) as (w' & Hrun).
        { intros k Hk. cbn [last_step_time set_step_state].
          rewrite batch_time_shift.
          specialize (Hsep 0%nat (S k) (Nat.lt_0_succ k)
                        (peak_at_head r rest Hp)
                        (proj1 (peak_at_tail r rest k) Hk)).
          now rewrite Nat.add_0_r in Hsep. }
        { exact Hsep'. }
        exists w'. rewrite Hrun. f_equal. unfold count_peaks. simpl.
        apply is_peak_iff in Hp. rewrite Hp. simpl length. lia.
      * exact Hp.
      * specialize (Hel 0%nat (peak_at_head r rest Hp)).
        now rewrite Nat.add_0_r in Hel.
    + rewrite detect_steps_reject by now left.
      destruct (IH (S i) (total + 0) w) as (w' & Hrun).
      { intros k Hk. rewrite batch_time_shift. apply Hel.
        now apply peak_at_tail. }
      { exact Hsep'. }
      exists w'. rewrite Hrun. f_equal. unfold count_peaks. simpl.
      apply is_peak_false_iff in Hp. rewrite Hp. lia.
Qed.

(** Eligible peaks that lie closer together than the minimum interval
    count as one step. *)
Lemma detect_batch_collapse (t0 : Q) (readings : list Reading) :
  forall (i : nat) (total : Z) (w : World),
    (exists k, peak_at readings k) ->
    (forall k, peak_at readings k ->
               (min_interval < batch_time t0 (i + k) - last_step_time w)%Q) ->
    (forall k1 k2, (k1 < k2)%nat ->
                   peak_at readings k1 -> peak_at readings k2 ->
                   (batch_time t0 (i + k2) - batch_time t0 (i + k1)
                    < min_interval)%Q) ->
    exists w',
      detect_batch t0 (Z.of_nat i) readings total w = Returns (total + 1) w'.
Proof.
  induction readings as [|r rest IH]; intros i total w [k0 Hk0] Hel Hclose.
  - destruct Hk0 as (r & Hr & _). destruct k0; discriminate.
  - rewrite detect_batch_cons.
    destruct (Qlt_le_dec barrier (stoss r)) as [Hp|Hp].
    + rewrite detect_steps_accept.
      * eexists. apply detect_batch_rejects.
        intros k Hk. cbn [last_step_time set_step_state].
        rewrite batch_time_shift. apply Qlt_le_weak.
        specialize (Hclose 0%nat (S k) (Nat.lt_0_succ k)
                      (peak_at_head r rest Hp)
                      (proj1 (peak_at_tail r rest k) Hk)).
        now rewrite Nat.add_0_r in Hclose.
      * exact Hp.
      * specialize (Hel 0%nat (peak_at_head r rest Hp)).
        now rewrite Nat.add_0_r in Hel.
    + rewrite detect_steps_reject by now left.
      rewrite Z.add_0_r. apply IH.
      * destruct k0 as [|k0].
        -- destruct Hk0 as (r0 & Hr0 & Hp0). simpl in Hr0.
           inversion Hr0; subst r0. exfalso.
           now apply (Qlt_not_le barrier (stoss r)).
        -- exists k0. now apply peak_at_tail in Hk0.
      * intros k Hk. rewrite batch_time_shift. apply Hel.
        now apply peak_at_tail.
      * intros k1 k2 Hlt H1 H2. rewrite !batch_time_shift.
        apply Hclose; [lia | now apply peak_at_tail | now apply peak_at_tail].
Qed.

(** A batch never counts more steps than it has readings. *)
Lemma detect_batch_range (t0 : Q) (readings : list Reading) :
  forall (idx total : Z) (w : World),
    exists n w',
      detect_batch t0 idx readings total w = Returns n w'
      /\ total <= n <= total + Z.of_nat (length readings).
Proof.
  induction readings as [|r rest IH]; intros idx total w.
  - exists total, w. simpl. split; [reflexivity | lia].
  - cbn [detect_batch]. unfold bind, detect_steps.
    destruct (_ && _).
    + destruct (IH (idx + 1) (total + 1)
                  (set_step_state
                     (t0 + inject_Z idx * sample_spacing)%Q
                     (step_count_global w + 1) w)) as (n & w' & Hrun & Hn).
      exists n, w'. split; [exact Hrun|]. simpl length. lia.
    + destruct (IH (idx + 1) (total + 0) w) as (n & w' & Hrun & Hn).
      exists n, w'. split; [exact Hrun|]. simpl length. lia.
Qed.

Lemma count_request_steps_batch (single : Reading) (readings : list Reading)
    (t : Q) :
  readings <> [] ->
  count_request_steps single readings t
  = detect_batch t (Z.of_nat 0) readings 0.
Proof. destruct readings; [contradiction | reflexivity]. Qed.

(** C6 (as amended).  Readings that never exceed the barrier yield 0
    steps.  For a batch, with its readings timed at the nominal spacing:
    if every peak comes more than the minimum interval after the step
    the detector accepted last before the batch, then peaks that are
    more than the minimum interval apart are all counted, and peaks
    that are closer together than the minimum interval count as one;
    and the count of a batch of N readings is between 0 and N. *)
Theorem step_detector_counts :
  forall (single : Reading) (readings : list Reading) (t : Q) (w : World),
    let steps := count_request_steps single readings t w in
    let eligible :=
      forall k, peak_at readings k ->
                (min_interval < batch_time t k - last_step_time w)%Q in
    ((stoss single <= barrier)%Q ->
     (forall r, In r readings -> (stoss r <= barrier)%Q) ->
     steps = Returns 0 w)
    /\ (readings <> [] ->
        eligible ->
        (forall k1 k2, (k1 < k2)%nat ->
           peak_at readings k1 -> peak_at readings k2 ->
           (min_interval < batch_time t k2 - batch_time t k1)%Q) ->
        exists w', steps = Returns (count_peaks readings) w')
    /\ (readings <> [] ->
        eligible ->
        (exists k, peak_at readings k) ->
        (forall k1 k2, (k1 < k2)%nat ->
           peak_at readings k1 -> peak_at readings k2 ->
           (batch_time t k2 - batch_time t k1 < min_interval)%Q) ->
        exists w', steps = Returns 1 w')
    /\ (readings <> [] ->
        exists n w',
          steps = Returns n w' /\ 0 <= n <= Z.of_nat (length readings)).
Proof.
  intros single readings t w steps eligible. unfold steps, eligible.
  split; [|split; [|split]].
  - intros Hs Hall. destruct readings as [|r rest].
    + now apply detect_steps_reject; left.
    + rewrite count_request_steps_batch by discriminate.
      apply detect_batch_rejects. intros k (r' & Hr' & Hp).
      apply nth_error_In in Hr'. exfalso.
      exact (Qlt_not_le _ _ Hp (Hall r' Hr')).
  - intros Hne Hel Hsep. rewrite count_request_steps_batch by exact Hne.
    destruct (detect_batch_separated t readings 0%nat 0 w Hel Hsep)
      as (w' & Hrun).
    exists w'. exact Hrun.
  - intros Hne Hel Hex Hclose.
    rewrite count_request_steps_batch by exact Hne.
    destruct (detect_batch_collapse t readings 0%nat 0 w Hex Hel Hclose)
      as (w' & Hrun).
    exists w'. exact Hrun.
  - intros Hne. rewrite count_request_steps_batch by exact Hne.
    apply detect_batch_range.
Qed.

(** The peaks of [second_batch] are its readings 0 and 3. *)
Lemma second_batch_peaks (k : nat) :
  peak_at second_batch k -> k = 0%nat \/ k = 3%nat.
Proof.
  intros (r & Hr & Hp).
  destruct k as [|[|[|[|k]]]]; auto; simpl in Hr;
    try (inversion Hr; subst r; vm_compute in Hp; discriminate).
  destruct k; discriminate.
Qed.

Lemma step_detector_counts_witness :
  second_batch <> []
  /\ (forall k, peak_at second_batch k ->
        (min_interval < batch_time 1002 k - last_step_time empty_world)%Q)
  /\ (forall k1 k2, (k1 < k2)%nat ->
        peak_at second_batch k1 -> peak_at second_batch k2 ->
        (min_interval < batch_time 1002 k2 - batch_time 1002 k1)%Q)
  /\ exists w',
       count_request_steps still second_batch 1002 empty_world
       = Returns 2 w'.
Proof.
  assert (Hne : second_batch <> []) by discriminate.
  assert (Hel : forall k, peak_at second_batch k ->
            (min_interval < batch_time 1002 k - last_step_time empty_world)%Q).
  { intros k Hk. destruct (second_batch_peaks k Hk) as [-> | ->];
      vm_compute; reflexivity. }
  assert (Hsep : forall k1 k2, (k1 < k2)%nat ->
            peak_at second_batch k1 -> peak_at second_batch k2 ->
            (min_interval < batch_time 1002 k2 - batch_time 1002 k1)%Q).
  { intros k1 k2 Hlt H1 H2.
    destruct (second_batch_peaks k1 H1) as [-> | ->];
      destruct (second_batch_peaks k2 H2) as [-> | ->];
      try (exfalso; lia); vm_compute; reflexivity. }
  repeat (split; [assumption|]).
  destruct (step_detector_counts still second_batch 1002 empty_world)
    as (_ & Hcount & _).
  exact (Hcount Hne Hel Hsep).
Defined.

(** C6 as stated fails: in the second of two batches sent two seconds
    apart, the peaks at indices 0 and 3 are 0.3 s apart, more than the
    minimum interval, yet the batch counts 1 step, not 2: its first
    peak comes 0.1 s after the step the first batch ended on.  For the
    same reason a batch of one reading, a peak, counts 0 steps. *)
Lemma separated_peaks_not_all_counted :
  exists w1 w2 w3,
    count_request_steps still first_batch 1000 empty_world = Returns 1 w1
    /\ count_request_steps still second_batch 1002 w1 = Returns 1 w2
    /\ count_peaks second_batch = 2
    /\ (forall k1 k2, (k1 < k2)%nat ->
          peak_at second_batch k1 -> peak_at second_batch k2 ->
          (min_interval < batch_time 1002 k2 - batch_time 1002 k1)%Q)
    /\ count_request_steps still [spike] 1002 w1 = Returns 0 w3
    /\ count_peaks [spike] = 1.
Proof.
  eexists _, _, _. split; [vm_compute; reflexivity|].
  split; [vm_compute; reflexivity|]. split; [reflexivity|].
  split; [|split; [vm_compute; reflexivity | reflexivity]].
  intros k1 k2 Hlt H1 H2.
  destruct (second_batch_peaks k1 H1) as [-> | ->];
    destruct (second_batch_peaks k2 H2) as [-> | ->];
    try (exfalso; lia); vm_compute; reflexivity.
Qed.

(** A run of adjacent peaks does not collapse to one step: each is
    0.1 s from its neighbour, but the fourth is 0.3 s after the first
    and is counted again. *)
Lemma adjacent_peaks_count_twice :
  exists w',
    count_request_steps still [spike; spike; spike; spike] 1000 empty_world
    = Returns 2 w'.
Proof. vm_compute. eexists. reflexivity. Qed.

(** ** C10: the display row *)

Section DisplayRow.

Variable device : string.














Lemma find_oled_map (g : OledRow -> OledRow) (rows : list OledRow) :
  (forall r, o_device_id (g r) = o_device_id r) ->
  find (fun r => (o_device_id r =? device)%string) (map g rows)
  = option_map g (find (fun r => (o_device_id r =? device)%string) rows).
Proof.
  intros Hg. induction rows as [|r rows IH]; simpl; [reflexivity|].
  rewrite Hg. destruct (o_device_id r =? device)%string; simpl; auto.
Qed.

Lemma find_oled_filter (d : string) (rows : list OledRow) :
  d <> device ->
  find (fun r => (o_device_id r =? device)%string)
       (filter (fun r => negb (o_device_id r =? d)%string) rows)
  = find (fun r => (o_device_id r =? device)%string) rows.
Proof.
  intros Hd. induction rows as [|r rows IH]; simpl; [reflexivity|].
  destruct (String.eqb_spec (o_device_id r) d) as [E|E]; simpl.
  - destruct (String.eqb_spec (o_device_id r) device) as [E'|E'];
      [congruence | exact IH].
  - destruct (o_device_id r =? device)%string; [reflexivity | exact IH].
Qed.

Lemma find_oled_app (rows : list OledRow) (r : OledRow) :
  find (fun r => (o_device_id r =? device)%string) (rows ++ [r])
  = match find (fun r => (o_device_id r =? device)%string) rows with
    | Some r0 => Some r0
    | None => if (o_device_id r =? device)%string then Some r else None
    end.
Proof.
  induction rows as [|r0 rows IH]; simpl; [reflexivity|].
  destruct (o_device_id r0 =? device)%string; auto.
Qed.







End DisplayRow.



Lemma CURRENT_TIMESTAMP_le (clk : Clock) : CURRENT_TIMESTAMP clk <= utcnow clk.
Proof.
  unfold CURRENT_TIMESTAMP, seconds.
  rewrite Z.mul_comm. apply Z.mul_div_le. lia.
Qed.

Lemma find_none_filter {A} (f : A -> bool) (l : list A) :
  Z.of_nat (length (filter f l)) = 0 -> find f l = None.
Proof.
  induction l as [|a l IH]; simpl; [reflexivity|].
  destruct (f a); simpl; [lia | exact IH].
Qed.

Lemma find_some_filter {A} (f : A -> bool) (l : list A) :
  Z.of_nat (length (filter f l)) <> 0 -> exists a, find f l = Some a.
Proof.
  induction l as [|a l IH]; simpl; [lia|].
  destruct (f a); simpl; [intros _; now exists a | exact IH].
Qed.

(** Every startup-complete call leaves the device with a display row
    written by the startup path at the current second. *)
Lemma startup_refreshes_row (clk : Clock) (device : string) (w : World) :
  db_lock w = false ->
  exists w' r0,
    device_startup_complete clk device w = Returns RespOk w'
    /\ db_lock w' = false
    /\ oled_of device w' = Some (startup_oled_row clk r0).
Proof.
  intros Hfree. unfold device_startup_complete.
  unfold bind at 1. rewrite with_db_lock_free by exact Hfree.
  unfold bind, sql_update_oled, sql_insert_oled, modify,
    sql_update_pet_by_device, sql_insert_pet, ret.
  cbv beta.
  cbn [oled_display_state pet_state set_db_lock set_oled_display_state
       set_pet_state db_lock].
  set (hit := fun r : OledRow => (o_device_id r =? device)%string).
  assert (Hids : forall r, o_device_id (if hit r then startup_oled_row clk r
                                        else r) = o_device_id r)
    by (intros r; now destruct (hit r)).
  destruct (Z.eqb_spec (Z.of_nat (length (filter hit (oled_display_state w)))) 0)
    as [E|E].
  - apply find_none_filter in E.
    destruct (Z.of_nat _ =? 0);
      (eexists _, (default_oled_row clk device);
       split; [reflexivity|]; split; [reflexivity|];
       unfold oled_of; cbn [oled_display_state set_db_lock
         set_oled_display_state set_pet_state];
       rewrite find_oled_app, (find_oled_map device _ _ Hids);
       fold hit; rewrite E; simpl; now rewrite String.eqb_refl).
  - apply find_some_filter in E. destruct E as [r0 E].
    assert (Hhit : hit r0 = true) by (apply find_some in E; apply E).
    destruct (Z.of_nat _ =? 0);
      (eexists _, r0;
       split; [reflexivity|]; split; [reflexivity|];
       unfold oled_of; cbn [oled_display_state set_db_lock
         set_oled_display_state set_pet_state];
       rewrite (find_oled_map device _ _ Hids);
       fold hit; rewrite E; simpl; now rewrite Hhit).
Qed.


Section DisplayRowHandlers.

Variable device : string.
Variable fuel : nat.







End DisplayRowHandlers.



(* ================================================================== *)
(** * Part III: further properties of the handlers                     *)
(* ================================================================== *)

(** ** The care actions and the menus *)

Lemma written_free (u : list Field) (cur : PetRow) (w : World) :
  db_lock w = false ->
  db_lock (set_pet_state (written u cur (pet_state w)) w) = false.
Proof. now destruct w. Qed.

Lemma locked_action_free (fuel : nat) (device : string) (updates : list Field)
    (w : World) (state : PetRow) :
  db_lock w = false ->
  pet_of device w = Some state ->
  exists w',
    locked_action fuel device updates w
    = Returns (ActionOk (merged updates (merged [F_action_lock true] state))) w'
    /\ db_lock w' = false
    /\ pet_of device w'
       = Some (merged updates (merged [F_action_lock true] state))
    /\ oled_display_state w' = oled_display_state w.
Proof.
  intros Hfree Hfind. unfold locked_action.
  set (u1 := [F_action_lock true]).
  set (w1 := set_pet_state (written u1 state (pet_state w)) w).
  set (s1 := merged u1 state).
  assert (Hfree1 : db_lock w1 = false) by now apply written_free.
  assert (Hfind1 : pet_of device w1 = Some s1) by now apply pet_of_written.
  exists (set_pet_state (written updates s1 (pet_state w1)) w1).
  split.
  { unfold bind.
    rewrite (update_pet_state_atomic_free fuel device u1 w state Hfree Hfind).
    fold w1 s1.
    now rewrite (update_pet_state_atomic_free fuel device updates w1 s1
                   Hfree1 Hfind1). }
  split; [now apply written_free|].
  split; [now apply pet_of_written | reflexivity].
Qed.

(** X1.  [POST /api/pet/clean], with the database lock free.  A device
    without a pet row gets the not-found answer and a pet without poop
    the already-clean answer; neither writes anything.  With poop
    present the call removes the poop and its timestamp, sets
    cleanliness to 100, raises health by 5 capped at 100, records the
    cleaning time, shows CLEAN_SUCCESS for 3 seconds and leaves the
    action lock clear; the version has gone up by 2 (one update sets
    the lock, one commits), and hunger, happiness, energy and a pending
    digestion are as before. *)
Theorem pet_clean_effect :
  forall (fuel : nat) (clk : Clock) (device : string) (w : World),
    db_lock w = false ->
    (pet_of device w = None ->
     pet_clean fuel clk device w = Returns ActionNotFound w)
    /\ (forall state,
          pet_of device w = Some state ->
          poop_present state = false ->
          pet_clean fuel clk device w = Returns ActionNoop w)
    /\ (forall state,
          pet_of device w = Some state ->
          poop_present state = true ->
          exists result w',
            pet_clean fuel clk device w = Returns (ActionOk result) w'
            /\ pet_of device w' = Some result
            /\ poop_present result = false
            /\ poop_timestamp result = None
            /\ cleanliness result = 100
            /\ health result = py_min 100 (health state + 5)
            /\ last_clean_time result = Some (now clk)
            /\ current_emotion result = "CLEAN_SUCCESS"
            /\ emotion_expire_at result = Some (now clk + seconds 3)
            /\ action_lock result = false
            /\ version result = version state + 2
            /\ hunger result = hunger state
            /\ happiness result = happiness state
            /\ energy result = energy state
            /\ digestion_due_time result = digestion_due_time state).
Proof.
  intros fuel clk device w Hfree. split; [|split].
  - intros Hnone. unfold pet_clean, bind.
    rewrite get_pet_state_free by exact Hfree. now rewrite Hnone.
  - intros state Hfind Hpoop. unfold pet_clean, bind.
    rewrite get_pet_state_free by exact Hfree. now rewrite Hfind, Hpoop.
  - intros state Hfind Hpoop. unfold pet_clean. unfold bind at 1.
    rewrite get_pet_state_free by exact Hfree. rewrite Hfind, Hpoop.
    cbn [negb].
    match goal with
    | |- context [locked_action _ _ ?u] =>
        destruct (locked_action_free fuel device u w state Hfree Hfind)
          as (w' & Hrun & _ & Hrow & _)
    end.
    eexists _, w'. split; [exact Hrun|]. split; [exact Hrow|].
    repeat split. simpl. lia.
Qed.

(** X2.  [POST /api/pet/inject], with the database lock free.  A device
    without a pet row gets the not-found answer; a pet whose health is
    80 or more gets the already-healthy answer and nothing is written.
    Below 80 the health rises by exactly 20: the cap at 100 of the code
    can never apply, and the result stays below 100.  RECOVER is shown
    for 3 seconds, the action lock ends clear, the version has gone up
    by 2, and hunger, happiness, energy and the poop are untouched. *)
Theorem pet_inject_effect :
  forall (fuel : nat) (clk : Clock) (device : string) (w : World),
    db_lock w = false ->
    (pet_of device w = None ->
     pet_inject fuel clk device w = Returns ActionNotFound w)
    /\ (forall state,
          pet_of device w = Some state ->
          80 <= health state ->
          pet_inject fuel clk device w = Returns ActionNoop w)
    /\ (forall state,
          pet_of device w = Some state ->
          health state < 80 ->
          exists result w',
            pet_inject fuel clk device w = Returns (ActionOk result) w'
            /\ pet_of device w' = Some result
            /\ health result = health state + 20
            /\ health result < 100
            /\ current_emotion result = "RECOVER"
            /\ emotion_expire_at result = Some (now clk + seconds 3)
            /\ action_lock result = false
            /\ version result = version state + 2
            /\ hunger result = hunger state
            /\ happiness result = happiness state
            /\ energy result = energy state
            /\ poop_present result = poop_present state).
Proof.
  intros fuel clk device w Hfree. split; [|split].
  - intros Hnone. unfold pet_inject, bind.
    rewrite get_pet_state_free by exact Hfree. now rewrite Hnone.
  - intros state Hfind Hh. unfold pet_inject, bind.
    rewrite get_pet_state_free by exact Hfree. rewrite Hfind.
    apply Z.leb_le in Hh. now rewrite Hh.
  - intros state Hfind Hh. unfold pet_inject. unfold bind at 1.
    rewrite get_pet_state_free by exact Hfree. rewrite Hfind.
    assert (E : (80 <=? health state) = false) by now apply Z.leb_gt.
    rewrite E.
    match goal with
    | |- context [locked_action _ _ ?u] =>
        destruct (locked_action_free fuel device u w state Hfree Hfind)
          as (w' & Hrun & _ & Hrow & _)
    end.
    eexists _, w'. split; [exact Hrun|]. split; [exact Hrow|].
    assert (Hcap : py_min 100 (health state + 20) = health state + 20).
    { unfold py_min. destruct (Z.ltb_spec (health state + 20) 100); lia. }
    cbn. rewrite Hcap. repeat split; lia.
Qed.

(** X3.  [POST /api/pet/play-result], with the database lock free;
    [result_type] is the upper-cased result of the request.  A device
    without a pet row gets the not-found answer and nothing is written.
    Otherwise WIN adds 20 to happiness, capped at 100, and shows WIN;
    every other value, not only LOSE, takes 10 off, floored at 0, and
    shows LOSE.  Either way the play time is recorded, the emotion
    expires 3 seconds later, the action lock ends clear, the version has
    gone up by 2, and health, hunger and energy are untouched. *)
Theorem pet_play_result_effect :
  forall (fuel : nat) (clk : Clock) (device result_type : string) (w : World),
    db_lock w = false ->
    (pet_of device w = None ->
     pet_play_result fuel clk device result_type w = Returns ActionNotFound w)
    /\ (forall state,
          pet_of device w = Some state ->
          exists result w',
            pet_play_result fuel clk device result_type w
            = Returns (ActionOk result) w'
            /\ pet_of device w' = Some result
            /\ (result_type = "WIN" ->
                happiness result = py_min 100 (happiness state + 20)
                /\ current_emotion result = "WIN")
            /\ (result_type <> "WIN" ->
                happiness result = py_max 0 (happiness state - 10)
                /\ current_emotion result = "LOSE")
            /\ last_play_time result = Some (now clk)
            /\ emotion_expire_at result = Some (now clk + seconds 3)
            /\ action_lock result = false
            /\ version result = version state + 2
            /\ health result = health state
            /\ hunger result = hunger state
            /\ energy result = energy state).
Proof.
  intros fuel clk device result_type w Hfree. split.
  - intros Hnone. unfold pet_play_result, bind.
    rewrite get_pet_state_free by exact Hfree. now rewrite Hnone.
  - intros state Hfind. unfold pet_play_result. unfold bind at 1.
    rewrite get_pet_state_free by exact Hfree. rewrite Hfind.
    match goal with
    | |- context [locked_action _ _ ?u] =>
        destruct (locked_action_free fuel device u w state Hfree Hfind)
          as (w' & Hrun & _ & Hrow & _)
    end.
    eexists _, w'. split; [exact Hrun|]. split; [exact Hrow|].
    destruct (String.eqb_spec result_type "WIN") as [E|E]; cbn;
      repeat split; try lia; try congruence; intros; contradiction.
Qed.

Lemma valid_pet_menu_no_transition (menu : string) (r : PetRow) :
  in_strings menu ["MAIN"; "HEALTH"; "CLEAN"; "FEED"; "PLAY"] = true ->
  current_menu r = menu ->
  menu_transition_due r = false.
Proof.
  intros Hin Hm. unfold menu_transition_due. rewrite Hm.
  unfold in_strings in Hin. cbn [existsb] in Hin.
  repeat (apply orb_true_iff in Hin; destruct Hin as [Hin|Hin];
          [apply String.eqb_eq in Hin; subst menu; cbn;
           now rewrite !andb_false_r|]).
  discriminate.
Qed.

(** X4.  [POST /api/pet/menu].  A menu outside MAIN, HEALTH, CLEAN,
    FEED and PLAY is rejected before the database is touched, whatever
    the state of the lock.  For a valid menu and a free lock, a device
    without a pet row gets the not-found answer and nothing is written;
    otherwise the menu is stored through the central update function,
    which raises the version by 1, and a display poll of a device that
    has no display row then answers in AUTOMATIC mode with that menu as
    its screen type. *)
Theorem pet_menu_then_poll :
  forall (fuel : nat) (clk : Clock) (device menu : string) (w : World),
    (in_strings menu ["MAIN"; "HEALTH"; "CLEAN"; "FEED"; "PLAY"] = false ->
     pet_menu fuel device menu w = Returns MenuInvalid w)
    /\ (in_strings menu ["MAIN"; "HEALTH"; "CLEAN"; "FEED"; "PLAY"] = true ->
        db_lock w = false ->
        (pet_of device w = None ->
         pet_menu fuel device menu w = Returns MenuNotFound w)
        /\ (forall state,
              pet_of device w = Some state ->
              exists result w',
                pet_menu fuel device menu w = Returns (MenuOk menu) w'
                /\ pet_of device w' = Some result
                /\ result = merged [F_current_menu menu] state
                /\ current_menu result = menu
                /\ version result = version state + 1
                /\ (oled_of device w = None ->
                    exists disp,
                      get_oled_display clk device w' = Returns disp w'
                      /\ d_mode disp = "AUTOMATIC"
                      /\ d_screen_type disp = menu))).
Proof.
  intros fuel clk device menu w. split.
  - intros Hbad. unfold pet_menu. now rewrite Hbad.
  - intros Hok Hfree. split.
    + intros Hnone. unfold pet_menu, bind. rewrite Hok. cbn [negb].
      rewrite get_pet_state_free by exact Hfree. now rewrite Hnone.
    + intros state Hfind.
      set (u := [F_current_menu menu]).
      set (w' := set_pet_state (written u state (pet_state w)) w).
      assert (Hfree' : db_lock w' = false) by now apply written_free.
      assert (Hfind' : pet_of device w' = Some (merged u state))
        by now apply pet_of_written.
      exists (merged u state), w'.
      split.
      { unfold pet_menu, bind. rewrite Hok. cbn [negb].
        rewrite get_pet_state_free by exact Hfree. rewrite Hfind.
        fold u.
        now rewrite (update_pet_state_atomic_free fuel device u w state
                       Hfree Hfind). }
      split; [exact Hfind'|]. split; [reflexivity|].
      split; [reflexivity|]. split; [reflexivity|].
      intros Hrow. eexists. split.
      * apply poll_no_transition with (pet := merged u state);
          [exact Hfree' | exact Hrow | exact Hfind' |].
        now apply valid_pet_menu_no_transition with (menu := menu).
      * split; reflexivity.
Qed.

Lemma find_none_map {A} (f : A -> bool) (g : A -> A) (l : list A) :
  find f l = None -> map (fun r => if f r then g r else r) l = l.
Proof.
  induction l as [|a l IH]; cbn [find map]; [reflexivity|].
  destruct (f a); [discriminate|]. intros H. now rewrite IH.
Qed.

(** X5.  [POST /api/oled-display/menu-switch].  A menu outside MAIN,
    FOOD_MENU and TOILET_MENU is rejected and nothing is written.  For a
    valid menu the endpoint does not look at the number of rows its
    UPDATE matched: for a device without a pet row it answers success
    with the requested menu, and the database is exactly as before. *)
Theorem switch_menu_unknown_device :
  forall (device menu : string) (w : World),
    (in_strings menu ["MAIN"; "FOOD_MENU"; "TOILET_MENU"] = false ->
     switch_menu device menu w = Returns MenuInvalid w)
    /\ (in_strings menu ["MAIN"; "FOOD_MENU"; "TOILET_MENU"] = true ->
        db_lock w = false ->
        pet_of device w = None ->
        switch_menu device menu w = Returns (MenuOk menu) w).
Proof.
  intros device menu w. split.
  - intros Hbad. unfold switch_menu. now rewrite Hbad.
  - intros Hok Hfree Hnone. unfold switch_menu, bind. rewrite Hok.
    cbn [negb]. rewrite with_db_lock_free by exact Hfree.
    unfold sql_update_pet_by_device, ret.
    cbn [pet_state set_db_lock].
    rewrite set_pet_state_unlock by exact Hfree.
    f_equal.
    assert (Hmap : map (fun r => if (device_id r =? device)%string
                                 then merge r [F_current_menu menu] else r)
                       (pet_state w) = pet_state w).
    { apply find_none_map. exact Hnone. }
    rewrite Hmap. now destruct w.
Qed.

Lemma pet_engine_iteration_step (fuel : nat) (clk : Clock) (rnd : Q)
    (datetime_bound : bool) (w : World) (state : PetRow) :
  db_lock w = false ->
  pet_of "ESP32_001" w = Some state ->
  pet_engine_iteration fuel clk rnd datetime_bound w
  = pet_engine_step fuel clk rnd datetime_bound "ESP32_001" state w.
Proof.
  intros Hfree Hfind. unfold pet_engine_iteration, bind.
  rewrite get_pet_state_free by exact Hfree. now rewrite Hfind.
Qed.

Lemma tick_commit_run (fuel : nat) (u : list Field) (w : World)
    (state : PetRow) :
  db_lock w = false ->
  pet_of "ESP32_001" w = Some state ->
  (result <- update_pet_state_atomic fuel "ESP32_001" u ;;
   match result with
   | Some result => ret (TickCommitted result)
   | None => ret TickFailed
   end) w
  = Returns (TickCommitted (merged u state))
      (set_pet_state (written u state (pet_state w)) w).
Proof.
  intros Hfree Hfind. unfold bind.
  now rewrite (update_pet_state_atomic_free fuel "ESP32_001" u w state
                 Hfree Hfind).
Qed.

(** A tick that commits hands [tick_updates] to the central update
    function. *)
Lemma tick_commits (fuel : nat) (clk : Clock) (rnd : Q)
    (datetime_bound : bool) (w : World) (state : PetRow) :
  db_lock w = false ->
  pet_of "ESP32_001" w = Some state ->
  action_lock state = false ->
  (emotion_expire_at state = None
   \/ datetime_bound || imports_datetime state = true) ->
  pet_engine_iteration fuel clk rnd datetime_bound w
  = Returns (TickCommitted (merged (tick_updates clk rnd state) state))
      (set_pet_state
         (written (tick_updates clk rnd state) state (pet_state w)) w).
Proof.
  intros Hfree Hfind Hlock Hok.
  rewrite pet_engine_iteration_step with (state := state) by assumption.
  unfold pet_engine_step. rewrite Hlock.
  unfold tick_updates, tick_emotion_entry.
  destruct (emotion_expire_at state) as [t|] eqn:EX.
  - destruct Hok as [Hok|Hok]; [discriminate|]. rewrite Hok.
    destruct (t <=? now clk).
    + now apply tick_commit_run.
    + rewrite app_nil_r. now apply tick_commit_run.
  - now apply tick_commit_run.
Qed.

Lemma tick_committed_inv (fuel : nat) (clk : Clock) (rnd : Q)
    (datetime_bound : bool) (w w' : World) (state result : PetRow) :
  db_lock w = false ->
  pet_of "ESP32_001" w = Some state ->
  pet_engine_iteration fuel clk rnd datetime_bound w
  = Returns (TickCommitted result) w' ->
  action_lock state = false
  /\ result = merged (tick_updates clk rnd state) state
  /\ pet_of "ESP32_001" w' = Some result
  /\ db_lock w' = false.
Proof.
  intros Hfree Hfind Hrun.
  destruct (action_lock state) eqn:Hlock.
  { rewrite pet_engine_iteration_step with (state := state) in Hrun
      by assumption.
    unfold pet_engine_step in Hrun. rewrite Hlock in Hrun. discriminate. }
  assert (Hok : emotion_expire_at state = None
                \/ datetime_bound || imports_datetime state = true).
  { destruct (emotion_expire_at state) as [t|] eqn:EX; [|now left].
    destruct (datetime_bound || imports_datetime state) eqn:EB; [now right|].
    rewrite pet_engine_iteration_step with (state := state) in Hrun
      by assumption.
    unfold pet_engine_step in Hrun. rewrite Hlock, EX, EB in Hrun.
    discriminate. }
  rewrite (tick_commits fuel clk rnd datetime_bound w state
             Hfree Hfind Hlock Hok) in Hrun.
  inversion Hrun; subst. split; [reflexivity|]. split; [reflexivity|].
  split; [now apply pet_of_written | now apply written_free].
Qed.

Lemma emotion_entry_keeps (r : PetRow) (extra : list Field) :
  extra = [] \/ (exists e, extra = [F_current_emotion e]) ->
  let r' := merge r extra in
  health r' = health r /\ age r' = age r
  /\ last_age_increment r' = last_age_increment r
  /\ poop_present r' = poop_present r
  /\ poop_timestamp r' = poop_timestamp r
  /\ digestion_due_time r' = digestion_due_time r
  /\ emotion_expire_at r' = emotion_expire_at r
  /\ happiness r' = happiness r /\ cleanliness r' = cleanliness r
  /\ current_menu r' = current_menu r /\ action_lock r' = action_lock r
  /\ last_feed_time r' = last_feed_time r
  /\ last_play_time r' = last_play_time r
  /\ last_clean_time r' = last_clean_time r
  /\ stage r' = stage r /\ hunger r' = hunger r /\ energy r' = energy r.
Proof. intros [-> | [e ->]]; repeat split. Qed.

Lemma tick_emotion_entry_shape (clk : Clock) (rnd : Q) (state : PetRow) :
  tick_emotion_entry clk rnd state = []
  \/ exists e, tick_emotion_entry clk rnd state = [F_current_emotion e].
Proof.
  unfold tick_emotion_entry.
  destruct (emotion_expire_at state) as [t|]; [destruct (t <=? now clk)|];
    eauto.
Qed.

(** What steps 1 to 5 of a tick write, field by field. *)
Lemma pet_engine_updates_fields (clk : Clock) (rnd : Q) (state : PetRow) :
  let result := merge state (pet_engine_updates clk rnd state) in
  health result
  = (if (tick_stage clk state =? "OLD")%string && Qlt_bool rnd (1 # 100)
     then py_max 0 (health state - 5)
     else if poop_overdue clk state then py_max 0 (health state - 10)
     else health state)
  /\ age result = (if birthday_due clk state then age state + 1 else age state)
  /\ last_age_increment result
     = (if birthday_due clk state then Some (now clk)
        else last_age_increment state)
  /\ poop_present result
     = (if digestion_due clk state then true else poop_present state)
  /\ poop_timestamp result
     = (if digestion_due clk state then Some (now clk)
        else poop_timestamp state)
  /\ digestion_due_time result
     = (if digestion_due clk state then None else digestion_due_time state)
  /\ emotion_expire_at result = emotion_expire_at state
  /\ happiness result = happiness state
  /\ cleanliness result = cleanliness state
  /\ current_menu result = current_menu state
  /\ action_lock result = action_lock state
  /\ last_feed_time result = last_feed_time state
  /\ last_play_time result = last_play_time state
  /\ last_clean_time result = last_clean_time state
  /\ current_emotion result = current_emotion state.
Proof.
  unfold pet_engine_updates, tick_stage, poop_overdue, birthday_due,
    digestion_due.
  destruct (last_age_increment state) as [t|] eqn:E1;
    [destruct (hours 24 <? now clk - t)|];
    (destruct (digestion_due_time state) as [d|] eqn:E2;
     [destruct (d <? now clk)|]);
    (destruct (poop_present state) eqn:E3;
     (destruct (poop_timestamp state) as [p|] eqn:E4;
      [destruct (minutes 15 <? now clk - p)|]));
    cbn [app get_stage fold_left andb negb];
    match goal with
    | |- context [(?s =? "OLD")%string] =>
        destruct (s =? "OLD")%string; [destruct (Qlt_bool rnd (1 # 100))|]
    end;
    cbn; rewrite ?E1, ?E2, ?E3, ?E4; repeat split; reflexivity.
Qed.

(** What a committed tick stores. *)
Lemma tick_result_fields (clk : Clock) (rnd : Q) (state : PetRow) :
  let result := merged (tick_updates clk rnd state) state in
  let m := merge state (pet_engine_updates clk rnd state) in
  health result = health m /\ age result = age m
  /\ last_age_increment result = last_age_increment m
  /\ poop_present result = poop_present m
  /\ poop_timestamp result = poop_timestamp m
  /\ digestion_due_time result = digestion_due_time m
  /\ emotion_expire_at result = emotion_expire_at m
  /\ happiness result = happiness m /\ cleanliness result = cleanliness m
  /\ current_menu result = current_menu m /\ action_lock result = action_lock m
  /\ last_feed_time result = last_feed_time m
  /\ last_play_time result = last_play_time m
  /\ last_clean_time result = last_clean_time m
  /\ stage result = stage m /\ hunger result = hunger m
  /\ energy result = energy m.
Proof.
  intros result m. unfold result, merged, tick_updates. rewrite merge_app.
  fold m.
  pose proof (emotion_entry_keeps m (tick_emotion_entry clk rnd state)
                (tick_emotion_entry_shape clk rnd state)) as H.
  cbv zeta in H.
  destruct (merge m (tick_emotion_entry clk rnd state)); exact H.
Qed.

Lemma py_max_0_range (h k : Z) :
  0 <= h -> 0 <= k -> 0 <= py_max 0 (h - k) <= h.
Proof. intros Hh Hk. unfold py_max. destruct (Z.ltb_spec 0 (h - k)); lia. Qed.

(** X6.  Health in a tick of the pet engine that commits.  When the
    random sickness strikes (the stage after this tick's ageing is OLD
    and the draw is below 0.01) the health drops by 5, floored at 0;
    otherwise, when poop is present and older than 15 minutes, it drops
    by 10, floored at 0; otherwise it is unchanged.  The two penalties
    never add up, since both are computed from the health before the
    tick.  A tick never raises the health, and it never changes
    happiness or cleanliness. *)
Theorem tick_health_rule :
  forall (fuel : nat) (clk : Clock) (rnd : Q) (datetime_bound : bool)
         (w w' : World) (state result : PetRow),
    db_lock w = false ->
    pet_of "ESP32_001" w = Some state ->
    pet_engine_iteration fuel clk rnd datetime_bound w
    = Returns (TickCommitted result) w' ->
    let sick := (stage result =? "OLD")%string && Qlt_bool rnd (1 # 100) in
    (sick = true -> health result = py_max 0 (health state - 5))
    /\ (sick = false -> poop_overdue clk state = true ->
        health result = py_max 0 (health state - 10))
    /\ (sick = false -> poop_overdue clk state = false ->
        health result = health state)
    /\ (0 <= health state -> 0 <= health result <= health state)
    /\ happiness result = happiness state
    /\ cleanliness result = cleanliness state.
Proof.
  intros fuel clk rnd b w w' state result Hfree Hfind Hrun sick.
  destruct (tick_committed_inv fuel clk rnd b w w' state result
              Hfree Hfind Hrun) as (_ & -> & _ & _).
  destruct (tick_result_fields clk rnd state)
    as (Hh & _ & _ & _ & _ & _ & _ & Hha & Hcl & _ & _ & _ & _ & _ & Hst & _).
  destruct (pet_engine_updates_fields clk rnd state)
    as (Hh' & _ & _ & _ & _ & _ & _ & Hha' & Hcl' & _).
  destruct (pet_engine_updates_effect clk rnd state) as (_ & _ & Hst').
  cbv zeta in *.
  assert (Hsick : sick = (tick_stage clk state =? "OLD")%string
                         && Qlt_bool rnd (1 # 100)).
  { unfold sick. now rewrite Hst, Hst'. }
  rewrite Hh, Hh', Hha, Hha', Hcl, Hcl', <- Hsick.
  split; [intros ->; reflexivity|].
  split; [intros -> ->; reflexivity|].
  split; [intros -> ->; reflexivity|].
  split; [|split; reflexivity].
  intros Hpos. destruct sick; [apply py_max_0_range; lia|].
  destruct (poop_overdue clk state); [apply py_max_0_range; lia | lia].
Qed.

(** X7.  Ageing in a tick that commits.  When more than 24 hours have
    passed since [last_age_increment], the age goes up by exactly 1, the
    age clock restarts at the current time, and the stage is the one of
    the new age (INFANT to 5, CHILD to 10, ADULT to 17, OLD to 21, END
    beyond).  Otherwise, and also when the age clock is not set, age,
    age clock and stage stay as they are: a tick ages the pet by at most
    one day however long it was away. *)
Theorem tick_age_progression :
  forall (fuel : nat) (clk : Clock) (rnd : Q) (datetime_bound : bool)
         (w w' : World) (state result : PetRow),
    db_lock w = false ->
    pet_of "ESP32_001" w = Some state ->
    pet_engine_iteration fuel clk rnd datetime_bound w
    = Returns (TickCommitted result) w' ->
    ((exists last_age_time,
         last_age_increment state = Some last_age_time
         /\ hours 24 < now clk - last_age_time) ->
     age result = age state + 1
     /\ last_age_increment result = Some (now clk)
     /\ stage result = stage_of_age (age state + 1))
    /\ ((forall last_age_time,
           last_age_increment state = Some last_age_time ->
           now clk - last_age_time <= hours 24) ->
        age result = age state
        /\ last_age_increment result = last_age_increment state
        /\ stage result = stage state).
Proof.
  intros fuel clk rnd b w w' state result Hfree Hfind Hrun.
  destruct (tick_committed_inv fuel clk rnd b w w' state result
              Hfree Hfind Hrun) as (_ & -> & _ & _).
  destruct (tick_result_fields clk rnd state)
    as (_ & Ha & Hl & _ & _ & _ & _ & _ & _ & _ & _ & _ & _ & _ & Hst & _).
  destruct (pet_engine_updates_fields clk rnd state) as (_ & Ha' & Hl' & _).
  destruct (pet_engine_updates_effect clk rnd state) as (_ & _ & Hst').
  cbv zeta in *. rewrite Ha, Ha', Hl, Hl', Hst, Hst'.
  unfold birthday_due, tick_stage. split.
  - intros (t & -> & Hlate). apply Z.ltb_lt in Hlate. rewrite Hlate.
    repeat split.
  - intros Hearly. destruct (last_age_increment state) as [t|];
      [|repeat split].
    assert (E : (hours 24 <? now clk - t) = false)
      by (apply Z.ltb_ge; now apply Hearly).
    rewrite E. repeat split.
Qed.

(** X8.  Digestion in a tick that commits.  When the digestion is due
    (its due time lies strictly in the past) and no poop is present, the
    tick makes the poop appear, stamps it with the current time and
    clears the due time.  When it is not due, the three columns stay as
    they are.  While poop is present a digestion is never completed:
    the due time waits until the pet has been cleaned. *)
Theorem tick_digestion :
  forall (fuel : nat) (clk : Clock) (rnd : Q) (datetime_bound : bool)
         (w w' : World) (state result : PetRow),
    db_lock w = false ->
    pet_of "ESP32_001" w = Some state ->
    pet_engine_iteration fuel clk rnd datetime_bound w
    = Returns (TickCommitted result) w' ->
    ((exists due_time,
         digestion_due_time state = Some due_time
         /\ due_time < now clk) ->
     poop_present state = false ->
     poop_present result = true
     /\ poop_timestamp result = Some (now clk)
     /\ digestion_due_time result = None)
    /\ (digestion_due clk state = false ->
        poop_present result = poop_present state
        /\ poop_timestamp result = poop_timestamp state
        /\ digestion_due_time result = digestion_due_time state)
    /\ (poop_present state = true -> digestion_due clk state = false).
Proof.
  intros fuel clk rnd b w w' state result Hfree Hfind Hrun.
  destruct (tick_committed_inv fuel clk rnd b w w' state result
              Hfree Hfind Hrun) as (_ & -> & _ & _).
  destruct (tick_result_fields clk rnd state)
    as (_ & _ & _ & Hp & Ht & Hd & _).
  destruct (pet_engine_updates_fields clk rnd state)
    as (_ & _ & _ & Hp' & Ht' & Hd' & _).
  cbv zeta in *. rewrite Hp, Hp', Ht, Ht', Hd, Hd'.
  split; [|split].
  - intros (d & Hdue & Hlate) Hnone. unfold digestion_due.
    rewrite Hdue, Hnone. apply Z.ltb_lt in Hlate. rewrite Hlate.
    repeat split.
  - intros ->. repeat split.
  - intros Hpoop. unfold digestion_due. rewrite Hpoop.
    destruct (digestion_due_time state); [apply andb_false_r | reflexivity].
Qed.

(** ** The emotion of a tick, and the life of a meal *)

Lemma get_emotion_priority_unlocked (clk : Clock) (r : PetRow) (e : string)
    (v : Z) :
  match emotion_expire_at r with
  | Some expire_time => now clk <? expire_time
  | None => false
  end = false ->
  get_emotion_priority clk (set_version v (set_field r (F_current_emotion e)))
  = get_emotion_priority clk r.
Proof.
  intros H. unfold get_emotion_priority. destruct r; cbn in *.
  now rewrite H.
Qed.

(** X9.  The emotion a committing tick stores is the one the emotion
    priority function gives for the stored row at the same clock
    reading: the tick leaves the row consistent with the function.  The
    tick never changes [emotion_expire_at], and while that expiry lies
    in the future the emotion of the row is kept as it is. *)
Theorem tick_emotion_consistent :
  forall (fuel : nat) (clk : Clock) (rnd : Q) (datetime_bound : bool)
         (w w' : World) (state result : PetRow),
    db_lock w = false ->
    pet_of "ESP32_001" w = Some state ->
    pet_engine_iteration fuel clk rnd datetime_bound w
    = Returns (TickCommitted result) w' ->
    get_emotion_priority clk result = current_emotion result
    /\ emotion_expire_at result = emotion_expire_at state
    /\ ((exists expire_at,
            emotion_expire_at state = Some expire_at /\ now clk < expire_at) ->
        current_emotion result = current_emotion state).
Proof.
  intros fuel clk rnd b w w' state result Hfree Hfind Hrun.
  destruct (tick_committed_inv fuel clk rnd b w w' state result
              Hfree Hfind Hrun) as (_ & -> & _ & _).
  destruct (pet_engine_updates_fields clk rnd state)
    as (_ & _ & _ & _ & _ & _ & Hx & _ & _ & _ & _ & _ & _ & _ & He).
  cbv zeta in Hx, He.
  set (m := merge state (pet_engine_updates clk rnd state)) in *.
  unfold merged, tick_updates, tick_emotion_entry. rewrite merge_app.
  fold m.
  destruct (emotion_expire_at state) as [t|] eqn:EX.
  - destruct (Z.leb_spec t (now clk)) as [Hexp|Hlock].
    + change (merge m [F_current_emotion (get_emotion_priority clk m)])
        with (set_field m (F_current_emotion (get_emotion_priority clk m))).
      split; [|split].
      * rewrite get_emotion_priority_unlocked.
        { now destruct m. }
        rewrite Hx. apply Z.ltb_ge. exact Hexp.
      * destruct m; exact Hx.
      * intros (t' & Ht' & Hlt). inversion Ht'; subst t'. lia.
    + change (merge m []) with m.
      split; [|split].
      * unfold get_emotion_priority.
        replace (emotion_expire_at (set_version (version state + 1) m))
          with (Some t) by (destruct m; now rewrite <- Hx).
        apply Z.ltb_lt in Hlock. now rewrite Hlock.
      * destruct m; exact Hx.
      * intros _. destruct m; exact He.
  - change (merge m [F_current_emotion (get_emotion_priority clk m)])
      with (set_field m (F_current_emotion (get_emotion_priority clk m))).
    split; [|split].
    + rewrite get_emotion_priority_unlocked.
      { now destruct m. }
      now rewrite Hx.
    + destruct m; exact Hx.
    + intros (t' & Ht' & _). discriminate.
Qed.

(** The row a feed leaves. *)
Lemma pet_feed_result (fuel : nat) (clk : Clock) (device : string)
    (w : World) (state : PetRow) :
  db_lock w = false ->
  pet_of device w = Some state ->
  let fed := merged (feed_updates clk state ++ [F_action_lock false])
               (merged [F_action_lock true] state) in
  exists w',
    pet_feed fuel clk device w
    = Returns (FeedOk (hunger fed) (current_emotion fed)
                 (digestion_due_time fed)) w'
    /\ db_lock w' = false
    /\ pet_of device w' = Some fed.
Proof.
  intros Hfree Hfind fed. unfold pet_feed.
  set (u1 := [F_action_lock true]).
  set (u2 := feed_updates clk state ++ [F_action_lock false]).
  set (w1 := set_pet_state (written u1 state (pet_state w)) w).
  set (s1 := merged u1 state).
  assert (Hfree1 : db_lock w1 = false) by now apply written_free.
  assert (Hfind1 : pet_of device w1 = Some s1) by now apply pet_of_written.
  exists (set_pet_state (written u2 s1 (pet_state w1)) w1).
  split.
  { unfold bind. rewrite get_pet_state_free by exact Hfree. rewrite Hfind.
    rewrite (update_pet_state_atomic_free fuel device u1 w state Hfree Hfind).
    fold w1. fold u2.
    now rewrite (update_pet_state_atomic_free fuel device u2 w1 s1
                   Hfree1 Hfind1). }
  split; [now apply written_free | now apply pet_of_written].
Qed.

(** X10.  The life of a meal.  A feed of a pet without poop answers
    EATING and schedules the digestion 30 minutes later; any tick that
    runs after that time commits, makes the poop appear with the tick's
    time as its timestamp, clears the due time and shows POOP (SICK if
    the health is below 40); a cleaning after that removes the poop and
    raises health by 5, capped at 100. *)
Theorem feed_digest_clean_cycle :
  forall (fuel : nat) (clk1 clk2 clk3 : Clock) (rnd : Q)
         (datetime_bound : bool) (w : World) (state : PetRow),
    db_lock w = false ->
    pet_of "ESP32_001" w = Some state ->
    poop_present state = false ->
    now clk1 + minutes 30 < now clk2 ->
    exists fed w1 pooped w2 cleaned w3,
      pet_feed fuel clk1 "ESP32_001" w
      = Returns (FeedOk (hunger fed) "EATING" (Some (now clk1 + minutes 30)))
          w1
      /\ pet_of "ESP32_001" w1 = Some fed
      /\ poop_present fed = false
      /\ pet_engine_iteration fuel clk2 rnd datetime_bound w1
         = Returns (TickCommitted pooped) w2
      /\ pet_of "ESP32_001" w2 = Some pooped
      /\ poop_present pooped = true
      /\ poop_timestamp pooped = Some (now clk2)
      /\ digestion_due_time pooped = None
      /\ (40 <= health pooped -> current_emotion pooped = "POOP")
      /\ (health pooped < 40 -> current_emotion pooped = "SICK")
      /\ pet_clean fuel clk3 "ESP32_001" w2 = Returns (ActionOk cleaned) w3
      /\ pet_of "ESP32_001" w3 = Some cleaned
      /\ poop_present cleaned = false
      /\ health cleaned = py_min 100 (health pooped + 5).
Proof.
  intros fuel clk1 clk2 clk3 rnd b w state Hfree Hfind Hclean Hlate.
  destruct (pet_feed_result fuel clk1 "ESP32_001" w state Hfree Hfind)
    as (w1 & Hfeed & Hfree1 & Hfind1).
  cbv zeta in Hfeed, Hfind1.
  set (fed := merged (feed_updates clk1 state ++ [F_action_lock false])
                (merged [F_action_lock true] state)) in *.
  assert (Hfed : poop_present fed = false
                 /\ digestion_due_time fed = Some (now clk1 + minutes 30)
                 /\ emotion_expire_at fed = Some (now clk1 + seconds 3)
                 /\ action_lock fed = false
                 /\ current_emotion fed = "EATING")
    by (repeat split; exact Hclean).
  destruct Hfed as (Hp & Hd & Hx & Hl & He).
  assert (Hok : emotion_expire_at fed = None
                \/ b || imports_datetime fed = true).
  { right. unfold imports_datetime. rewrite Hd.
    now rewrite orb_true_r, orb_true_r. }
  pose proof (tick_commits fuel clk2 rnd b w1 fed Hfree1 Hfind1 Hl Hok)
    as Htick.
  set (pooped := merged (tick_updates clk2 rnd fed) fed) in *.
  set (w2 := set_pet_state
               (written (tick_updates clk2 rnd fed) fed (pet_state w1)) w1)
    in *.
  assert (Hfree2 : db_lock w2 = false) by now apply written_free.
  assert (Hfind2 : pet_of "ESP32_001" w2 = Some pooped)
    by now apply pet_of_written.
  assert (Hdue : digestion_due clk2 fed = true).
  { unfold digestion_due. rewrite Hd, Hp.
    assert (E : (now clk1 + minutes 30 <? now clk2) = true)
      by now apply Z.ltb_lt.
    now rewrite E. }
  destruct (tick_result_fields clk2 rnd fed)
    as (Hh & _ & _ & Hpp & Hpt & Hdd & Hxx & _).
  destruct (pet_engine_updates_fields clk2 rnd fed)
    as (_ & _ & _ & Hpp' & Hpt' & Hdd' & Hxx' & _).
  cbv zeta in Hh, Hpp, Hpt, Hdd, Hxx, Hpp', Hpt', Hdd', Hxx'.
  fold pooped in Hh, Hpp, Hpt, Hdd, Hxx.
  rewrite Hdue in Hpp', Hpt', Hdd'.
  set (m := merge fed (pet_engine_updates clk2 rnd fed)) in *.
  assert (Hemo : current_emotion pooped = get_emotion_priority clk2 m).
  { unfold pooped, merged, tick_updates, tick_emotion_entry.
    rewrite merge_app. fold m. rewrite Hx.
    assert (E : (now clk1 + seconds 3 <=? now clk2) = true).
    { apply Z.leb_le. unfold minutes, seconds in *. lia. }
    rewrite E. now destruct m. }
  assert (Hprio : get_emotion_priority clk2 m
                  = if health m <? 40 then "SICK" else "POOP").
  { unfold get_emotion_priority. rewrite Hxx', Hx, Hpp', Hpt'.
    assert (E : (now clk2 <? now clk1 + seconds 3) = false).
    { apply Z.ltb_ge. unfold minutes, seconds in *. lia. }
    rewrite E. destruct (health m <? 40); [reflexivity|].
    replace (now clk2 - now clk2) with 0 by lia. reflexivity. }
  assert (Hpoop2 : poop_present pooped = true) by congruence.
  destruct (locked_action_free fuel "ESP32_001"
              [F_poop_present false; F_poop_timestamp None; F_cleanliness 100;
               F_health (py_min 100 (health pooped + 5));
               F_last_clean_time (Some (now clk3));
               F_current_emotion "CLEAN_SUCCESS";
               F_emotion_expire_at (Some (now clk3 + seconds 3));
               F_action_lock false] w2 pooped Hfree2 Hfind2)
    as (w3 & Hclean3 & _ & Hfind3 & _).
  eexists fed, w1, pooped, w2, _, w3.
  split.
  { rewrite Hfeed. now rewrite He, Hd. }
  split; [exact Hfind1|]. split; [exact Hp|].
  split; [exact Htick|]. split; [exact Hfind2|].
  split; [exact Hpoop2|]. split; [congruence|]. split; [congruence|].
  split.
  { intros Hhealthy. rewrite Hemo, Hprio, <- Hh.
    assert (E : (health pooped <? 40) = false) by now apply Z.ltb_ge.
    now rewrite E. }
  split.
  { intros Hsick. rewrite Hemo, Hprio, <- Hh.
    assert (E : (health pooped <? 40) = true) by now apply Z.ltb_lt.
    now rewrite E. }
  split.
  { unfold pet_clean. unfold bind at 1.
    rewrite get_pet_state_free by exact Hfree2. rewrite Hfind2, Hpoop2.
    cbn [negb]. exact Hclean3. }
  split; [exact Hfind3|]. split; reflexivity.
Qed.

(** ** The display endpoints *)

Lemma find_oled_other (device d : string) (g : OledRow -> OledRow)
    (rows : list OledRow) :
  d <> device ->
  (forall r, o_device_id (g r) = o_device_id r) ->
  find (fun r => (o_device_id r =? d)%string)
       (map (fun r => if (o_device_id r =? device)%string then g r else r)
            rows)
  = find (fun r => (o_device_id r =? d)%string) rows.
Proof.
  intros Hd Hg. induction rows as [|r rows IH]; cbn [map find];
    [reflexivity|].
  destruct (String.eqb_spec (o_device_id r) device) as [E|E].
  - rewrite Hg.
    destruct (String.eqb_spec (o_device_id r) d) as [E'|E'];
      [congruence | exact IH].
  - destruct (o_device_id r =? d)%string; [reflexivity | exact IH].
Qed.

(** UPDATE, else INSERT: the device's row afterwards is the assignment
    applied to its row, or to the column defaults. *)
Lemma upsert_oled (clk : Clock) (device : string)
    (assign : OledRow -> OledRow) (w : World) :
  db_lock w = false ->
  (forall r, o_device_id (assign r) = o_device_id r) ->
  exists w',
    with_db_lock (
      rowcount <- sql_update_oled device assign ;;
      if rowcount =? 0 then
        sql_insert_oled (assign (default_oled_row clk device))
      else ret tt) w = Returns tt w'
    /\ db_lock w' = false
    /\ oled_of device w' = Some (assign (oled_or_default clk device w))
    /\ pet_state w' = pet_state w
    /\ important_events w' = important_events w
    /\ (forall d, d <> device -> oled_of d w' = oled_of d w).
Proof.
  intros Hfree Hids. rewrite with_db_lock_free by exact Hfree.
  unfold bind, sql_update_oled, sql_insert_oled, modify, ret.
  cbv beta.
  cbn [oled_display_state pet_state set_db_lock set_oled_display_state
       db_lock].
  assert (Hids' : forall r, o_device_id
                              (if (o_device_id r =? device)%string
                               then assign r else r)
                            = o_device_id r)
    by (intros r; destruct (o_device_id r =? device)%string; auto).
  unfold oled_or_default, oled_of.
  destruct (Z.eqb_spec
              (Z.of_nat (length (filter
                 (fun r => (o_device_id r =? device)%string)
                 (oled_display_state w)))) 0) as [E|E].
  - apply find_none_filter in E. rewrite E.
    eexists. split; [reflexivity|]. split; [reflexivity|].
    cbn [oled_display_state set_db_lock set_oled_display_state pet_state
         important_events].
    split.
    { rewrite find_oled_app, (find_oled_map device _ _ Hids').
      rewrite E. cbn [option_map].
      rewrite Hids. cbn [default_oled_row o_device_id].
      now rewrite String.eqb_refl. }
    split; [reflexivity|]. split; [reflexivity|].
    intros d Hd. rewrite find_oled_app.
    rewrite find_oled_other by assumption.
    destruct (find (fun r => (o_device_id r =? d)%string)
                   (oled_display_state w)); [reflexivity|].
    rewrite Hids. cbn [default_oled_row o_device_id].
    destruct (String.eqb_spec device d); [congruence | reflexivity].
  - apply find_some_filter in E. destruct E as [r0 E]. rewrite E.
    assert (Hhit : (o_device_id r0 =? device)%string = true)
      by (apply find_some in E; apply E).
    eexists. split; [reflexivity|]. split; [reflexivity|].
    cbn [oled_display_state set_db_lock set_oled_display_state pet_state
         important_events].
    split.
    { rewrite (find_oled_map device _ _ Hids'). rewrite E.
      cbn [option_map]. now rewrite Hhit. }
    split; [reflexivity|]. split; [reflexivity|].
    intros d Hd. now rewrite find_oled_other.
Qed.

(** X11.  [POST /api/oled-display/set] and the poll.  A request that is
    not JSON, or whose animation id is outside 0..3, is rejected and
    nothing is written.  Otherwise (lock free) the call succeeds,
    leaves the pet table alone, and the next poll of the device,
    whatever the time, answers in MANUAL mode with that animation id, the name the
    endpoint gave it (INFANT, CHILD, ADULT, OLD) as animation name and
    stage, and the animation type sent; icons and screen type are those
    of the row the device had before, or the column defaults if it had
    none. *)
Theorem set_display_then_poll :
  forall (clk clk' : Clock) (is_json : bool) (anim_id : Z)
         (anim_type : option string) (device : string) (w : World),
    (is_json = false \/ anim_id < 0 \/ 3 < anim_id ->
     set_oled_display clk is_json anim_id anim_type device w
     = Returns RespBadRequest w)
    /\ (is_json = true -> 0 <= anim_id <= 3 -> db_lock w = false ->
        exists w' disp,
          set_oled_display clk is_json anim_id anim_type device w
          = Returns RespOk w'
          /\ pet_state w' = pet_state w
          /\ get_oled_display clk' device w' = Returns disp w'
          /\ d_mode disp = "MANUAL"
          /\ d_animation_id disp = anim_id
          /\ d_animation_name disp = Some (animation_map anim_id)
          /\ d_stage disp = animation_map anim_id
          /\ d_animation_type disp = anim_type
          /\ d_show_home_icon disp
             = icon_flag (show_home_icon (oled_or_default clk device w))
          /\ d_show_food_icon disp
             = icon_flag (show_food_icon (oled_or_default clk device w))
          /\ d_show_poop_icon disp
             = icon_flag (show_poop_icon (oled_or_default clk device w))
          /\ d_screen_type disp
             = or_MAIN (screen_type (oled_or_default clk device w))).
Proof.
  intros clk clk' is_json anim_id anim_type device w. split.
  - intros [-> | Hout]; [reflexivity|]. unfold set_oled_display.
    destruct is_json; [|reflexivity]. cbn [negb existsb].
    destruct (Z.eqb_spec anim_id 0); [lia|].
    destruct (Z.eqb_spec anim_id 1); [lia|].
    destruct (Z.eqb_spec anim_id 2); [lia|].
    destruct (Z.eqb_spec anim_id 3); [lia|]. reflexivity.
  - intros -> Hin Hfree. unfold set_oled_display. cbn [negb].
    assert (Hvalid : existsb (Z.eqb anim_id) [0; 1; 2; 3] = true).
    { cbn [existsb].
      destruct (Z.eqb_spec anim_id 0); [reflexivity|].
      destruct (Z.eqb_spec anim_id 1); [reflexivity|].
      destruct (Z.eqb_spec anim_id 2); [reflexivity|].
      destruct (Z.eqb_spec anim_id 3); [reflexivity|]. lia. }
    rewrite Hvalid. cbn [negb]. fold (animation_map anim_id).
    destruct (upsert_oled clk device
                (web_ui_oled_row clk anim_type anim_id (animation_map anim_id))
                w Hfree (fun r => eq_refl))
      as (w' & Hrun & Hfree' & Hrow & Hpet & _).
    unfold bind at 1. rewrite Hrun. unfold ret at 1.
    eexists w', _. split; [reflexivity|]. split; [exact Hpet|].
    split.
    { apply poll_manual with
        (r := web_ui_oled_row clk anim_type anim_id (animation_map anim_id)
                (oled_or_default clk device w));
        [exact Hfree' | exact Hrow | reflexivity]. }
    repeat split.
Qed.

(** X12.  The three icon toggles and the poll (lock free).  A toggle
    succeeds, leaves the pet table alone, and the next poll of the
    device, whatever the time, answers in MANUAL mode with the toggled icon
    set to the value sent and the two other icons, the animation id and
    the animation name as in the row the device had before.  A device
    without a display row gets one from the column defaults: animation 1
    and stage CHILD. *)
Theorem toggle_icon_then_poll :
  forall (clk clk' : Clock) (icon : Icon) (v : option bool)
         (device : string) (w : World),
    db_lock w = false ->
    let before := oled_or_default clk device w in
    exists w' disp,
      toggle_icon clk icon v device w = Returns RespOk w'
      /\ pet_state w' = pet_state w
      /\ get_oled_display clk' device w' = Returns disp w'
      /\ d_mode disp = "MANUAL"
      /\ d_show_home_icon disp
         = icon_flag (match icon with
                      | HomeIcon => v | _ => show_home_icon before end)
      /\ d_show_food_icon disp
         = icon_flag (match icon with
                      | FoodIcon => v | _ => show_food_icon before end)
      /\ d_show_poop_icon disp
         = icon_flag (match icon with
                      | PoopIcon => v | _ => show_poop_icon before end)
      /\ d_animation_id disp = animation_id before
      /\ d_animation_name disp = Some (animation_name before)
      /\ (oled_of device w = None ->
          d_animation_id disp = 1 /\ d_stage disp = "CHILD").
Proof.
  intros clk clk' icon v device w Hfree before.
  destruct (upsert_oled clk device (toggle_oled_row clk icon v) w Hfree
              (fun r => eq_refl))
    as (w' & Hrun & Hfree' & Hrow & Hpet & _).
  unfold toggle_icon. unfold bind at 1. rewrite Hrun. unfold ret at 1.
  eexists w', _. split; [reflexivity|]. split; [exact Hpet|].
  split.
  { apply poll_manual with (r := toggle_oled_row clk icon v before);
      [exact Hfree' | exact Hrow | reflexivity]. }
  do 6 (split; [reflexivity|]).
  unfold before, oled_or_default. intros ->. split; reflexivity.
Qed.

Lemma find_oled_deleted (device : string) (rows : list OledRow) :
  find (fun r => (o_device_id r =? device)%string)
       (filter (fun r => negb (o_device_id r =? device)%string) rows)
  = None.
Proof.
  induction rows as [|r rows IH]; cbn [filter find]; [reflexivity|].
  destruct (o_device_id r =? device)%string eqn:E; cbn [negb find];
    [exact IH | now rewrite E].
Qed.

Lemma filter_idempotent {A} (f : A -> bool) (l : list A) :
  filter f (filter f l) = filter f l.
Proof.
  induction l as [|a l IH]; cbn [filter]; [reflexivity|].
  destruct (f a) eqn:E; cbn [filter]; [now rewrite E, IH | exact IH].
Qed.

Lemma reset_oled_display_free (device : string) (w : World) :
  db_lock w = false ->
  reset_oled_display device w
  = Returns RespOk
      (set_oled_display_state
         (filter (fun r => negb (o_device_id r =? device)%string)
                 (oled_display_state w)) w).
Proof.
  intros Hfree. unfold reset_oled_display, bind.
  rewrite with_db_lock_free by exact Hfree.
  unfold sql_delete_oled, modify, ret. f_equal.
  destruct w; simpl in *; now subst.
Qed.

(** X13.  [POST /api/oled-display/reset] (lock free) deletes the display
    row of the device and nothing else: the rows of other devices and
    the pet table are as before, and a second reset changes nothing.
    A poll of the device that follows and answers has written nothing
    and is in AUTOMATIC or DEFAULT mode, never MANUAL. *)
Theorem reset_display_effect :
  forall (device : string) (w : World),
    db_lock w = false ->
    exists w',
      reset_oled_display device w = Returns RespOk w'
      /\ oled_of device w' = None
      /\ (forall d, d <> device -> oled_of d w' = oled_of d w)
      /\ pet_state w' = pet_state w
      /\ reset_oled_display device w' = Returns RespOk w'
      /\ (forall clk disp w'',
            get_oled_display clk device w' = Returns disp w'' ->
            w'' = w'
            /\ (d_mode disp = "AUTOMATIC" \/ d_mode disp = "DEFAULT")).
Proof.
  intros device w Hfree.
  rewrite reset_oled_display_free by exact Hfree.
  set (w' := set_oled_display_state _ w).
  assert (Hfree' : db_lock w' = false) by (destruct w; exact Hfree).
  assert (Hrow : oled_of device w' = None) by apply find_oled_deleted.
  exists w'. split; [reflexivity|]. split; [exact Hrow|].
  split; [intros d Hd; unfold oled_of; simpl; now apply find_oled_filter|].
  split; [reflexivity|]. split.
  { rewrite reset_oled_display_free by exact Hfree'. f_equal.
    unfold w'. cbn [oled_display_state set_oled_display_state].
    rewrite filter_idempotent. now destruct w. }
  intros clk disp w'' Hpoll.
  rewrite poll_no_row in Hpoll by assumption.
  destruct (pet_of device w') as [pet|] eqn:Hpet.
  - cbv zeta in Hpoll.
    assert (Hdead : forall a i m p,
              menu_transition device a i m p w' <> Returns disp w'').
    { intros a i m p E.
      destruct (menu_transition_deadlocks device a i m p w' Hfree')
        as (wd & Hd & _). congruence. }
    destruct (Qle_bool (hunger pet) 50
              && (current_menu pet =? "FOOD_MENU")%string);
      [now apply Hdead in Hpoll|].
    destruct ((current_emotion pet =? "EATING")%string
              && (current_menu pet =? "FOOD_MENU")%string);
      [now apply Hdead in Hpoll|].
    destruct (negb (poop_present pet)
              && (current_menu pet =? "TOILET_MENU")%string);
      [now apply Hdead in Hpoll|].
    inversion Hpoll; subst. split; [reflexivity | now left].
  - inversion Hpoll; subst. split; [reflexivity | now right].
Qed.

Lemma CURRENT_TIMESTAMP_gt (clk : Clock) :
  utcnow clk - seconds 1 < CURRENT_TIMESTAMP clk.
Proof.
  unfold CURRENT_TIMESTAMP, seconds.
  pose proof (Z.mod_pos_bound (utcnow clk) 1000000 ltac:(lia)).
  pose proof (Z.div_mod (utcnow clk) 1000000 ltac:(lia)). lia.
Qed.

(** X14.  The startup lock of [POST /api/device/startup-complete] (lock
    free).  The call succeeds, and a poll of the device whose UTC clock
    is at most 4 seconds after the call's gets the STARTUP_RESET
    descriptor; a poll 5 seconds or more after it gets the stored row
    in MANUAL mode: animation 0, INFANT, all icons off, screen MAIN.
    Between 4 and 5 seconds the answer depends on the sub-second part of
    the clock, since the row stores whole seconds. *)
Theorem startup_lock_window :
  forall (clk : Clock) (device : string) (w : World),
    db_lock w = false ->
    exists w',
      device_startup_complete clk device w = Returns RespOk w'
      /\ (forall clk',
            utcnow clk' <= utcnow clk + seconds 4 ->
            get_oled_display clk' device w' = Returns startup_display w')
      /\ (forall clk',
            utcnow clk + seconds 5 <= utcnow clk' ->
            exists disp,
              get_oled_display clk' device w' = Returns disp w'
              /\ d_mode disp = "MANUAL"
              /\ d_animation_id disp = 0
              /\ d_animation_name disp = Some "INFANT"
              /\ d_show_home_icon disp = false
              /\ d_show_food_icon disp = false
              /\ d_show_poop_icon disp = false
              /\ d_screen_type disp = "MAIN").
Proof.
  intros clk device w Hfree.
  destruct (startup_refreshes_row clk device w Hfree)
    as (w' & r0 & Hrun & Hfree' & Hrow).
  exists w'. split; [exact Hrun|].
  pose proof (CURRENT_TIMESTAMP_le clk) as Hle.
  pose proof (CURRENT_TIMESTAMP_gt clk) as Hgt.
  split.
  - intros clk' Hsoon.
    apply poll_startup with (r := startup_oled_row clk r0);
      [exact Hfree' | exact Hrow |].
    unfold startup_recent. cbn [updated_by updated_at startup_oled_row].
    cbn [String.eqb Ascii.eqb Bool.eqb andb].
    apply Z.ltb_lt. unfold seconds in *. lia.
  - intros clk' Hlate. exists (manual_display (startup_oled_row clk r0)).
    split.
    { apply poll_manual; [exact Hfree' | exact Hrow |].
      unfold startup_recent. cbn [updated_by updated_at startup_oled_row].
      cbn [String.eqb Ascii.eqb Bool.eqb andb].
      apply Z.ltb_ge. unfold seconds in *. lia. }
    repeat split.
Qed.

Lemma find_none_filter_nil {A} (f : A -> bool) (l : list A) :
  find f l = None -> filter f l = [].
Proof.
  induction l as [|a l IH]; cbn [find filter]; [reflexivity|].
  destruct (f a); [discriminate | exact IH].
Qed.

Lemma find_pet_app (device : string) (rows : list PetRow) (r : PetRow) :
  find (fun r => (device_id r =? device)%string) rows = None ->
  device_id r = device ->
  find (fun r => (device_id r =? device)%string) (rows ++ [r]) = Some r.
Proof.
  intros Hnone Hdev.
  induction rows as [|r0 rows IH]; cbn [app find] in *.
  - now rewrite Hdev, String.eqb_refl.
  - destruct (device_id r0 =? device)%string; [discriminate | now apply IH].
Qed.

(** The startup-complete call of a device without a pet row creates
    the row. *)
Lemma device_startup_complete_missing (clk : Clock) (device : string)
    (w : World) :
  db_lock w = false ->
  pet_of device w = None ->
  exists w',
    device_startup_complete clk device w = Returns RespOk w'
    /\ db_lock w' = false
    /\ pet_state w'
       = pet_state w
         ++ [default_pet_row (next_id (map row_id (pet_state w))) device
               (CURRENT_TIMESTAMP clk)]
    /\ pet_of device w'
       = Some (default_pet_row (next_id (map row_id (pet_state w))) device
                 (CURRENT_TIMESTAMP clk)).
Proof.
  intros Hfree Hnone. unfold device_startup_complete.
  unfold bind at 1. rewrite with_db_lock_free by exact Hfree.
  unfold pet_of in Hnone.
  pose proof (find_none_filter_nil _ _ Hnone) as Hnil.
  pose proof (find_none_map _ (fun r => merge r (startup_reset_fields clk))
                _ Hnone) as Hmap.
  unfold bind, sql_update_oled, sql_insert_oled, modify,
    sql_update_pet_by_device, sql_insert_pet, ret.
  cbv beta.
  destruct (Z.of_nat _ =? 0); cbv beta iota;
    cbn [pet_state set_db_lock set_oled_display_state set_pet_state db_lock
         oled_display_state];
    rewrite Hnil, Hmap; cbn [length Z.of_nat Z.eqb];
    (eexists; split; [reflexivity|]); (split; [reflexivity|]);
    cbn [pet_state set_db_lock set_oled_display_state set_pet_state];
    (split; [reflexivity|]);
    unfold pet_of; cbn [pet_state set_db_lock set_oled_display_state
                        set_pet_state];
    now apply find_pet_app.
Qed.

(** X15.  The pet after [POST /api/device/startup-complete] (lock free):
    the device has a pet row with age 0, stage INFANT, health 100,
    hunger 0, cleanliness, happiness and energy 100, no poop, no
    pending digestion, menu MAIN, emotion IDLE without expiry, the
    action lock clear and the age clock at the call's timestamp.  An
    existing row keeps its id and its version; a device without a row
    gets a new one, appended with version 0. *)
Theorem startup_resets_pet :
  forall (clk : Clock) (device : string) (w : World),
    db_lock w = false ->
    exists w' r,
      device_startup_complete clk device w = Returns RespOk w'
      /\ pet_of device w' = Some r
      /\ age r = 0 /\ stage r = "INFANT"
      /\ health r = 100 /\ hunger r = 0%Q /\ cleanliness r = 100
      /\ happiness r = 100 /\ energy r = 100
      /\ poop_present r = false /\ poop_timestamp r = None
      /\ digestion_due_time r = None
      /\ current_menu r = "MAIN" /\ current_emotion r = "IDLE"
      /\ emotion_expire_at r = None /\ action_lock r = false
      /\ last_age_increment r = Some (CURRENT_TIMESTAMP clk)
      /\ (forall old, pet_of device w = Some old ->
            row_id r = row_id old /\ version r = version old)
      /\ (pet_of device w = None ->
          version r = 0 /\ pet_state w' = pet_state w ++ [r]).
Proof.
  intros clk device w Hfree.
  destruct (pet_of device w) as [old|] eqn:Hfind.
  - destruct (device_startup_complete_free clk device w old Hfree Hfind)
      as (w' & Hrun & _ & Hrow).
    exists w', (merge old (startup_reset_fields clk)).
    split; [exact Hrun|]. split; [exact Hrow|].
    do 15 (split; [reflexivity|]).
    split; [|discriminate].
    intros old' E. inversion E; subst old'. split; reflexivity.
  - destruct (device_startup_complete_missing clk device w Hfree Hfind)
      as (w' & Hrun & _ & Hrows & Hrow).
    eexists w', _. split; [exact Hrun|]. split; [exact Hrow|].
    do 15 (split; [reflexivity|]).
    split; [discriminate|]. intros _. split; [reflexivity | exact Hrows].
Qed.

Lemma init_database_free (clk : Clock) (w : World) :
  db_lock w = false ->
  init_database clk w
  = Returns true
      (set_pet_state
         (match pet_state w with
          | [] => [default_pet_row 1 "ESP32_001" (CURRENT_TIMESTAMP clk)]
          | _ => pet_state w
          end)
         (set_oled_display_state
            (match oled_display_state w with
             | [] => [system_init_oled_row clk]
             | _ => oled_display_state w
             end) w)).
Proof.
  intros Hfree. unfold init_database.
  rewrite with_db_lock_free by exact Hfree.
  unfold bind, get_world, sql_insert_oled, sql_insert_pet, modify, ret.
  cbn [oled_display_state pet_state set_db_lock].
  destruct w as [l pets oleds ev lst cnt]. cbn in Hfree. subst l.
  destruct oleds, pets; reflexivity.
Qed.

(** X16.  [init_database] (lock free) returns True, inserts the default
    pet row of ESP32_001 only into an empty [pet_state] table and the
    SYSTEM_INIT display row only into an empty [oled_display_state]
    table, and leaves non-empty tables and the events as they are.
    Running it again, at any later time, changes nothing. *)
Theorem init_database_idempotent :
  forall (clk : Clock) (w : World),
    db_lock w = false ->
    exists w',
      init_database clk w = Returns true w'
      /\ (pet_state w <> [] -> pet_state w' = pet_state w)
      /\ (oled_display_state w <> [] ->
          oled_display_state w' = oled_display_state w)
      /\ (pet_state w = [] ->
          pet_state w'
          = [default_pet_row 1 "ESP32_001" (CURRENT_TIMESTAMP clk)])
      /\ (oled_display_state w = [] ->
          oled_display_state w' = [system_init_oled_row clk])
      /\ important_events w' = important_events w
      /\ (forall clk2, init_database clk2 w' = Returns true w').
Proof.
  intros clk w Hfree. rewrite init_database_free by exact Hfree.
  eexists. split; [reflexivity|].
  destruct w as [l pets oleds ev lst cnt]. cbn in Hfree. subst l.
  cbn [pet_state oled_display_state set_pet_state set_oled_display_state
       important_events].
  split; [destruct pets; [intros H; now contradiction H | reflexivity]|].
  split; [destruct oleds; [intros H; now contradiction H | reflexivity]|].
  split; [now intros ->|]. split; [now intros ->|].
  split; [reflexivity|].
  intros clk2. rewrite init_database_free by reflexivity.
  destruct pets, oleds; reflexivity.
Qed.

(** ** Row invariants of request sequences *)

Section RowInvariant.

Variable Inv : PetRow -> Prop.
Hypothesis I_store : forall new r, Inv new -> Inv (store_columns new r).
Hypothesis I_version : forall v r, Inv r -> Inv (set_version v r).
Hypothesis I_default : forall id d ts, Inv (default_pet_row id d ts).

Lemma keeps_ret {A} (a : A) (post : A -> Prop) :
  post a -> keeps Inv (ret a) post.
Proof. intros H w a' w' Hw E. inversion E; subst. auto. Qed.

Lemma keeps_bind {A B} (c : M A) (k : A -> M B) (P : A -> Prop)
    (Q : B -> Prop) :
  keeps Inv c P -> (forall a, P a -> keeps Inv (k a) Q) ->
  keeps Inv (bind c k) Q.
Proof.
  intros Hc Hk w b w' Hw E. unfold bind in E.
  destruct (c w) as [a w1| |] eqn:Ec; try discriminate.
  destruct (Hc w a w1 Hw Ec) as [Hw1 Pa].
  exact (Hk a Pa w1 b w' Hw1 E).
Qed.

Lemma keeps_weaken {A} (c : M A) (P Q : A -> Prop) :
  keeps Inv c P -> (forall a, P a -> Q a) -> keeps Inv c Q.
Proof.
  intros Hc HPQ w a w' Hw E. destruct (Hc w a w' Hw E). auto.
Qed.

Lemma keeps_out_of_fuel {A} (post : A -> Prop) :
  keeps Inv (@out_of_fuel A) post.
Proof. intros w a w' _ E. discriminate. Qed.

Lemma keeps_with_db_lock {A} (body : M A) (post : A -> Prop) :
  keeps Inv body post -> keeps Inv (with_db_lock body) post.
Proof.
  intros Hb w a w' Hw E. unfold with_db_lock in E.
  destruct (db_lock w); [discriminate|].
  destruct (body (set_db_lock true w)) as [a1 w1| |] eqn:Eb;
    try discriminate.
  inversion E; subst a w'.
  destruct (Hb (set_db_lock true w) a1 w1 Hw Eb) as [Hw1 Pa].
  split; [exact Hw1 | exact Pa].
Qed.

(** A computation that leaves [pet_state] alone. *)
Lemma keeps_same_table {A} (c : M A) :
  (forall w a w', c w = Returns a w' -> pet_state w' = pet_state w) ->
  keeps Inv c (fun _ => True).
Proof.
  intros H w a w' Hw E. split; [|exact I].
  unfold all_rows. now rewrite (H w a w' E).
Qed.

Lemma keeps_sql_select_pet (d : string) :
  keeps Inv (sql_select_pet d) (some_row Inv).
Proof.
  intros w a w' Hw E. inversion E; subst. split; [exact Hw|].
  intros r Hr. apply find_some in Hr. destruct Hr as [Hin _].
  unfold all_rows in Hw. rewrite Forall_forall in Hw. now apply Hw.
Qed.

Lemma keeps_get_pet_state (d : string) :
  keeps Inv (get_pet_state d) (some_row Inv).
Proof. apply keeps_with_db_lock, keeps_sql_select_pet. Qed.

Lemma keeps_sql_update_pet_versioned (new : PetRow) (id v : Z) :
  Inv new -> keeps Inv (sql_update_pet_versioned new id v) (fun _ => True).
Proof.
  intros Hnew w a w' Hw E. inversion E; subst. split; [|exact I].
  unfold all_rows in *. cbn [pet_state set_pet_state].
  apply Forall_map. eapply Forall_impl; [|exact Hw].
  intros r Hr. destruct (_ && _); [now apply I_store | exact Hr].
Qed.

Lemma keeps_sql_update_pet_by_device (d : string) (u : list Field) :
  compatible Inv u -> keeps Inv (sql_update_pet_by_device d u) (fun _ => True).
Proof.
  intros Hu w a w' Hw E. inversion E; subst. split; [|exact I].
  unfold all_rows in *. cbn [pet_state set_pet_state].
  apply Forall_map. eapply Forall_impl; [|exact Hw].
  intros r Hr. destruct (_ =? _)%string; [now apply Hu | exact Hr].
Qed.

Lemma keeps_sql_insert_pet (clk : Clock) (d : string) :
  keeps Inv (sql_insert_pet clk d) (fun _ => True).
Proof.
  intros w a w' Hw E. inversion E; subst. split; [|exact I].
  unfold all_rows in *. cbn [pet_state set_pet_state].
  apply Forall_app. split; [exact Hw|]. constructor; [apply I_default|].
  constructor.
Qed.

Lemma keeps_update_pet_state_atomic (fuel : nat) (d : string)
    (u : list Field) :
  compatible Inv u ->
  keeps Inv (update_pet_state_atomic fuel d u) (some_row Inv).
Proof.
  intros Hu. induction fuel as [|fuel IH]; cbn [update_pet_state_atomic];
    (apply keeps_with_db_lock;
     eapply keeps_bind; [apply keeps_sql_select_pet|];
     intros [cur|] Hcur;
     [|apply keeps_ret; intros r Hr; discriminate];
     assert (Hnew : Inv (set_version (version cur + 1) (merge cur u)))
       by (apply I_version, Hu, Hcur; reflexivity);
     eapply keeps_bind;
     [apply keeps_sql_update_pet_versioned; exact Hnew|];
     intros rc _; destruct (rc =? 0);
     [|apply keeps_ret; intros r Hr; inversion Hr; subst; exact Hnew]).
  - apply keeps_out_of_fuel.
  - exact IH.
Qed.

Lemma keeps_sql_select_oled (d : string) :
  keeps Inv (sql_select_oled d) (fun _ => True).
Proof.
  apply keeps_same_table. intros w a w' E. now inversion E.
Qed.

Lemma keeps_sql_update_oled (d : string) (g : OledRow -> OledRow) :
  keeps Inv (sql_update_oled d g) (fun _ => True).
Proof.
  apply keeps_same_table. intros w a w' E. now inversion E.
Qed.

Lemma keeps_sql_insert_oled (r : OledRow) :
  keeps Inv (sql_insert_oled r) (fun _ => True).
Proof.
  apply keeps_same_table. intros w a w' E. now inversion E.
Qed.

Lemma keeps_sql_delete_oled (d : string) :
  keeps Inv (sql_delete_oled d) (fun _ => True).
Proof.
  apply keeps_same_table. intros w a w' E. now inversion E.
Qed.

Lemma keeps_get_world : keeps Inv get_world (fun _ => True).
Proof.
  apply keeps_same_table. intros w a w' E. now inversion E.
Qed.

Lemma keeps_sql_mark_event_sent (id : Z) (d : string) :
  keeps Inv (sql_mark_event_sent id d) (fun _ => True).
Proof.
  apply keeps_same_table. intros w a w' E. now inversion E.
Qed.

Lemma keeps_detect_steps (r : Reading) (t : Q) :
  keeps Inv (detect_steps r t) (fun _ => True).
Proof.
  apply keeps_same_table. intros w a w' E. unfold detect_steps in E.
  destruct (_ && _); now inversion E.
Qed.

Lemma keeps_detect_batch (t : Q) (readings : list Reading) :
  forall idx total, keeps Inv (detect_batch t idx readings total) (fun _ => True).
Proof.
  induction readings as [|r rest IH]; intros idx total;
    cbn [detect_batch].
  - now apply keeps_ret.
  - eapply keeps_bind; [apply keeps_detect_steps|]. intros a _. apply IH.
Qed.

Lemma keeps_bind_true {A B} (c : M A) (k : A -> M B) (Q : B -> Prop) :
  keeps Inv c (fun _ => True) -> (forall a, keeps Inv (k a) Q) ->
  keeps Inv (bind c k) Q.
Proof. intros Hc Hk. eapply keeps_bind; [exact Hc | intros a _; apply Hk]. Qed.

Lemma keeps_forget {A} (c : M A) (P : A -> Prop) :
  keeps Inv c P -> keeps Inv c (fun _ => True).
Proof. intros Hc. eapply keeps_weaken; [exact Hc | intros; exact I]. Qed.

End RowInvariant.

(** One step of a proof that a handler keeps a row invariant; [Hs],
    [Hv] and [Hd] are the three closure properties of the invariant.
    The goals left are the [compatible] side conditions. *)
Ltac keeps_step Hs Hv Hd :=
  lazymatch goal with
  | |- keeps _ (bind (get_pet_state _) _) _ =>
      eapply keeps_bind;
      [apply keeps_get_pet_state | intros [?state|] ?Hrow]
  | |- keeps _ (bind (update_pet_state_atomic _ _ _) _) _ =>
      eapply keeps_bind;
      [apply (keeps_update_pet_state_atomic _ Hs Hv)
      | intros [?result|] ?Hres]
  | |- keeps _ (bind _ _) _ => apply keeps_bind_true; [|intros ?a]
  | |- keeps _ (ret _) _ => apply keeps_ret; exact I
  | |- keeps _ out_of_fuel _ => apply keeps_out_of_fuel
  | |- keeps _ (with_db_lock _) _ => apply keeps_with_db_lock
  | |- keeps _ (get_pet_state _) _ =>
      eapply keeps_forget; apply keeps_get_pet_state
  | |- keeps _ (update_pet_state_atomic _ _ _) _ =>
      eapply keeps_forget; apply (keeps_update_pet_state_atomic _ Hs Hv)
  | |- keeps _ (sql_select_pet _) _ =>
      eapply keeps_forget; apply keeps_sql_select_pet
  | |- keeps _ (sql_update_pet_by_device _ _) _ =>
      apply keeps_sql_update_pet_by_device
  | |- keeps _ (sql_insert_pet _ _) _ => apply (keeps_sql_insert_pet _ Hd)
  | |- keeps _ (sql_select_oled _) _ => apply keeps_sql_select_oled
  | |- keeps _ (sql_update_oled _ _) _ => apply keeps_sql_update_oled
  | |- keeps _ (sql_insert_oled _) _ => apply keeps_sql_insert_oled
  | |- keeps _ (sql_delete_oled _) _ => apply keeps_sql_delete_oled
  | |- keeps _ get_world _ => apply keeps_get_world
  | |- keeps _ (sql_mark_event_sent _ _) _ => apply keeps_sql_mark_event_sent
  | |- keeps _ (detect_steps _ _) _ => apply keeps_detect_steps
  | |- keeps _ (detect_batch _ _ _ _) _ => apply keeps_detect_batch
  | |- keeps _ (if ?b then _ else _) _ => destruct b
  | |- keeps _ (match ?x with _ => _ end) _ => destruct x
  end.

Ltac keeps_auto Hs Hv Hd := repeat keeps_step Hs Hv Hd.

(** ** The stats stay in range *)

Lemma stats_store (new r : PetRow) :
  stats_in_range new -> stats_in_range (store_columns new r).
Proof. intros H. exact H. Qed.

Lemma stats_version (v : Z) (r : PetRow) :
  stats_in_range r -> stats_in_range (set_version v r).
Proof. intros H. exact H. Qed.

Lemma stats_default (id : Z) (d : string) (ts : timestamp) :
  stats_in_range (default_pet_row id d ts).
Proof.
  unfold stats_in_range. cbn. repeat split; try lia; discriminate.
Qed.

Lemma stats_set_field (r : PetRow) (f : Field) :
  stats_in_range r -> field_in_range f -> stats_in_range (set_field r f).
Proof.
  unfold stats_in_range. intros (H1 & H2 & H3 & H4 & H5) Hf.
  destruct f; cbn in *; repeat split; tauto.
Qed.

Lemma stats_compatible (u : list Field) :
  Forall field_in_range u -> compatible stats_in_range u.
Proof.
  intros Hu r. revert r. unfold merge.
  induction Hu as [|f u Hf _ IH]; intros r Hr; cbn [fold_left];
    [exact Hr|].
  apply IH. now apply stats_set_field.
Qed.

Lemma py_max_0_in_range (h k : Z) :
  0 <= h <= 100 -> 0 <= k -> 0 <= py_max 0 (h - k) <= 100.
Proof. intros Hh Hk. unfold py_max. destruct (Z.ltb_spec 0 (h - k)); lia. Qed.

Lemma py_min_100_in_range (h k : Z) :
  0 <= h <= 100 -> 0 <= k -> 0 <= py_min 100 (h + k) <= 100.
Proof. intros Hh Hk. unfold py_min. destruct (Z.ltb_spec (h + k) 100); lia. Qed.

Lemma py_maxQ_0_in_range (x k : Q) :
  (0 <= x <= 100)%Q -> (0 <= k)%Q -> (0 <= py_maxQ 0 (x - k) <= 100)%Q.
Proof.
  intros Hx Hk. unfold py_maxQ.
  destruct (Qlt_bool 0 (x - k)) eqn:E.
  - apply Qlt_bool_iff in E. lra.
  - lra.
Qed.

Lemma py_minQ_100_in_range (x k : Q) :
  (0 <= x <= 100)%Q -> (0 <= k)%Q -> (0 <= py_minQ 100 (x + k) <= 100)%Q.
Proof.
  intros Hx Hk. unfold py_minQ.
  destruct (Qlt_bool (x + k) 100) eqn:E.
  - apply Qlt_bool_iff in E. lra.
  - lra.
Qed.

Lemma hunger_rate_nonneg (s : string) :
  (0 <= inject_Z (hunger_increase s) / 30)%Q.
Proof.
  unfold hunger_increase.
  repeat match goal with
         | |- context [if ?b then _ else _] => destruct b
         end; unfold Qle; cbn; lia.
Qed.

Lemma feed_updates_in_range (clk : Clock) (state : PetRow) :
  stats_in_range state -> Forall field_in_range (feed_updates clk state).
Proof.
  intros (_ & Hh & _). unfold feed_updates.
  constructor; [|repeat constructor].
  cbn. apply py_maxQ_0_in_range; [exact Hh | lra].
Qed.

Lemma pet_engine_updates_in_range (clk : Clock) (rnd : Q) (state : PetRow) :
  stats_in_range state ->
  Forall field_in_range (pet_engine_updates clk rnd state).
Proof.
  intros (Hhe & Hhu & _ & _ & Hen). unfold pet_engine_updates.
  repeat match goal with
         | |- Forall _ (if ?b then _ else _) => destruct b
         | |- Forall _ (match ?x with Some _ => _ | None => _ end) =>
             destruct x
         | |- Forall _ (_ ++ _) => apply Forall_app; split
         | |- Forall _ (_ :: _) => constructor
         | |- Forall _ [] => constructor
         | |- field_in_range _ => cbn [field_in_range]
         | |- True => exact I
         | |- _ <= py_max 0 (_ - _) <= _ => apply py_max_0_in_range; lia
         | |- (_ <= py_minQ 100 (_ + _) <= _)%Q =>
             apply py_minQ_100_in_range; [exact Hhu | apply hunger_rate_nonneg]
         end.
Qed.

Ltac stats_keeps := keeps_auto stats_store stats_version stats_default.

(** The side conditions: dictionaries whose stats are in range. *)
Ltac stats_side :=
  apply stats_compatible;
  repeat match goal with
         | H : some_row _ (Some ?s) |- _ =>
             let K := fresh "K" in
             assert (K : stats_in_range s) by (apply H; reflexivity);
             clear H; destruct K as (?Khe & ?Khu & ?Kcl & ?Kha & ?Ken)
         end;
  repeat match goal with
         | |- Forall _ (_ ++ _) => apply Forall_app; split
         | |- Forall _ (_ :: _) => constructor
         | |- Forall _ [] => constructor
         | |- Forall _ (if ?b then _ else _) => destruct b
         | |- field_in_range _ => cbn [field_in_range]
         | |- True => exact I
         | |- _ = _ => reflexivity
         | |- _ <= py_max 0 (_ - _) <= _ => apply py_max_0_in_range; lia
         | |- _ <= py_min 100 (_ + _) <= _ => apply py_min_100_in_range; lia
         | |- (_ <= _ <= _)%Q => lra
         | |- _ <= _ <= _ => lia
         end.

Lemma stats_keeps_pet_engine_iteration (fuel : nat) (clk : Clock) (rnd : Q)
    (b : bool) :
  keeps stats_in_range (pet_engine_iteration fuel clk rnd b) (fun _ => True).
Proof.
  unfold pet_engine_iteration. cbv zeta.
  eapply keeps_bind; [apply keeps_get_pet_state|].
  intros [state|] Hrow; [|now apply keeps_ret].
  assert (Hs : stats_in_range state) by (apply Hrow; reflexivity).
  pose proof (pet_engine_updates_in_range clk rnd state Hs) as Hu.
  assert (Hue : forall e, Forall field_in_range
                  (pet_engine_updates clk rnd state ++ [F_current_emotion e])).
  { intros e. apply Forall_app. split; [exact Hu|]. repeat constructor. }
  unfold pet_engine_step.
  stats_keeps; apply stats_compatible; auto.
Qed.

Lemma stats_keeps_pet_feed (fuel : nat) (clk : Clock) (d : string) :
  keeps stats_in_range (pet_feed fuel clk d) (fun _ => True).
Proof.
  unfold pet_feed. stats_keeps; try (stats_side; fail).
  all: apply stats_compatible; apply Forall_app; split;
    [apply feed_updates_in_range; now apply Hrow | repeat constructor].
Qed.

Lemma stats_keeps_upload (fuel : nat) (clk : Clock) (e : bool) (d : string) :
  keeps stats_in_range (upload_binary_image fuel clk e d) (fun _ => True).
Proof.
  unfold upload_binary_image. stats_keeps.
  all: apply stats_compatible; apply feed_updates_in_range; now apply Hrow.
Qed.

(** Every request keeps the stats in range. *)
Lemma stats_keeps_handle (fuel : nat) (req : Request) :
  keeps stats_in_range (handle fuel req) (fun _ => True).
Proof.
  destruct req; unfold handle.
  - unfold init_database. stats_keeps.
  - apply keeps_bind_true; [apply stats_keeps_pet_feed | intros; stats_keeps].
  - apply keeps_bind_true; [apply stats_keeps_upload | intros; stats_keeps].
  - unfold pet_menu. stats_keeps; stats_side.
  - unfold switch_menu. stats_keeps; stats_side.
  - unfold set_oled_display. stats_keeps.
  - unfold reset_oled_display. stats_keeps.
  - unfold toggle_icon. stats_keeps.
  - unfold device_startup_complete. stats_keeps.
    unfold startup_reset_fields. stats_side.
  - unfold get_oled_display, menu_transition. stats_keeps; stats_side.
  - unfold mark_event_received. stats_keeps.
  - unfold count_request_steps. stats_keeps.
  - apply keeps_bind_true;
      [apply stats_keeps_pet_engine_iteration | intros; stats_keeps].
  - unfold pet_clean, locked_action. stats_keeps; stats_side.
  - unfold pet_inject, locked_action. stats_keeps; stats_side.
  - unfold pet_play_result, locked_action. stats_keeps; stats_side.
Qed.

Lemma stats_keeps_run (fuel : nat) (reqs : list Request) :
  keeps stats_in_range (run fuel reqs) (fun _ => True).
Proof.
  induction reqs as [|req reqs IH]; cbn [run].
  - now apply keeps_ret.
  - apply keeps_bind_true; [apply stats_keeps_handle | intros; exact IH].
Qed.

(** X17.  The stats stay in range.  If in every pet row health,
    happiness and energy lie in 0..100, hunger lies in 0..100 and
    cleanliness is 100, the same holds after any sequence of the
    modelled requests (initialisation, feed, upload, the menu
    endpoints, the display endpoints, startup, poll, acknowledgement,
    sensor data, engine ticks, clean, inject, play result) that runs to
    its end.  In particular no code path ever lowers cleanliness. *)
Theorem stats_stay_in_range :
  forall (fuel : nat) (reqs : list Request) (w w' : World),
    (forall r, In r (pet_state w) -> stats_in_range r) ->
    run fuel reqs w = Returns tt w' ->
    forall r,
      In r (pet_state w') ->
      0 <= health r <= 100
      /\ (0 <= hunger r <= 100)%Q
      /\ cleanliness r = 100
      /\ 0 <= happiness r <= 100
      /\ 0 <= energy r <= 100.
Proof.
  intros fuel reqs w w' Hw Hrun.
  apply Forall_forall in Hw.
  destruct (stats_keeps_run fuel reqs w tt w' Hw Hrun) as [Hw' _].
  unfold all_rows in Hw'. rewrite Forall_forall in Hw'. exact Hw'.
Qed.

(** ** The action lock and the age clock *)

Lemma unlocked_store (new r : PetRow) :
  unlocked new -> unlocked (store_columns new r).
Proof. intros H. exact H. Qed.

Lemma unlocked_version (v : Z) (r : PetRow) :
  unlocked r -> unlocked (set_version v r).
Proof. intros H. exact H. Qed.

Lemma unlocked_default (id : Z) (d : string) (ts : timestamp) :
  unlocked (default_pet_row id d ts).
Proof. reflexivity. Qed.

Lemma no_lock_entry_compatible (u : list Field) :
  no_lock_entry u -> compatible unlocked u.
Proof.
  intros Hu r. revert r. unfold merge.
  induction Hu as [|f u Hf _ IH]; intros r Hr; cbn [fold_left];
    [exact Hr|].
  apply IH. destruct f; try exact Hr. contradiction.
Qed.

(** A dictionary that ends by clearing the lock can be merged into any
    row. *)
Lemma clears_lock (u : list Field) (r : PetRow) :
  unlocked (merge r (u ++ [F_action_lock false])).
Proof. rewrite merge_app. reflexivity. Qed.

Lemma clears_lock_compatible (u : list Field) :
  compatible unlocked (u ++ [F_action_lock false]).
Proof. intros r _. apply clears_lock. Qed.

(** The two updates of an action: the one that sets the lock and the
    one that commits the effect and clears it. *)
Lemma keeps_locked_pair {B} (fuel : nat) (d : string) (u : list Field)
    (k : option PetRow -> M B) (Q : B -> Prop) :
  (forall r, unlocked (merge r u)) ->
  (forall a, keeps unlocked (k a) Q) ->
  keeps unlocked
    (update_pet_state_atomic fuel d [F_action_lock true] ;;;
     bind (update_pet_state_atomic fuel d u) k) Q.
Proof.
  intros Hu Hk w b w' Hw E. unfold bind at 1 in E.
  destruct (db_lock w) eqn:Hfree.
  { rewrite update_pet_state_atomic_held in E by exact Hfree. discriminate. }
  destruct (pet_of d w) as [state|] eqn:Hfind.
  - set (u1 := [F_action_lock true]) in *.
    rewrite (update_pet_state_atomic_free fuel d u1 w state Hfree Hfind) in E.
    set (w1 := set_pet_state (written u1 state (pet_state w)) w) in *.
    set (s1 := merged u1 state) in *.
    assert (Hfree1 : db_lock w1 = false) by now apply written_free.
    assert (Hfind1 : pet_of d w1 = Some s1) by now apply pet_of_written.
    unfold bind at 1 in E.
    rewrite (update_pet_state_atomic_free fuel d u w1 s1 Hfree1 Hfind1) in E.
    refine (Hk _ _ b w' _ E).
    unfold all_rows in *. cbn [pet_state set_pet_state w1].
    unfold written at 1. apply Forall_map. unfold written.
    apply Forall_map. eapply Forall_impl; [|exact Hw].
    intros r Hr. cbv beta.
    destruct ((row_id r =? row_id state) && (version r =? version state))
      eqn:Hhit.
    + apply andb_true_iff in Hhit. destruct Hhit as [H1 H2].
      apply Z.eqb_eq in H1. apply Z.eqb_eq in H2.
      destruct (merged_keeps u1 state) as (K1 & _ & K3). fold s1 in K1, K3.
      assert (Hhit2 : (row_id (store_columns s1 r) =? row_id s1)
                      && (version (store_columns s1 r) =? version s1) = true).
      { cbn [store_columns row_id version]. rewrite K1, H1.
        now rewrite !Z.eqb_refl. }
      fold s1. rewrite Hhit2. unfold unlocked. cbn [store_columns action_lock].
      unfold merged. apply Hu.
    + destruct ((row_id r =? row_id s1) && (version r =? version s1));
        [|exact Hr].
      unfold unlocked. cbn [store_columns action_lock]. unfold merged.
      apply Hu.
  - rewrite (update_pet_state_atomic_missing fuel d _ w Hfree Hfind) in E.
    unfold bind at 1 in E.
    rewrite (update_pet_state_atomic_missing fuel d _ w Hfree Hfind) in E.
    exact (Hk _ w b w' Hw E).
Qed.

Ltac lock_step :=
  lazymatch goal with
  | |- keeps _ (bind (update_pet_state_atomic _ _ [F_action_lock true]) _) _ =>
      apply keeps_locked_pair; [intros ?r | intros [?result|]]
  | _ => keeps_step unlocked_store unlocked_version unlocked_default
  end.

Ltac lock_keeps := repeat lock_step.

Ltac lock_side :=
  first
    [ reflexivity
    | apply clears_lock
    | apply no_lock_entry_compatible; unfold no_lock_entry;
      repeat constructor ].

Lemma pet_engine_updates_no_lock (clk : Clock) (rnd : Q) (state : PetRow) :
  no_lock_entry (pet_engine_updates clk rnd state).
Proof.
  unfold no_lock_entry, pet_engine_updates.
  repeat match goal with
         | |- Forall _ (if ?b then _ else _) => destruct b
         | |- Forall _ (match ?x with Some _ => _ | None => _ end) =>
             destruct x
         | |- Forall _ (_ ++ _) => apply Forall_app; split
         | |- Forall _ (_ :: _) => constructor
         | |- Forall _ [] => constructor
         | |- True => exact I
         end.
Qed.

Lemma lock_keeps_pet_engine_iteration (fuel : nat) (clk : Clock) (rnd : Q)
    (b : bool) :
  keeps unlocked (pet_engine_iteration fuel clk rnd b) (fun _ => True).
Proof.
  unfold pet_engine_iteration. cbv zeta.
  eapply keeps_bind; [apply keeps_get_pet_state|].
  intros [state|] Hrow; [|now apply keeps_ret].
  pose proof (pet_engine_updates_no_lock clk rnd state) as Hu.
  assert (Hue : forall e, no_lock_entry
                  (pet_engine_updates clk rnd state ++ [F_current_emotion e])).
  { intros e. apply Forall_app. split; [exact Hu|]. repeat constructor. }
  unfold pet_engine_step.
  lock_keeps; apply no_lock_entry_compatible; auto.
Qed.

Lemma lock_keeps_handle (fuel : nat) (req : Request) :
  keeps unlocked (handle fuel req) (fun _ => True).
Proof.
  destruct req; unfold handle.
  - unfold init_database. lock_keeps.
  - unfold pet_feed. lock_keeps. apply clears_lock.
  - unfold upload_binary_image, feed_updates. lock_keeps; lock_side.
  - unfold pet_menu. lock_keeps; lock_side.
  - unfold switch_menu. lock_keeps; lock_side.
  - unfold set_oled_display. lock_keeps.
  - unfold reset_oled_display. lock_keeps.
  - unfold toggle_icon. lock_keeps.
  - unfold device_startup_complete. lock_keeps.
    intros r _. reflexivity.
  - unfold get_oled_display, menu_transition. lock_keeps; lock_side.
  - unfold mark_event_received. lock_keeps.
  - unfold count_request_steps. lock_keeps.
  - apply keeps_bind_true;
      [apply lock_keeps_pet_engine_iteration | intros; lock_keeps].
  - unfold pet_clean, locked_action. lock_keeps; lock_side.
  - unfold pet_inject, locked_action. lock_keeps; lock_side.
  - unfold pet_play_result, locked_action. lock_keeps.
    destruct (result_type =? "WIN")%string; reflexivity.
Qed.

Lemma lock_keeps_run (fuel : nat) (reqs : list Request) :
  keeps unlocked (run fuel reqs) (fun _ => True).
Proof.
  induction reqs as [|req reqs IH]; cbn [run].
  - now apply keeps_ret.
  - apply keeps_bind_true; [apply lock_keeps_handle | intros; exact IH].
Qed.

(** ** The age clock is never cleared *)

Lemma aged_store (new r : PetRow) : aged new -> aged (store_columns new r).
Proof. intros H. exact H. Qed.

Lemma aged_version (v : Z) (r : PetRow) : aged r -> aged (set_version v r).
Proof. intros H. exact H. Qed.

Lemma aged_default (id : Z) (d : string) (ts : timestamp) :
  aged (default_pet_row id d ts).
Proof. discriminate. Qed.

Lemma keeps_age_clock_compatible (u : list Field) :
  keeps_age_clock u -> compatible aged u.
Proof.
  intros Hu r. revert r. unfold merge.
  induction Hu as [|f u Hf _ IH]; intros r Hr; cbn [fold_left];
    [exact Hr|].
  apply IH. destruct f; try exact Hr.
  unfold aged. cbn. destruct v; [discriminate | now contradiction Hf].
Qed.

Ltac age_keeps := keeps_auto aged_store aged_version aged_default.

Ltac age_side :=
  apply keeps_age_clock_compatible; unfold keeps_age_clock;
  repeat match goal with
         | |- Forall _ (if ?b then _ else _) => destruct b
         | |- Forall _ (match ?x with Some _ => _ | None => _ end) =>
             destruct x
         | |- Forall _ (_ ++ _) => apply Forall_app; split
         | |- Forall _ (_ :: _) => constructor
         | |- Forall _ [] => constructor
         | |- _ <> _ => discriminate
         end.

Lemma age_keeps_handle (fuel : nat) (req : Request) :
  keeps aged (handle fuel req) (fun _ => True).
Proof.
  destruct req; unfold handle.
  - unfold init_database. age_keeps.
  - unfold pet_feed, feed_updates. age_keeps; age_side.
  - unfold upload_binary_image, feed_updates. age_keeps; age_side.
  - unfold pet_menu. age_keeps; age_side.
  - unfold switch_menu. age_keeps; age_side.
  - unfold set_oled_display. age_keeps.
  - unfold reset_oled_display. age_keeps.
  - unfold toggle_icon. age_keeps.
  - unfold device_startup_complete, startup_reset_fields.
    age_keeps; age_side.
  - unfold get_oled_display, menu_transition. age_keeps; age_side.
  - unfold mark_event_received. age_keeps.
  - unfold count_request_steps. age_keeps.
  - unfold pet_engine_iteration, pet_engine_step, pet_engine_updates.
    cbv zeta. age_keeps; age_side.
  - unfold pet_clean, locked_action. age_keeps; age_side.
  - unfold pet_inject, locked_action. age_keeps; age_side.
  - unfold pet_play_result, locked_action. age_keeps; age_side.
Qed.

Lemma age_keeps_run (fuel : nat) (reqs : list Request) :
  keeps aged (run fuel reqs) (fun _ => True).
Proof.
  induction reqs as [|req reqs IH]; cbn [run].
  - now apply keeps_ret.
  - apply keeps_bind_true; [apply age_keeps_handle | intros; exact IH].
Qed.

(** X18.  Between requests the pet engine is never locked out.  If in
    every pet row the action lock is clear and the age clock is set, the
    same holds after any sequence of the modelled requests that runs to
    its end: every action that sets the lock clears it again before it
    answers, and nothing clears the age clock.  A tick that runs then
    and returns either finds no pet row for ESP32_001 or commits: it is
    never skipped for the action lock, and never fails on the emotion
    expiry. *)
Theorem ticks_commit_between_requests :
  forall (fuel : nat) (reqs : list Request) (w w' : World),
    (forall r, In r (pet_state w) ->
               action_lock r = false /\ last_age_increment r <> None) ->
    run fuel reqs w = Returns tt w' ->
    (forall r, In r (pet_state w') ->
               action_lock r = false /\ last_age_increment r <> None)
    /\ (forall fuel' clk rnd datetime_bound res w'',
          pet_engine_iteration fuel' clk rnd datetime_bound w'
          = Returns res w'' ->
          (res = TickNoPet /\ pet_of "ESP32_001" w' = None)
          \/ exists result,
               res = TickCommitted result
               /\ pet_of "ESP32_001" w'' = Some result).
Proof.
  intros fuel reqs w w' Hw Hrun.
  assert (Hlock : all_rows unlocked w)
    by (apply Forall_forall; intros r Hr; now apply Hw).
  assert (Hage : all_rows aged w)
    by (apply Forall_forall; intros r Hr; now apply Hw).
  destruct (lock_keeps_run fuel reqs w tt w' Hlock Hrun) as [Hlock' _].
  destruct (age_keeps_run fuel reqs w tt w' Hage Hrun) as [Hage' _].
  unfold all_rows in Hlock', Hage'.
  rewrite Forall_forall in Hlock', Hage'.
  split; [intros r Hr; split; [now apply Hlock' | now apply Hage']|].
  intros fuel' clk rnd b res w'' E.
  destruct (db_lock w') eqn:Hfree.
  { unfold pet_engine_iteration, bind in E.
    rewrite get_pet_state_held in E by exact Hfree. discriminate. }
  destruct (pet_of "ESP32_001" w') as [state|] eqn:Hfind.
  - right. destruct (find_device_id _ _ _ Hfind) as [_ Hin].
    pose proof (Hlock' state Hin) as Hl. unfold unlocked in Hl.
    pose proof (Hage' state Hin) as Ha. unfold aged in Ha.
    assert (Hok : emotion_expire_at state = None
                  \/ b || imports_datetime state = true).
    { right. unfold imports_datetime.
      destruct (last_age_increment state); [|now contradiction Ha].
      cbn [orb]. apply orb_true_r. }
    rewrite (tick_commits fuel' clk rnd b w' state Hfree Hfind Hl Hok) in E.
    inversion E; subst. eexists. split; [reflexivity|].
    now apply pet_of_written.
  - left. unfold pet_engine_iteration, bind in E.
    rewrite get_pet_state_free in E by exact Hfree. rewrite Hfind in E.
    inversion E; subst. auto.
Qed.

(** ** The step counter *)

(** [detect_steps] either leaves the process as it is, or moves the
    last step to the reading's time and counts one more. *)
Lemma detect_steps_cases (r : Reading) (t : Q) (w : World) :
  detect_steps r t w = Returns 0 w
  \/ detect_steps r t w
     = Returns 1 (set_step_state t (step_count_global w + 1) w).
Proof. unfold detect_steps. destruct (_ && _); auto. Qed.




(** After an accepted step the next reading of a batch, 0.1 s later,
    is too close to count.  [b] tells whether the reading at index
    [idx] is still blocked by the last step. *)
Lemma detect_batch_rate (t0 : Q) (readings : list Reading) :
  forall (idx total : Z) (b : bool) (w : World),
    (b = true ->
     (t0 + inject_Z idx * sample_spacing - last_step_time w
      <= min_interval)%Q) ->
    exists n w',
      detect_batch t0 idx readings total w = Returns n w'
      /\ 2 * (n - total)
         <= Z.max 0 (Z.of_nat (length readings) - (if b then 1 else 0)) + 1.
Proof.
  induction readings as [|r rest IH]; intros idx total b w Hblock.
  - exists total, w. split; [reflexivity | destruct b; cbn [length]; lia].
  - cbn [detect_batch length]. unfold bind.
    destruct b.
    + rewrite detect_steps_reject by (right; now apply Hblock).
      destruct (IH (idx + 1) (total + 0) false w ltac:(discriminate))
        as (n & w' & Hrun & Hn).
      exists n, w'. split; [exact Hrun | lia].
    + destruct (detect_steps_cases r (t0 + inject_Z idx * sample_spacing)%Q w)
        as [E|E]; rewrite E.
      * destruct (IH (idx + 1) (total + 0) false w ltac:(discriminate))
          as (n & w' & Hrun & Hn).
        exists n, w'. split; [exact Hrun | lia].
      * destruct (IH (idx + 1) (total + 1) true
                    (set_step_state (t0 + inject_Z idx * sample_spacing)%Q
                       (step_count_global w + 1) w))
          as (n & w' & Hrun & Hn).
        { intros _. cbn [last_step_time set_step_state].
          unfold sample_spacing, min_interval. rewrite inject_Z_plus.
          change (inject_Z 1) with 1%Q. lra. }
        exists n, w'. split; [exact Hrun | lia].
Qed.

(** X20.  The rate limit of a batch.  A batch of N readings, spaced 0.1 s
    apart by the server, yields at most (N + 1) / 2 steps whatever the
    readings are: after a reading that counts, the next one is 0.1 s
    later and cannot count. *)
Theorem step_rate_limit :
  forall (single : Reading) (readings : list Reading) (t : Q) (w : World),
    readings <> [] ->
    exists n w',
      count_request_steps single readings t w = Returns n w'
      /\ 0 <= n
      /\ 2 * n <= Z.of_nat (length readings) + 1.
Proof.
  intros single readings t w Hne.
  rewrite count_request_steps_batch by exact Hne.
  destruct (detect_batch_rate t readings (Z.of_nat 0) 0 false w
              ltac:(discriminate)) as (n & w' & Hrun & Hn).
  destruct (detect_batch_range t readings (Z.of_nat 0) 0 w)
    as (n2 & w2 & Hrun2 & Hn2).
  rewrite Hrun in Hrun2. inversion Hrun2; subst n2 w2.
  exists n, w'. split; [exact Hrun|]. split; lia.
Qed.

Lemma set_step_state_twice (a c : Q) (b d : Z) (w : World) :
  set_step_state a b (set_step_state c d w) = set_step_state a b w.
Proof. reflexivity. Qed.

Lemma set_step_state_same (w : World) :
  set_step_state (last_step_time w) (step_count_global w) w = w.
Proof. now destruct w. Qed.

(** Detection depends on the process only through the time of the last
    step. *)
Lemma detect_steps_shift (r : Reading) (t : Q) (w : World) (c : Z) :
  exists n w',
    detect_steps r t w = Returns n w'
    /\ detect_steps r t (set_step_state (last_step_time w) c w)
       = Returns n (set_step_state (last_step_time w') (c + n) w').
Proof.
  unfold detect_steps. cbn [last_step_time set_step_state step_count_global].
  destruct (_ && _).
  - eexists _, _. split; reflexivity.
  - eexists _, _. split; [reflexivity|]. now rewrite Z.add_0_r.
Qed.

Lemma detect_batch_shift (t0 : Q) (readings : list Reading) :
  forall (idx total : Z) (w : World) (c : Z),
    exists n w',
      detect_batch t0 idx readings total w = Returns n w'
      /\ detect_batch t0 idx readings total
           (set_step_state (last_step_time w) c w)
         = Returns n (set_step_state (last_step_time w') (c + (n - total)) w').
Proof.
  induction readings as [|r rest IH]; intros idx total w c.
  - exists total, w. cbn [detect_batch]. unfold ret.
    split; [reflexivity|]. now rewrite Z.sub_diag, Z.add_0_r.
  - cbn [detect_batch]. unfold bind.
    destruct (detect_steps_shift r (t0 + inject_Z idx * sample_spacing)%Q w c)
      as (s & w1 & E1 & E2).
    rewrite E1, E2.
    destruct (IH (idx + 1) (total + s) w1 (c + s)) as (n & w' & Hrun & Hrun').
    exists n, w'. split; [exact Hrun|].
    assert (Hw1 : set_step_state (last_step_time w1) (c + s) w1
                  = set_step_state (last_step_time w1) (c + s)
                      (set_step_state (last_step_time w1) (c + s) w1))
      by reflexivity.
    rewrite Hrun'. f_equal. f_equal. lia.
Qed.

(** X21.  [POST /api/step-counter/reset] answers with the count so far
    and sets the counter to 0, but it does not reset the time of the
    last step: the next sensor request reports exactly the steps it
    would have reported without the reset, and the counter then holds
    that number. *)
Theorem reset_step_counter_effect :
  forall (single : Reading) (readings : list Reading) (t : Q) (w : World),
    exists w0 n w1 w2,
      reset_step_counter w = Returns (step_count_global w) w0
      /\ step_count_global w0 = 0
      /\ last_step_time w0 = last_step_time w
      /\ count_request_steps single readings t w = Returns n w2
      /\ count_request_steps single readings t w0 = Returns n w1
      /\ step_count_global w1 = n
      /\ last_step_time w1 = last_step_time w2.
Proof.
  intros single readings t w.
  exists (set_step_state (last_step_time w) 0 w).
  destruct readings as [|r rest]; cbn [count_request_steps].
  - destruct (detect_steps_shift single t w 0) as (n & w2 & E1 & E2).
    exists n, (set_step_state (last_step_time w2) (0 + n) w2), w2.
    repeat split; auto.
  - destruct (detect_batch_shift t (r :: rest) 0 0 w 0)
      as (n & w2 & E1 & E2).
    exists n, (set_step_state (last_step_time w2) (0 + (n - 0)) w2), w2.
    repeat split; auto. cbn [step_count_global set_step_state]. lia.
Qed.

(** ** Acknowledged events *)

Lemma unsent_after_mark (event_id : Z) (device d : string)
    (events : list EventRow) :
  filter (fun r => (e_device_id r =? d)%string && negb (is_sent r))
    (map (fun r =>
            if (e_id r =? event_id) && (e_device_id r =? device)%string then
              {| e_id := e_id r; e_device_id := e_device_id r;
                 event_type := event_type r; message := message r;
                 is_sent := true |}
            else r) events)
  = filter (fun r => negb ((e_id r =? event_id)
                           && (e_device_id r =? device)%string))
      (filter (fun r => (e_device_id r =? d)%string && negb (is_sent r))
              events).
Proof.
  induction events as [|r events IH]; cbn [map filter]; [reflexivity|].
  destruct ((e_id r =? event_id) && (e_device_id r =? device)%string)
    eqn:Hhit.
  - cbn [e_device_id is_sent negb]. rewrite andb_false_r.
    destruct ((e_device_id r =? d)%string && negb (is_sent r));
      cbn [filter]; rewrite ?Hhit; cbn [negb]; exact IH.
  - destruct ((e_device_id r =? d)%string && negb (is_sent r));
      cbn [filter]; rewrite ?Hhit; cbn [negb]; now rewrite IH.
Qed.

Lemma filter_filter_same {A} (f g : A -> bool) (l : list A) :
  (forall a, f a = true -> g a = true) ->
  filter g (filter f l) = filter f l.
Proof.
  intros H. induction l as [|a l IH]; cbn [filter]; [reflexivity|].
  destruct (f a) eqn:E; [|exact IH].
  cbn [filter]. rewrite (H a E). now rewrite IH.
Qed.

Lemma filter_own_device (event_id : Z) (device : string)
    (events : list EventRow) :
  filter (fun r => negb ((e_id r =? event_id)
                         && (e_device_id r =? device)%string))
    (filter (fun r => (e_device_id r =? device)%string && negb (is_sent r))
            events)
  = filter (fun e => negb (e_id e =? event_id))
      (filter (fun r => (e_device_id r =? device)%string && negb (is_sent r))
              events).
Proof.
  induction events as [|r l IH]; cbn [filter]; [reflexivity|].
  destruct ((e_device_id r =? device)%string && negb (is_sent r)) eqn:Hp;
    [|exact IH].
  cbn [filter]. apply andb_true_iff in Hp.
  destruct Hp as [Hd _]. rewrite Hd, andb_true_r.
  destruct (e_id r =? event_id); cbn [negb]; now rewrite IH.
Qed.

(** X22.  [POST /api/device/event/received] with an event id.  Whenever
    the call returns, the unsent events of the device are those it had
    before without the acknowledged id, and the unsent events of every
    other device are as before: a device cannot acknowledge another
    device's event.  A not-found answer means that nothing was written.
    No event row is added or deleted, the other tables are untouched and
    the lock is free again. *)
Theorem acknowledgement_clears_pending :
  forall (event_id : Z) (device : string) (w w' : World)
         (resp : AckResponse),
    mark_event_received (Some event_id) device w = Returns resp w' ->
    unsent_events device w'
    = filter (fun e => negb (e_id e =? event_id)) (unsent_events device w)
    /\ (forall d, d <> device -> unsent_events d w' = unsent_events d w)
    /\ (resp = AckNotFound event_id -> w' = w)
    /\ length (important_events w') = length (important_events w)
    /\ pet_state w' = pet_state w
    /\ oled_display_state w' = oled_display_state w
    /\ db_lock w' = false.
Proof.
  intros event_id device w w' resp Hrun.
  destruct (db_lock w) eqn:Hfree.
  { unfold mark_event_received in Hrun.
    rewrite with_db_lock_held in Hrun by exact Hfree. discriminate. }
  assert (Hnot : resp = AckNotFound event_id -> w' = w).
  { intros ->.
    destruct (mark_event_received_cases device w Hfree) as (_ & Hnone & Hok).
    assert (Hall : forall e, In e (important_events w) ->
                     e_id e = event_id -> e_device_id e <> device).
    { intros e Hin Hid Hdev.
      destruct (Hok event_id e Hin Hid Hdev) as (w1 & E & _).
      rewrite E in Hrun. discriminate. }
    rewrite (Hnone event_id Hall) in Hrun. now inversion Hrun. }
  unfold mark_event_received in Hrun.
  rewrite with_db_lock_free in Hrun by exact Hfree.
  unfold bind, sql_mark_event_sent, ret in Hrun.
  cbn [important_events set_db_lock] in Hrun.
  assert (Hw' : w' = set_important_events
                  (map (fun r =>
                          if (e_id r =? event_id)
                             && (e_device_id r =? device)%string then
                            {| e_id := e_id r; e_device_id := e_device_id r;
                               event_type := event_type r;
                               message := message r; is_sent := true |}
                          else r) (important_events w)) w).
  { destruct (0 <? _) in Hrun; inversion Hrun;
      now rewrite set_important_events_unlock. }
  split; [|split; [|split; [exact Hnot|]]].
  - rewrite Hw'. unfold unsent_events.
    cbn [important_events set_important_events].
    rewrite unsent_after_mark.
    apply filter_own_device.
  - intros d Hd. rewrite Hw'. unfold unsent_events.
    cbn [important_events set_important_events].
    rewrite unsent_after_mark. apply filter_filter_same.
    intros e He. apply andb_true_iff in He. destruct He as [He _].
    apply String.eqb_eq in He.
    destruct (String.eqb_spec (e_device_id e) device) as [E|E];
      [congruence|]. now rewrite andb_false_r.
  - rewrite Hw'. cbn [important_events set_important_events pet_state
                      oled_display_state db_lock].
    rewrite length_map. repeat split. exact Hfree.
Qed.

(** ** The orientation of the device *)

Lemma py_absQ_nonneg (x : Q) : (0 <= py_absQ x)%Q.
Proof.
  unfold py_absQ. destruct (Qlt_bool x 0) eqn:E.
  - apply Qlt_bool_iff in E. lra.
  - apply Qlt_bool_false_iff in E. exact E.
Qed.

(** X23.  The confidence of [detect_device_orientation], for numeric
    input and whatever the square root returns: it always lies in
    0..100; it is 100 minus ten times the distance of the magnitude
    from 9.81 while that distance is at most 10, and 0 beyond. *)
Theorem orientation_confidence_range :
  forall (sqrt : Q -> Q) (ax ay az : Q),
    let magnitude := sqrt (ax * ax + ay * ay + az * az)%Q in
    let off := py_absQ (magnitude - (981 # 100)) in
    let confidence := snd (detect_device_orientation sqrt ax ay az) in
    (0 <= confidence <= 100)%Q
    /\ ((off <= 10)%Q -> (confidence == 100 - off * 10)%Q)
    /\ ((10 <= off)%Q -> (confidence == 0)%Q).
Proof.
  intros sqrt ax ay az magnitude off confidence.
  pose proof (py_absQ_nonneg (magnitude - (981 # 100))) as Hoff.
  fold off in Hoff.
  assert (Hc : confidence
               = (let c := (100 - off * 10)%Q in
                  let c := if Qlt_bool 100 c then 100%Q else c in
                  if Qlt_bool c 0 then 0%Q else c)).
  { unfold confidence, detect_device_orientation.
    fold magnitude. fold off.
    repeat match goal with
           | |- context [if ?b then (_, _) else _] => destruct b
           end; reflexivity. }
  rewrite Hc. cbv zeta. clear Hc confidence.
  destruct (Qlt_bool 100 (100 - off * 10)) eqn:E1.
  - apply Qlt_bool_iff in E1. lra.
  - apply Qlt_bool_false_iff in E1.
    destruct (Qlt_bool (100 - off * 10) 0) eqn:E2.
    + apply Qlt_bool_iff in E2. repeat split; intros; lra.
    + apply Qlt_bool_false_iff in E2. repeat split; intros; lra.
Qed.

Ltac qbool_to_prop :=
  repeat match goal with
         | H : Qlt_bool _ _ = true |- _ => apply Qlt_bool_iff in H
         | H : Qlt_bool _ _ = false |- _ => apply Qlt_bool_false_iff in H
         end.

(** X24.  The direction of [detect_device_orientation], for numeric
    input.  INVERTED is returned exactly when the z axis strictly
    dominates and az < -7; RIGHT and LEFT exactly when the x axis
    strictly dominates and ax > 5, resp. ax < -5; BACK and FORWARD
    exactly when the y axis strictly dominates and ay > 5, resp.
    ay < -5.  Everything else is NEUTRAL: the flat device (z dominant,
    az > 7), every tie between the two largest axes, and every dominant
    axis below its threshold. *)
Theorem orientation_direction_table :
  forall (sqrt : Q -> Q) (ax ay az : Q),
    let direction := fst (detect_device_orientation sqrt ax ay az) in
    let x_dominant := (py_absQ ay < py_absQ ax /\ py_absQ az < py_absQ ax)%Q in
    let y_dominant := (py_absQ ax < py_absQ ay /\ py_absQ az < py_absQ ay)%Q in
    let z_dominant := (py_absQ ax < py_absQ az /\ py_absQ ay < py_absQ az)%Q in
    (direction = "INVERTED" <-> z_dominant /\ (az < -7)%Q)
    /\ (direction = "RIGHT" <-> x_dominant /\ (5 < ax)%Q)
    /\ (direction = "LEFT" <-> x_dominant /\ (ax < -5)%Q)
    /\ (direction = "BACK" <-> y_dominant /\ (5 < ay)%Q)
    /\ (direction = "FORWARD" <-> y_dominant /\ (ay < -5)%Q)
    /\ (direction = "NEUTRAL" \/ direction = "INVERTED"
        \/ direction = "RIGHT" \/ direction = "LEFT"
        \/ direction = "BACK" \/ direction = "FORWARD").
Proof.
  intros sqrt ax ay az direction x_dominant y_dominant z_dominant.
  unfold direction, x_dominant, y_dominant, z_dominant,
    detect_device_orientation.
  generalize (py_absQ ax) (py_absQ ay) (py_absQ az). intros a b c.
  cbv zeta.
  assert (Hz : Qlt_bool a c && Qlt_bool b c = true <-> (a < c /\ b < c)%Q)
    by (rewrite andb_true_iff, !Qlt_bool_iff; tauto).
  assert (Hx : Qlt_bool b a && Qlt_bool c a = true <-> (b < a /\ c < a)%Q)
    by (rewrite andb_true_iff, !Qlt_bool_iff; tauto).
  assert (Hy : Qlt_bool a b && Qlt_bool c b = true <-> (a < b /\ c < b)%Q)
    by (rewrite andb_true_iff, !Qlt_bool_iff; tauto).
  destruct (Qlt_bool a c && Qlt_bool b c);
    [assert (Hz1 : (a < c /\ b < c)%Q) by (now apply Hz)
    |assert (Hz0 : ~ (a < c /\ b < c)%Q)
       by (intros K; apply Hz in K; discriminate)];
    clear Hz;
    (destruct (Qlt_bool b a && Qlt_bool c a);
     [assert (Hx1 : (b < a /\ c < a)%Q) by (now apply Hx)
     |assert (Hx0 : ~ (b < a /\ c < a)%Q)
        by (intros K; apply Hx in K; discriminate)];
     clear Hx);
    (destruct (Qlt_bool a b && Qlt_bool c b);
     [assert (Hy1 : (a < b /\ c < b)%Q) by (now apply Hy)
     |assert (Hy0 : ~ (a < b /\ c < b)%Q)
        by (intros K; apply Hy in K; discriminate)];
     clear Hy);
    try (exfalso; lra);
    repeat match goal with
           | |- context [if Qlt_bool ?x ?y then _ else _] =>
               let E := fresh "E" in destruct (Qlt_bool x y) eqn:E
           end;
    cbn [fst]; qbool_to_prop;
    repeat match goal with
           | |- _ /\ _ => split
           | |- _ <-> _ => split
           | |- _ = _ -> _ => let E := fresh "E" in
                              intros E; try discriminate E
           | |- _ /\ _ -> _ => intros [[? ?] ?]
           end;
    try reflexivity; try assumption; try lra;
    try (exfalso; first [lra | tauto]);
    auto 10.
Qed.

(** ** The daily step statistics *)

Lemma ret_locked {A} (a : A) (w : World) :
  db_lock w = false -> with_db_lock (ret a) w = Returns a w.
Proof.
  intros Hfree. rewrite with_db_lock_free by exact Hfree.
  unfold ret. now rewrite unlock_lock.
Qed.

Lemma find_stat_map (device : string) (day : Z)
    (g : StepStatRow -> StepStatRow) (rows : list StepStatRow) :
  (forall r, st_device_id (g r) = st_device_id r
             /\ date_recorded (g r) = date_recorded r) ->
  forall device' day',
    find (stat_key device' day')
      (map (fun r => if stat_key device day r then g r else r) rows)
    = option_map (fun r => if stat_key device day r then g r else r)
        (find (stat_key device' day') rows).
Proof.
  intros Hg device' day'.
  induction rows as [|r rows IH]; cbn [map find option_map]; [reflexivity|].
  assert (E : stat_key device' day'
                (if stat_key device day r then g r else r)
              = stat_key device' day' r).
  { destruct (stat_key device day r); [|reflexivity].
    unfold stat_key. destruct (Hg r) as [-> ->]. reflexivity. }
  rewrite E. destruct (stat_key device' day' r); [reflexivity | exact IH].
Qed.

Lemma find_stat_app (device : string) (day : Z) (rows : list StepStatRow)
    (r : StepStatRow) :
  find (stat_key device day) (rows ++ [r])
  = match find (stat_key device day) rows with
    | Some r0 => Some r0
    | None => if stat_key device day r then Some r else None
    end.
Proof.
  induction rows as [|r0 rows IH]; cbn [app find]; [reflexivity|].
  destruct (stat_key device day r0); [reflexivity | exact IH].
Qed.

Lemma stat_key_other (device : string) (day : Z) (device' : string)
    (day' : Z) (r : StepStatRow) :
  device' <> device \/ day' <> day ->
  stat_key device day r = true -> stat_key device' day' r = false.
Proof.
  intros Hother H. unfold stat_key in *.
  apply andb_true_iff in H. destruct H as [H1 H2].
  apply String.eqb_eq in H1. apply Z.eqb_eq in H2.
  destruct Hother as [Hd|Hd].
  - destruct (String.eqb_spec (st_device_id r) device'); [congruence|].
    reflexivity.
  - destruct (Z.eqb_spec (date_recorded r) day'); [congruence|].
    apply andb_false_r.
Qed.

(** One report: the day's row of the device afterwards, and the rows
    of the other days and devices. *)
Lemma update_step_stats_immediate_row (clk : Clock) (device : string)
    (steps : Z) (table : list StepStatRow) (w : World) :
  db_lock w = false ->
  exists table' r',
    update_step_stats_immediate clk device steps table w = Returns table' w
    /\ find (stat_key device (today clk)) table' = Some r'
    /\ match find (stat_key device (today clk)) table with
       | Some r =>
           total_steps r' = Some (or_zero (total_steps r) + steps)
           /\ peak_steps r' = Some (py_max (or_zero (peak_steps r)) steps)
           /\ activity_level r' = activity_level r
       | None =>
           total_steps r' = Some steps /\ peak_steps r' = Some steps
           /\ activity_level r' = "LOW"
       end
    /\ (forall device' day',
          device' <> device \/ day' <> today clk ->
          find (stat_key device' day') table'
          = find (stat_key device' day') table).
Proof.
  intros Hfree. unfold update_step_stats_immediate. cbv zeta.
  destruct (find (stat_key device (today clk)) table) as [r|] eqn:Hfind.
  - rewrite ret_locked by exact Hfree.
    eexists _, _. split; [reflexivity|].
    assert (Hkey : stat_key device (today clk) r = true)
      by (apply find_some in Hfind; apply Hfind).
    split.
    { rewrite find_stat_map by (intros; split; reflexivity).
      rewrite Hfind. cbn [option_map]. rewrite Hkey. reflexivity. }
    split; [repeat split|].
    intros device' day' Hother.
    rewrite find_stat_map by (intros; split; reflexivity).
    destruct (find (stat_key device' day') table) as [r0|] eqn:E;
      [|reflexivity].
    cbn [option_map].
    destruct (stat_key device (today clk) r0) eqn:K; [|reflexivity].
    apply find_some in E. destruct E as [_ E].
    rewrite (stat_key_other device (today clk) device' day' r0 Hother K) in E.
    discriminate.
  - rewrite ret_locked by exact Hfree.
    eexists _, _. split; [reflexivity|].
    split.
    { rewrite find_stat_app, Hfind. unfold stat_key.
      cbn [st_device_id date_recorded].
      now rewrite String.eqb_refl, Z.eqb_refl. }
    split; [repeat split|].
    intros device' day' Hother. rewrite find_stat_app.
    destruct (find (stat_key device' day') table); [reflexivity|].
    match goal with
    | |- (if stat_key _ _ ?r then _ else _) = _ =>
        assert (K : stat_key device (today clk) r = true)
    end.
    { unfold stat_key. cbn [st_device_id date_recorded].
      now rewrite String.eqb_refl, Z.eqb_refl. }
    now rewrite (stat_key_other device (today clk) device' day' _ Hother K).
Qed.

Lemma report_steps_existing (device : string) (day : Z)
    (calls : list (Clock * Z)) (w : World) :
  db_lock w = false ->
  (forall c, In c calls -> today (fst c) = day) ->
  forall (table : list StepStatRow) (r : StepStatRow) (t p : Z),
    find (stat_key device day) table = Some r ->
    total_steps r = Some t ->
    peak_steps r = Some p ->
    exists table' r',
      report_steps device calls table w = Returns table' w
      /\ find (stat_key device day) table' = Some r'
      /\ total_steps r' = Some (t + sum_Z (map snd calls))
      /\ peak_steps r' = Some (fold_left py_max (map snd calls) p)
      /\ activity_level r' = activity_level r
      /\ (forall device' day',
            device' <> device \/ day' <> day ->
            find (stat_key device' day') table'
            = find (stat_key device' day') table).
Proof.
  intros Hfree. induction calls as [|[clk steps] rest IH];
    intros Hday table r t p Hfind Ht Hp.
  - exists table, r. cbn. unfold ret. rewrite Z.add_0_r. repeat split; auto.
  - assert (Hclk : today clk = day) by (apply (Hday (clk, steps)); now left).
    destruct (update_step_stats_immediate_row clk device steps table w Hfree)
      as (table1 & r1 & Hrun1 & Hfind1 & Hrow1 & Hframe1).
    rewrite Hclk in Hfind1, Hrow1, Hframe1. rewrite Hfind in Hrow1.
    destruct Hrow1 as (Ht1 & Hp1 & Ha1). rewrite Ht in Ht1. rewrite Hp in Hp1.
    cbn [or_zero] in Ht1, Hp1.
    destruct (IH (fun c Hc => Hday c (or_intror Hc)) table1 r1 _ _
                Hfind1 Ht1 Hp1)
      as (table' & r' & Hrun & Hfind' & Ht' & Hp' & Ha' & Hframe').
    exists table', r'. cbn [report_steps]. unfold bind. rewrite Hrun1.
    split; [exact Hrun|]. split; [exact Hfind'|].
    cbn [map snd sum_Z fold_right fold_left]. fold (sum_Z (map snd rest)).
    split; [rewrite Ht'; f_equal; lia|]. split; [exact Hp'|].
    split; [congruence|].
    intros device' day' Hother. rewrite Hframe' by exact Hother.
    now apply Hframe1.
Qed.

(** X25.  The step statistics of a day.  After a sequence of step
    reports of one device that all fall on the same day (lock free),
    the table has a row for that device and day whose total is the
    total before (0 if there was no row, or a NULL) plus the sum of the
    steps reported, and whose peak is the largest single report or the
    peak before; a new row has activity level LOW, an existing one
    keeps its level.  The rows of other devices and other days are as
    before, and the world is not changed. *)
Theorem step_stats_accumulate :
  forall (device : string) (day : Z) (clk : Clock) (steps : Z)
         (calls : list (Clock * Z)) (table : list StepStatRow) (w : World),
    db_lock w = false ->
    (forall c, In c ((clk, steps) :: calls) -> today (fst c) = day) ->
    exists table' r',
      report_steps device ((clk, steps) :: calls) table w = Returns table' w
      /\ find (stat_key device day) table' = Some r'
      /\ match find (stat_key device day) table with
         | Some r =>
             total_steps r'
             = Some (or_zero (total_steps r) + steps
                     + sum_Z (map snd calls))
             /\ peak_steps r'
                = Some (fold_left py_max (steps :: map snd calls)
                          (or_zero (peak_steps r)))
             /\ activity_level r' = activity_level r
         | None =>
             total_steps r' = Some (steps + sum_Z (map snd calls))
             /\ peak_steps r' = Some (fold_left py_max (map snd calls) steps)
             /\ activity_level r' = "LOW"
         end
      /\ (forall device' day',
            device' <> device \/ day' <> day ->
            find (stat_key device' day') table'
            = find (stat_key device' day') table).
Proof.
  intros device day clk steps calls table w Hfree Hday.
  assert (Hclk : today clk = day) by (apply (Hday (clk, steps)); now left).
  destruct (update_step_stats_immediate_row clk device steps table w Hfree)
    as (table1 & r1 & Hrun1 & Hfind1 & Hrow1 & Hframe1).
  rewrite Hclk in Hfind1, Hrow1, Hframe1.
  assert (Hnorm : exists t p, total_steps r1 = Some t /\ peak_steps r1 = Some p).
  { destruct (find (stat_key device day) table);
      destruct Hrow1 as (Ht & Hp & _); eauto. }
  destruct Hnorm as (t & p & Ht & Hp).
  destruct (report_steps_existing device day calls w Hfree
              (fun c Hc => Hday c (or_intror Hc)) table1 r1 t p
              Hfind1 Ht Hp)
    as (table' & r' & Hrun & Hfind' & Ht' & Hp' & Ha' & Hframe').
  exists table', r'. cbn [report_steps]. unfold bind. rewrite Hrun1.
  split; [exact Hrun|]. split; [exact Hfind'|].
  split.
  - destruct (find (stat_key device day) table) as [r|];
      destruct Hrow1 as (Ht1 & Hp1 & Ha1);
      rewrite Ht in Ht1; rewrite Hp in Hp1;
      inversion Ht1; inversion Hp1; subst t p;
      (split; [exact Ht'|]); (split; [exact Hp'|]); congruence.
  - intros device' day' Hother. rewrite Hframe' by exact Hother.
    now apply Hframe1.
Qed.

(** ** The central update function and the poll *)

Lemma written_other_ids (u : list Field) (cur : PetRow)
    (rows : list PetRow) :
  NoDup (map row_id rows) ->
  In cur rows ->
  map (fun r => if (row_id r =? row_id cur) && (version r =? version cur)
                then store_columns (merged u cur) r else r) rows
  = map (fun r => if row_id r =? row_id cur
                  then store_columns (merged u cur) cur else r) rows.
Proof.
  intros Hnd Hin. apply map_ext_in. intros r Hr.
  destruct (Z.eqb_spec (row_id r) (row_id cur)) as [E|E]; [|reflexivity].
  assert (r = cur).
  { clear - Hnd Hin Hr E. induction rows as [|a rows IH]; [contradiction|].
    cbn [map] in Hnd. inversion Hnd as [|x l Hnotin Hnd']; subst.
    destruct Hin as [<-|Hin]; destruct Hr as [<-|Hr]; auto.
    - exfalso. apply Hnotin. rewrite <- E. now apply in_map.
    - exfalso. apply Hnotin. rewrite E. now apply in_map. }
  subst r. now rewrite Z.eqb_refl.
Qed.

Lemma find_other_device (device d : string) (cur new : PetRow)
    (rows : list PetRow) :
  d <> device ->
  device_id cur = device ->
  device_id new = device ->
  NoDup (map row_id rows) ->
  In cur rows ->
  find (fun r => (device_id r =? d)%string)
       (map (fun r => if row_id r =? row_id cur then new else r) rows)
  = find (fun r => (device_id r =? d)%string) rows.
Proof.
  intros Hd Hcur Hnew Hnd Hin.
  induction rows as [|a rows IH]; [reflexivity|].
  cbn [map find]. cbn [map] in Hnd.
  inversion Hnd as [|x l Hnotin Hnd']; subst x l.
  destruct (Z.eqb_spec (row_id a) (row_id cur)) as [E|E].
  - assert (a = cur).
    { destruct Hin as [Ha|Hin]; [exact Ha|].
      exfalso. apply Hnotin. rewrite E. now apply in_map. }
    subst a. rewrite Hnew, Hcur.
    destruct (String.eqb_spec device d) as [K|_]; [congruence|].
    assert (Hrest : map (fun r => if row_id r =? row_id cur then new else r)
                        rows = rows).
    { rewrite <- (map_id rows) at 2. apply map_ext_in. intros r Hr.
      destruct (Z.eqb_spec (row_id r) (row_id cur)) as [K|_]; [|reflexivity].
      exfalso. apply Hnotin. rewrite <- K. now apply in_map. }
    now rewrite Hrest.
  - destruct (device_id a =? d)%string; [reflexivity|].
    apply IH; [exact Hnd'|].
    destruct Hin as [Ha|Hin]; [congruence | exact Hin].
Qed.

(** X26.  What the central update function leaves alone.  With the lock
    free and row ids distinct (they are a primary key), a call of
    [update_pet_state_atomic] always returns.  For a device without a
    row it returns None and changes nothing; otherwise it returns the
    merged row, which is then the stored row of the device and has the
    id of the old one.  The rows of all other devices, the ids and the
    device ids of the table, the display rows and the events are as
    before, and the lock is free again. *)
Theorem atomic_update_frame :
  forall (fuel : nat) (device : string) (update_fields : list Field)
         (w : World),
    db_lock w = false ->
    NoDup (map row_id (pet_state w)) ->
    exists result w',
      update_pet_state_atomic fuel device update_fields w = Returns result w'
      /\ (pet_of device w = None -> result = None /\ w' = w)
      /\ (forall current_state,
            pet_of device w = Some current_state ->
            result = Some (merged update_fields current_state)
            /\ pet_of device w'
               = Some (merged update_fields current_state)
            /\ row_id (merged update_fields current_state)
               = row_id current_state)
      /\ (forall d, d <> device -> pet_of d w' = pet_of d w)
      /\ map row_id (pet_state w') = map row_id (pet_state w)
      /\ map device_id (pet_state w') = map device_id (pet_state w)
      /\ oled_display_state w' = oled_display_state w
      /\ important_events w' = important_events w
      /\ db_lock w' = false.
Proof.
  intros fuel device u w Hfree Hnd.
  destruct (pet_of device w) as [cur|] eqn:Hfind.
  - rewrite (update_pet_state_atomic_free fuel device u w cur Hfree Hfind).
    eexists _, _. split; [reflexivity|].
    destruct (find_device_id _ _ _ Hfind) as [Hdev Hin].
    destruct (merged_keeps u cur) as (K1 & K2 & _).
    split; [discriminate|].
    split.
    { intros c E. inversion E; subst c.
      split; [reflexivity|]. split; [now apply pet_of_written | exact K1]. }
    split.
    { intros d Hd. unfold pet_of. cbn [pet_state set_pet_state].
      unfold written. rewrite written_other_ids by assumption.
      apply find_other_device with (device := device); auto. }
    cbn [pet_state set_pet_state oled_display_state important_events
         db_lock].
    unfold written. rewrite !map_map.
    split; [apply map_ext; intros r; now destruct (_ && _)|].
    split; [apply map_ext; intros r; now destruct (_ && _)|].
    repeat split. exact Hfree.
  - rewrite (update_pet_state_atomic_missing fuel device u w Hfree Hfind).
    eexists _, _. split; [reflexivity|].
    split; [auto|]. split; [discriminate|].
    repeat split; auto.
Qed.

(** X27.  A display poll that answers has written nothing.  Whenever
    [GET /api/oled-display/get] returns, the world is exactly as before
    the call, the answer is a success with status 200, and its mode is
    one of STARTUP_RESET, MANUAL, AUTOMATIC and DEFAULT.  An AUTOMATIC
    answer comes from a pet row for which no menu transition is due, has
    that row's menu as screen type, and both animation flags off: the
    eating and cleaning animations are never announced by a poll that
    returns. *)
Theorem poll_answers_without_writing :
  forall (clk : Clock) (device : string) (w w' : World) (disp : Display),
    get_oled_display clk device w = Returns disp w' ->
    w' = w
    /\ d_http disp = 200
    /\ d_status disp = "success"
    /\ (d_mode disp = "STARTUP_RESET" \/ d_mode disp = "MANUAL"
        \/ d_mode disp = "AUTOMATIC" \/ d_mode disp = "DEFAULT")
    /\ (d_mode disp = "AUTOMATIC" ->
        exists pet,
          pet_of device w = Some pet
          /\ menu_transition_due pet = false
          /\ d_screen_type disp = current_menu pet
          /\ exists v, d_pet disp = Some v
                       /\ v_play_eating_animation v = Some false
                       /\ v_play_cleaning_animation v = Some false).
Proof.
  intros clk device w w' disp Hrun.
  destruct (db_lock w) eqn:Hfree.
  { unfold get_oled_display in Hrun. unfold bind at 1 in Hrun.
    rewrite with_db_lock_held in Hrun by exact Hfree. discriminate. }
  destruct (oled_of device w) as [r|] eqn:Hrow.
  - destruct (startup_recent clk r) eqn:Hrecent.
    + rewrite (poll_startup clk device w r Hfree Hrow Hrecent) in Hrun.
      inversion Hrun; subst. repeat split; auto. discriminate.
    + rewrite (poll_manual clk device w r Hfree Hrow Hrecent) in Hrun.
      inversion Hrun; subst. repeat split; auto. discriminate.
  - destruct (pet_of device w) as [pet|] eqn:Hpet.
    + destruct (menu_transition_due pet) eqn:Hdue.
      * destruct (poll_transition clk device w pet Hfree Hrow Hpet Hdue)
          as (wd & Hd & _). rewrite Hd in Hrun. discriminate.
      * rewrite (poll_no_transition clk device w pet Hfree Hrow Hpet Hdue)
          in Hrun.
        inversion Hrun; subst. repeat split; auto 6.
        intros _. exists pet. repeat split; auto.
        eexists. repeat split.
    + rewrite poll_no_row in Hrun by assumption. rewrite Hpet in Hrun.
      inversion Hrun; subst. repeat split; auto 6. discriminate.
Qed.

(** ** The properties at concrete states *)

Lemma sample_world_run :
  run 0 care_requests fresh_world = Returns tt sample_world.
Proof. vm_compute. reflexivity. Qed.

Lemma fresh_world_rows (P : PetRow -> Prop) :
  P fresh_row -> forall r, In r (pet_state fresh_world) -> P r.
Proof. intros H r [<- | []]. exact H. Qed.

Lemma stats_stay_in_range_witness :
  (forall r, In r (pet_state fresh_world) -> stats_in_range r)
  /\ run 0 care_requests fresh_world = Returns tt sample_world
  /\ exists r,
       pet_of "ESP32_001" sample_world = Some r
       /\ health r = 95 /\ happiness r = 90
       /\ forall r', In r' (pet_state sample_world) ->
            0 <= health r' <= 100 /\ (0 <= hunger r' <= 100)%Q
            /\ cleanliness r' = 100 /\ 0 <= happiness r' <= 100
            /\ 0 <= energy r' <= 100.
Proof.
  assert (Hrows : forall r, In r (pet_state fresh_world) -> stats_in_range r).
  { apply fresh_world_rows. apply stats_default. }
  split; [exact Hrows|]. split; [exact sample_world_run|].
  eexists. split; [reflexivity|]. split; [reflexivity|].
  split; [reflexivity|].
  exact (stats_stay_in_range 0 care_requests fresh_world sample_world
           Hrows sample_world_run).
Defined.

Lemma ticks_commit_between_requests_witness :
  (forall r, In r (pet_state fresh_world) ->
     action_lock r = false /\ last_age_increment r <> None)
  /\ run 0 care_requests fresh_world = Returns tt sample_world
  /\ (forall r, In r (pet_state sample_world) ->
        action_lock r = false /\ last_age_increment r <> None)
  /\ exists result w'',
       pet_engine_iteration 0 (clock_at 5060) (1 # 2) false sample_world
       = Returns (TickCommitted result) w''.
Proof.
  assert (Hrows : forall r, In r (pet_state fresh_world) ->
                    action_lock r = false /\ last_age_increment r <> None).
  { apply fresh_world_rows. split; [reflexivity | discriminate]. }
  split; [exact Hrows|]. split; [exact sample_world_run|].
  destruct (ticks_commit_between_requests 0 care_requests fresh_world
              sample_world Hrows sample_world_run) as [Hrows' Hticks].
  split; [exact Hrows'|].
  assert (Htick : exists res w'',
            pet_engine_iteration 0 (clock_at 5060) (1 # 2) false sample_world
            = Returns res w'').
  { vm_compute. eexists _, _. reflexivity. }
  destruct Htick as (res & w'' & Htick).
  destruct (Hticks 0%nat (clock_at 5060) (1 # 2)%Q false res w'' Htick)
    as [[_ Hnone] | (result & -> & _)]; [discriminate Hnone|].
  exists result, w''. exact Htick.
Defined.

Lemma tick_health_rule_witness :
  db_lock (world_of pooped_row) = false
  /\ pet_of "ESP32_001" (world_of pooped_row) = Some pooped_row
  /\ poop_overdue (clock_at 2000) pooped_row = true
  /\ exists result w',
       pet_engine_iteration 0 (clock_at 2000) (1 # 2) false
         (world_of pooped_row) = Returns (TickCommitted result) w'
       /\ health result = py_max 0 (health pooped_row - 10)
       /\ health result = 90.
Proof.
  split; [reflexivity|]. split; [reflexivity|]. split; [reflexivity|].
  assert (Htick : exists result w',
            pet_engine_iteration 0 (clock_at 2000) (1 # 2) false
              (world_of pooped_row) = Returns (TickCommitted result) w'
            /\ health result = 90).
  { vm_compute. eexists _, _. split; reflexivity. }
  destruct Htick as (result & w' & Htick & H90).
  exists result, w'. split; [exact Htick|]. split; [|exact H90].
  destruct (tick_health_rule 0 (clock_at 2000) (1 # 2) false
              (world_of pooped_row) w' pooped_row result
              eq_refl eq_refl Htick) as (_ & Hpoop & _).
  apply Hpoop; [|reflexivity].
  rewrite Bool.andb_false_r. reflexivity.
Defined.

Lemma tick_age_progression_witness :
  db_lock fresh_world = false
  /\ pet_of "ESP32_001" fresh_world = Some fresh_row
  /\ (exists last_age_time,
        last_age_increment fresh_row = Some last_age_time
        /\ hours 24 < now (clock_at 91000) - last_age_time)
  /\ exists result w',
       pet_engine_iteration 0 (clock_at 91000) (1 # 2) false fresh_world
       = Returns (TickCommitted result) w'
       /\ age result = 1
       /\ last_age_increment result = Some (seconds 91000)
       /\ stage result = "INFANT".
Proof.
  split; [reflexivity|]. split; [reflexivity|].
  assert (Hdue : exists last_age_time,
            last_age_increment fresh_row = Some last_age_time
            /\ hours 24 < now (clock_at 91000) - last_age_time).
  { exists (seconds 1000). split; reflexivity. }
  split; [exact Hdue|].
  assert (Htick : exists result w',
            pet_engine_iteration 0 (clock_at 91000) (1 # 2) false fresh_world
            = Returns (TickCommitted result) w').
  { vm_compute. eexists _, _. reflexivity. }
  destruct Htick as (result & w' & Htick).
  exists result, w'. split; [exact Htick|].
  destruct (tick_age_progression 0 (clock_at 91000) (1 # 2) false
              fresh_world w' fresh_row result eq_refl eq_refl Htick)
    as (Hold & _).
  exact (Hold Hdue).
Defined.

Lemma tick_digestion_witness :
  db_lock (world_of fed_row) = false
  /\ pet_of "ESP32_001" (world_of fed_row) = Some fed_row
  /\ (exists due_time,
        digestion_due_time fed_row = Some due_time
        /\ due_time < now (clock_at 3801))
  /\ poop_present fed_row = false
  /\ exists result w',
       pet_engine_iteration 0 (clock_at 3801) (1 # 2) false (world_of fed_row)
       = Returns (TickCommitted result) w'
       /\ poop_present result = true
       /\ poop_timestamp result = Some (seconds 3801)
       /\ digestion_due_time result = None.
Proof.
  split; [reflexivity|]. split; [reflexivity|].
  assert (Hdue : exists due_time,
            digestion_due_time fed_row = Some due_time
            /\ due_time < now (clock_at 3801)).
  { exists (seconds 2000 + minutes 30). split; reflexivity. }
  split; [exact Hdue|]. split; [reflexivity|].
  assert (Htick : exists result w',
            pet_engine_iteration 0 (clock_at 3801) (1 # 2) false
              (world_of fed_row) = Returns (TickCommitted result) w').
  { vm_compute. eexists _, _. reflexivity. }
  destruct Htick as (result & w' & Htick).
  exists result, w'. split; [exact Htick|].
  destruct (tick_digestion 0 (clock_at 3801) (1 # 2) false
              (world_of fed_row) w' fed_row result eq_refl eq_refl Htick)
    as (Hpoop & _).
  exact (Hpoop Hdue eq_refl).
Defined.

Lemma tick_emotion_consistent_witness :
  db_lock (world_of fed_row) = false
  /\ pet_of "ESP32_001" (world_of fed_row) = Some fed_row
  /\ (exists expire_at,
        emotion_expire_at fed_row = Some expire_at
        /\ now (clock_at 2001) < expire_at)
  /\ exists result w',
       pet_engine_iteration 0 (clock_at 2001) (1 # 2) false (world_of fed_row)
       = Returns (TickCommitted result) w'
       /\ current_emotion result = "EATING"
       /\ get_emotion_priority (clock_at 2001) result = "EATING".
Proof.
  split; [reflexivity|]. split; [reflexivity|].
  assert (Hlock : exists expire_at,
            emotion_expire_at fed_row = Some expire_at
            /\ now (clock_at 2001) < expire_at).
  { exists (seconds 2000 + seconds 3). split; reflexivity. }
  split; [exact Hlock|].
  assert (Htick : exists result w',
            pet_engine_iteration 0 (clock_at 2001) (1 # 2) false
              (world_of fed_row) = Returns (TickCommitted result) w').
  { vm_compute. eexists _, _. reflexivity. }
  destruct Htick as (result & w' & Htick).
  exists result, w'. split; [exact Htick|].
  destruct (tick_emotion_consistent 0 (clock_at 2001) (1 # 2) false
              (world_of fed_row) w' fed_row result eq_refl eq_refl Htick)
    as (Hprio & _ & Hkeep).
  pose proof (Hkeep Hlock) as He. split; [exact He|].
  rewrite Hprio. exact He.
Defined.

Lemma feed_digest_clean_cycle_witness :
  db_lock fresh_world = false
  /\ pet_of "ESP32_001" fresh_world = Some fresh_row
  /\ poop_present fresh_row = false
  /\ now (clock_at 2000) + minutes 30 < now (clock_at 3801)
  /\ exists fed w1 pooped w2 cleaned w3,
       pet_feed 0 (clock_at 2000) "ESP32_001" fresh_world
       = Returns (FeedOk (hunger fed) "EATING"
                    (Some (now (clock_at 2000) + minutes 30))) w1
       /\ pet_engine_iteration 0 (clock_at 3801) (1 # 2) false w1
          = Returns (TickCommitted pooped) w2
       /\ poop_present pooped = true
       /\ pet_clean 0 (clock_at 3900) "ESP32_001" w2
          = Returns (ActionOk cleaned) w3
       /\ poop_present cleaned = false.
Proof.
  split; [reflexivity|]. split; [reflexivity|]. split; [reflexivity|].
  split; [reflexivity|].
  destruct (feed_digest_clean_cycle 0 (clock_at 2000) (clock_at 3801)
              (clock_at 3900) (1 # 2) false fresh_world fresh_row
              eq_refl eq_refl eq_refl eq_refl)
    as (fed & w1 & pooped & w2 & cleaned & w3 & Hfeed & _ & _ & Htick & _ &
        Hpoop & _ & _ & _ & _ & Hclean & _ & Hgone & _).
  exists fed, w1, pooped, w2, cleaned, w3. repeat split; assumption.
Defined.

Lemma pet_clean_effect_witness :
  db_lock (world_of pooped_row) = false
  /\ pet_of "ESP32_001" (world_of pooped_row) = Some pooped_row
  /\ poop_present pooped_row = true
  /\ exists result w',
       pet_clean 0 (clock_at 1100) "ESP32_001" (world_of pooped_row)
       = Returns (ActionOk result) w'
       /\ poop_present result = false
       /\ health result = py_min 100 (health pooped_row + 5)
       /\ version result = version pooped_row + 2.
Proof.
  split; [reflexivity|]. split; [reflexivity|]. split; [reflexivity|].
  destruct (pet_clean_effect 0 (clock_at 1100) "ESP32_001"
              (world_of pooped_row) eq_refl) as (_ & _ & Hclean).
  destruct (Hclean pooped_row eq_refl eq_refl)
    as (result & w' & Hrun & _ & Hp & _ & _ & Hh & _ & _ & _ & _ & Hv & _).
  exists result, w'. repeat split; assumption.
Defined.

Lemma pet_inject_effect_witness :
  db_lock (world_of sick_row) = false
  /\ pet_of "ESP32_001" (world_of sick_row) = Some sick_row
  /\ health sick_row < 80
  /\ exists result w',
       pet_inject 0 (clock_at 1100) "ESP32_001" (world_of sick_row)
       = Returns (ActionOk result) w'
       /\ health result = health sick_row + 20
       /\ current_emotion result = "RECOVER".
Proof.
  split; [reflexivity|]. split; [reflexivity|]. split; [reflexivity|].
  destruct (pet_inject_effect 0 (clock_at 1100) "ESP32_001"
              (world_of sick_row) eq_refl) as (_ & _ & Hinject).
  destruct (Hinject sick_row eq_refl eq_refl)
    as (result & w' & Hrun & _ & Hh & _ & He & _).
  exists result, w'. repeat split; assumption.
Defined.

Lemma pet_play_result_effect_witness :
  db_lock (world_of sick_row) = false
  /\ pet_of "ESP32_001" (world_of sick_row) = Some sick_row
  /\ exists result w',
       pet_play_result 0 (clock_at 1100) "ESP32_001" "DRAW" (world_of sick_row)
       = Returns (ActionOk result) w'
       /\ happiness result = py_max 0 (happiness sick_row - 10)
       /\ current_emotion result = "LOSE".
Proof.
  split; [reflexivity|]. split; [reflexivity|].
  destruct (pet_play_result_effect 0 (clock_at 1100) "ESP32_001" "DRAW"
              (world_of sick_row) eq_refl) as (_ & Hplay).
  destruct (Hplay sick_row eq_refl)
    as (result & w' & Hrun & _ & _ & Hlose & _).
  destruct (Hlose ltac:(discriminate)) as (Hh & He).
  exists result, w'. repeat split; assumption.
Defined.

Lemma pet_menu_then_poll_witness :
  in_strings "PLAY" ["MAIN"; "HEALTH"; "CLEAN"; "FEED"; "PLAY"] = true
  /\ db_lock food_menu_world = false
  /\ oled_of "ESP32_001" food_menu_world = None
  /\ exists result w' disp,
       pet_menu 0 "ESP32_001" "PLAY" food_menu_world
       = Returns (MenuOk "PLAY") w'
       /\ pet_of "ESP32_001" w' = Some result
       /\ get_oled_display (clock_at 1010) "ESP32_001" w' = Returns disp w'
       /\ d_mode disp = "AUTOMATIC"
       /\ d_screen_type disp = "PLAY".
Proof.
  split; [reflexivity|]. split; [reflexivity|]. split; [reflexivity|].
  destruct (pet_menu_then_poll 0 (clock_at 1010) "ESP32_001" "PLAY"
              food_menu_world) as (_ & Hok).
  destruct (Hok eq_refl eq_refl) as (_ & Hset).
  destruct (Hset (set_field fresh_row (F_current_menu "FOOD_MENU")) eq_refl)
    as (result & w' & Hrun & Hrow & _ & _ & _ & Hpoll).
  destruct (Hpoll eq_refl) as (disp & Hdisp & Hmode & Hscreen).
  exists result, w', disp. repeat split; assumption.
Defined.

Lemma switch_menu_unknown_device_witness :
  in_strings "FOOD_MENU" ["MAIN"; "FOOD_MENU"; "TOILET_MENU"] = true
  /\ db_lock fresh_world = false
  /\ pet_of "D1" fresh_world = None
  /\ switch_menu "D1" "FOOD_MENU" fresh_world
     = Returns (MenuOk "FOOD_MENU") fresh_world.
Proof.
  split; [reflexivity|]. split; [reflexivity|]. split; [reflexivity|].
  destruct (switch_menu_unknown_device "D1" "FOOD_MENU" fresh_world)
    as (_ & Hok).
  exact (Hok eq_refl eq_refl eq_refl).
Defined.

Lemma set_display_then_poll_witness :
  db_lock fresh_world = false
  /\ exists w' disp,
       set_oled_display (clock_at 2000) true 2 (Some "pet") "ESP32_001"
         fresh_world = Returns RespOk w'
       /\ get_oled_display (clock_at 2001) "ESP32_001" w' = Returns disp w'
       /\ d_mode disp = "MANUAL"
       /\ d_animation_id disp = 2
       /\ d_animation_name disp = Some "ADULT".
Proof.
  split; [reflexivity|].
  destruct (set_display_then_poll (clock_at 2000) (clock_at 2001) true 2
              (Some "pet") "ESP32_001" fresh_world) as (_ & Hok).
  destruct (Hok eq_refl ltac:(lia) eq_refl)
    as (w' & disp & Hrun & _ & Hpoll & Hmode & Hid & Hname & _).
  exists w', disp. repeat split; assumption.
Defined.

Lemma toggle_icon_then_poll_witness :
  db_lock food_menu_world = false
  /\ oled_of "ESP32_001" food_menu_world = None
  /\ exists w' disp,
       toggle_icon (clock_at 2000) FoodIcon (Some true) "ESP32_001"
         food_menu_world = Returns RespOk w'
       /\ get_oled_display (clock_at 2001) "ESP32_001" w' = Returns disp w'
       /\ d_mode disp = "MANUAL"
       /\ d_show_food_icon disp = true
       /\ d_animation_id disp = 1
       /\ d_stage disp = "CHILD".
Proof.
  split; [reflexivity|]. split; [reflexivity|].
  destruct (toggle_icon_then_poll (clock_at 2000) (clock_at 2001) FoodIcon
              (Some true) "ESP32_001" food_menu_world eq_refl)
    as (w' & disp & Hrun & _ & Hpoll & Hmode & _ & Hfood & _ & _ & _ & Hnew).
  destruct (Hnew eq_refl) as (Hid & Hstage).
  exists w', disp. repeat split; assumption.
Defined.

Lemma reset_display_effect_witness :
  db_lock fresh_world = false
  /\ oled_of "ESP32_001" fresh_world <> None
  /\ exists w',
       reset_oled_display "ESP32_001" fresh_world = Returns RespOk w'
       /\ oled_of "ESP32_001" w' = None
       /\ pet_state w' = pet_state fresh_world.
Proof.
  split; [reflexivity|]. split; [discriminate|].
  destruct (reset_display_effect "ESP32_001" fresh_world eq_refl)
    as (w' & Hrun & Hrow & _ & Hpet & _).
  exists w'. repeat split; assumption.
Defined.

Lemma startup_lock_window_witness :
  db_lock fresh_world = false
  /\ exists w' disp,
       device_startup_complete (clock_at 2000) "ESP32_001" fresh_world
       = Returns RespOk w'
       /\ get_oled_display (clock_at 2004) "ESP32_001" w'
          = Returns startup_display w'
       /\ get_oled_display (clock_at 2005) "ESP32_001" w' = Returns disp w'
       /\ d_mode disp = "MANUAL".
Proof.
  split; [reflexivity|].
  destruct (startup_lock_window (clock_at 2000) "ESP32_001" fresh_world
              eq_refl) as (w' & Hrun & Hsoon & Hlate).
  destruct (Hlate (clock_at 2005)) as (disp & Hpoll & Hmode & _).
  { vm_compute. discriminate. }
  exists w', disp. split; [exact Hrun|]. split.
  - apply Hsoon. vm_compute. discriminate.
  - split; assumption.
Defined.

Lemma startup_resets_pet_witness :
  db_lock hungry_world = false
  /\ (exists old, pet_of "ESP32_001" hungry_world = Some old
                  /\ hunger old = 50%Q)
  /\ exists w' r,
       device_startup_complete (clock_at 2000) "ESP32_001" hungry_world
       = Returns RespOk w'
       /\ pet_of "ESP32_001" w' = Some r
       /\ hunger r = 0%Q /\ stage r = "INFANT" /\ row_id r = 1.
Proof.
  split; [reflexivity|].
  split; [eexists; split; reflexivity|].
  destruct (startup_resets_pet (clock_at 2000) "ESP32_001" hungry_world
              eq_refl)
    as (w' & r & Hrun & Hrow & _ & Hst & _ & Hh & _ & _ & _ & _ & _ & _ & _ &
        _ & _ & _ & _ & Hold & _).
  destruct (Hold _ eq_refl) as (Hid & _).
  exists w', r. repeat split; assumption.
Defined.

Lemma init_database_idempotent_witness :
  db_lock empty_world = false
  /\ exists w',
       init_database (clock_at 1000) empty_world = Returns true w'
       /\ pet_state w'
          = [default_pet_row 1 "ESP32_001" (CURRENT_TIMESTAMP (clock_at 1000))]
       /\ init_database (clock_at 5000) w' = Returns true w'.
Proof.
  split; [reflexivity|].
  destruct (init_database_idempotent (clock_at 1000) empty_world eq_refl)
    as (w' & Hrun & _ & _ & Hpet & _ & _ & Hagain).
  exists w'. split; [exact Hrun|]. split; [exact (Hpet eq_refl)|].
  apply Hagain.
Defined.

Lemma acknowledgement_clears_pending_witness :
  exists w',
    mark_event_received (Some 1) "ESP32_001" event_world
    = Returns (AckOk 1) w'
    /\ unsent_events "ESP32_001" event_world <> []
    /\ unsent_events "ESP32_001" w'
       = filter (fun e => negb (e_id e =? 1))
           (unsent_events "ESP32_001" event_world)
    /\ unsent_events "ESP32_001" w' = [].
Proof.
  assert (Hrun : exists w',
            mark_event_received (Some 1) "ESP32_001" event_world
            = Returns (AckOk 1) w'
            /\ unsent_events "ESP32_001" w' = []).
  { vm_compute. eexists. split; reflexivity. }
  destruct Hrun as (w' & Hrun & Hnil).
  exists w'. split; [exact Hrun|]. split; [discriminate|].
  destruct (acknowledgement_clears_pending 1 "ESP32_001" event_world w'
              (AckOk 1) Hrun) as (Hpending & _).
  split; [exact Hpending | exact Hnil].
Defined.

Lemma step_rate_limit_witness :
  [spike; spike; spike; spike] <> []
  /\ exists n w',
       count_request_steps still [spike; spike; spike; spike] 1000 empty_world
       = Returns n w'
       /\ 2 * n <= 5.
Proof.
  split; [discriminate|].
  destruct (step_rate_limit still [spike; spike; spike; spike] 1000
              empty_world ltac:(discriminate)) as (n & w' & Hrun & _ & Hn).
  exists n, w'. split; [exact Hrun | exact Hn].
Defined.

Lemma step_stats_accumulate_witness :
  db_lock fresh_world = false
  /\ (forall c, In c [(clock_at 1000, 3); (clock_at 1002, 5);
                      (clock_at 1004, 2)] ->
                today (fst c) = 0)
  /\ exists table' r',
       report_steps "ESP32_001"
         [(clock_at 1000, 3); (clock_at 1002, 5); (clock_at 1004, 2)] []
         fresh_world = Returns table' fresh_world
       /\ find (stat_key "ESP32_001" 0) table' = Some r'
       /\ total_steps r' = Some 10
       /\ peak_steps r' = Some 5
       /\ activity_level r' = "LOW".
Proof.
  assert (Hday : forall c, In c [(clock_at 1000, 3); (clock_at 1002, 5);
                                 (clock_at 1004, 2)] ->
                           today (fst c) = 0).
  { intros c [<- | [<- | [<- | []]]]; reflexivity. }
  split; [reflexivity|]. split; [exact Hday|].
  destruct (step_stats_accumulate "ESP32_001" 0 (clock_at 1000) 3
              [(clock_at 1002, 5); (clock_at 1004, 2)] [] fresh_world
              eq_refl Hday)
    as (table' & r' & Hrun & Hfind & (Ht & Hp & Ha) & _).
  exists table', r'. repeat split; assumption.
Defined.

Lemma atomic_update_frame_witness :
  db_lock fresh_world = false
  /\ NoDup (map row_id (pet_state fresh_world))
  /\ exists result w',
       update_pet_state_atomic 0 "ESP32_001" [F_health 90] fresh_world
       = Returns result w'
       /\ result = Some (merged [F_health 90] fresh_row)
       /\ map row_id (pet_state w') = map row_id (pet_state fresh_world)
       /\ oled_display_state w' = oled_display_state fresh_world.
Proof.
  assert (Hnd : NoDup (map row_id (pet_state fresh_world))).
  { repeat constructor. intros []. }
  split; [reflexivity|]. split; [exact Hnd|].
  destruct (atomic_update_frame 0 "ESP32_001" [F_health 90] fresh_world
              eq_refl Hnd)
    as (result & w' & Hrun & _ & Hsome & _ & Hids & _ & Holed & _).
  destruct (Hsome fresh_row eq_refl) as (Hres & _).
  exists result, w'. repeat split; assumption.
Defined.

Lemma poll_answers_without_writing_witness :
  exists disp,
    get_oled_display (clock_at 1010) "ESP32_001" (world_of fresh_row)
    = Returns disp (world_of fresh_row)
    /\ d_http disp = 200
    /\ d_mode disp = "AUTOMATIC"
    /\ d_screen_type disp = "MAIN".
Proof.
  assert (Hrun : exists disp w',
            get_oled_display (clock_at 1010) "ESP32_001" (world_of fresh_row)
            = Returns disp w'
            /\ d_mode disp = "AUTOMATIC" /\ d_screen_type disp = "MAIN").
  { vm_compute. eexists _, _. repeat split. }
  destruct Hrun as (disp & w' & Hrun & Hmode & Hscreen).
  destruct (poll_answers_without_writing (clock_at 1010) "ESP32_001"
              (world_of fresh_row) w' disp Hrun) as (Hsame & Hhttp & _).
  exists disp. rewrite Hsame in Hrun. repeat split; assumption.
Defined.
